(** * viewportCapture: a shallow embedding of viewportCapture_2025_v03.py

    The development follows the Python source method by method.  Python
    values are a small dynamically typed universe ([value]); exceptions are
    an error monad ([result]); the Maya session, the file system and the
    tool instance are threaded explicitly.  What belongs to the Python
    runtime or to Maya rather than to the script (the text of a float, the
    repr of a string, the results of Maya queries, os.path.join, os.listdir)
    is a field of a class the definitions are parameterised by. *)

From Stdlib Require Import ZArith List String Ascii Lia DecimalString Permutation.
From stdpp Require Import gmap strings list fin_maps sorting.
Import ListNotations.

Local Open Scope string_scope.
Local Open Scope Z_scope.
Local Open Scope list_scope.

(** ** Text helpers *)

(** The double quote character, as a one-character string. *)
Definition dq : string := String (ascii_of_nat 34) EmptyString.

(** The newline character, as a one-character string. *)
Definition nl : string := String (ascii_of_nat 10) EmptyString.

(** [q s] is [s] between double quotes. *)
Definition q (s : string) : string := dq +:+ s +:+ dq.

(** Decimal text of an integer, as Python prints an int. *)
Definition z_str (z : Z) : string := NilZero.string_of_int (Z.to_int z).

(** One character lowered, for the letters A to Z. *)
Definition ascii_lower (c : ascii) : ascii :=
  let n := nat_of_ascii c in
  if (Nat.leb 65 n && Nat.leb n 90)%bool then ascii_of_nat (n + 32) else c.

(** str.lower() on text made of ASCII characters. *)
Fixpoint str_lower (s : string) : string :=
  match s with
  | EmptyString => EmptyString
  | String c r => String (ascii_lower c) (str_lower r)
  end.

(** sep.join(parts) *)
Fixpoint str_join (sep : string) (parts : list string) : string :=
  match parts with
  | [] => EmptyString
  | [p] => p
  | p :: rest => p +:+ sep +:+ str_join sep rest
  end.

(** needle in hay, for two strings *)
Definition str_contains (needle hay : string) : bool :=
  match String.index 0 needle hay with
  | Some _ => true
  | None => false
  end.

(** s.startswith(p) *)
Fixpoint str_startswith (p s : string) : bool :=
  match p with
  | EmptyString => true
  | String a p' =>
      match s with
      | String b s' => (Ascii.eqb a b && str_startswith p' s')%bool
      | EmptyString => false
      end
  end.

(** s.endswith(suffix) *)
Definition str_endswith (s suffix : string) : bool :=
  let n := String.length s in
  let m := String.length suffix in
  (Nat.leb m n && String.eqb (String.substring (n - m) m s) suffix)%bool.

(** s[:-k] for a string of at least k characters *)
Definition str_drop_last (k : nat) (s : string) : string :=
  String.substring 0 (String.length s - k) s.

(** ** Exceptions and the error monad *)

Inductive exn : Type :=
  | KeyError (key : string)
  | IndexError
  | TypeError
  | ValueError
  | AttributeError
  | OSError
  | HostError (msg : string).

Inductive result (A : Type) : Type :=
  | Ok (a : A)
  | Raise (e : exn).

Arguments Ok {A} a.
Arguments Raise {A} e.

Definition bind {A B : Type} (r : result A) (k : A -> result B) : result B :=
  match r with
  | Ok a => k a
  | Raise e => Raise e
  end.

Notation "'let*' x ':=' r 'in' k" := (bind r (fun x => k))
  (at level 10, x name, r at level 100, k at level 200).

Definition is_ok {A : Type} (r : result A) : bool :=
  match r with Ok _ => true | Raise _ => false end.

(** ** Python values *)

(** What the script takes from the Python runtime and this development
    leaves open: floats, with the three things the script does to one
    (print it, test it for truth, convert it to an int), the repr of a str
    (the quoting and escaping Python applies inside containers), int of a
    str, and the message of an exception. *)
Class PyRuntime : Type := {
  float : Type;
  float_repr : float -> string;
  float_bool : float -> bool;
  float_int : float -> result Z;
  str_repr : string -> string;
  str_int : string -> result Z;
  exn_str : exn -> string
}.

Set Warnings "-register-all".

Section Python.

Context {PR : PyRuntime}.

Inductive value : Type :=
  | VNone
  | VBool (b : bool)
  | VInt (z : Z)
  | VFloat (f : float)
  | VStr (s : string)
  | VList (l : list value)
  | VTuple (l : list value)
  | VDict (d : list (string * value)).

(** A dict is an association list in insertion order, as Python iterates
    it; a real dict has each key once. *)
Definition dict : Type := list (string * value).

Fixpoint dict_get (k : string) (d : dict) : option value :=
  match d with
  | [] => None
  | (k', v) :: rest => if String.eqb k k' then Some v else dict_get k rest
  end.

Definition dict_has (k : string) (d : dict) : bool :=
  match dict_get k d with Some _ => true | None => false end.

(** d[k] = v: replaces the value in place when the key is there, appends
    the pair otherwise. *)
Fixpoint dict_set (k : string) (v : value) (d : dict) : dict :=
  match d with
  | [] => [(k, v)]
  | (k', v') :: rest =>
      if String.eqb k k' then (k', v) :: rest else (k', v') :: dict_set k v rest
  end.

Definition dict_keys (d : dict) : list string := map fst d.

(** bool(v) *)
Definition py_bool (v : value) : bool :=
  match v with
  | VNone => false
  | VBool b => b
  | VInt z => negb (Z.eqb z 0)
  | VFloat f => float_bool f
  | VStr s => negb (String.eqb s EmptyString)
  | VList l => match l with [] => false | _ => true end
  | VTuple l => match l with [] => false | _ => true end
  | VDict d => match d with [] => false | _ => true end
  end.

(** repr(v) *)
Fixpoint py_repr (v : value) : string :=
  match v with
  | VNone => "None"
  | VBool true => "True"
  | VBool false => "False"
  | VInt z => z_str z
  | VFloat f => float_repr f
  | VStr s => str_repr s
  | VList l => "[" +:+ str_join ", " (map py_repr l) +:+ "]"
  | VTuple l =>
      match l with
      | [x] => "(" +:+ py_repr x +:+ ",)"
      | _ => "(" +:+ str_join ", " (map py_repr l) +:+ ")"
      end
  | VDict d =>
      "{" +:+ str_join ", "
                (map (fun kv => match kv with
                                | (k, x) => str_repr k +:+ ": " +:+ py_repr x
                                end) d) +:+ "}"
  end.

(** str(v), which is also what format prints for a bare brace pair *)
Definition py_str (v : value) : string :=
  match v with
  | VStr s => s
  | _ => py_repr v
  end.

(** int(v) *)
Definition py_int (v : value) : result Z :=
  match v with
  | VBool b => Ok (if b then 1 else 0)
  | VInt z => Ok z
  | VFloat f => float_int f
  | VStr s => str_int s
  | VNone | VList _ | VTuple _ | VDict _ => Raise TypeError
  end.

Definition is_str (k : string) (v : value) : bool :=
  match v with VStr s => String.eqb s k | _ => false end.

(** k in v, for a string k *)
Definition py_contains (k : string) (v : value) : result bool :=
  match v with
  | VDict d => Ok (dict_has k d)
  | VStr s => Ok (str_contains k s)
  | VList l => Ok (existsb (is_str k) l)
  | VTuple l => Ok (existsb (is_str k) l)
  | VNone | VBool _ | VInt _ | VFloat _ => Raise TypeError
  end.

(** v[k], for a string k *)
Definition py_getitem (v : value) (k : string) : result value :=
  match v with
  | VDict d => match dict_get k d with
               | Some x => Ok x
               | None => Raise (KeyError k)
               end
  | _ => Raise TypeError
  end.

(** v[i], for an index i that is 0, 1 or 2 *)
Definition py_index (v : value) (i : nat) : result value :=
  match v with
  | VList l | VTuple l =>
      match nth_error l i with
      | Some x => Ok x
      | None => Raise IndexError
      end
  | VStr s =>
      match String.get i s with
      | Some c => Ok (VStr (String c EmptyString))
      | None => Raise IndexError
      end
  | VDict _ => Raise (KeyError (z_str (Z.of_nat i)))
  | VNone | VBool _ | VInt _ | VFloat _ => Raise TypeError
  end.

(** v.get(k, default) *)
Definition py_get (v : value) (k : string) (default : value) : result value :=
  match v with
  | VDict d => match dict_get k d with
               | Some x => Ok x
               | None => Ok default
               end
  | _ => Raise AttributeError
  end.

(** v.items() *)
Definition py_items (v : value) : result (list (string * value)) :=
  match v with
  | VDict d => Ok d
  | _ => Raise AttributeError
  end.

(** isinstance(v, bool) and isinstance(v, (list, tuple)) *)
Definition is_bool (v : value) : bool :=
  match v with VBool _ => true | _ => false end.

Definition is_sequence (v : value) : bool :=
  match v with VList _ | VTuple _ => true | _ => false end.

End Python.

(** ** The tool instance *)

(** The type tags of hw2_attrs: the Python types bool, int and float, and
    the string float3. *)
Inductive attr_type : Type := TBool | TInt | TFloat | TFloat3.

Definition is_float3 (t : attr_type) : bool :=
  match t with TFloat3 => true | _ => false end.

Section Instance.

Context {PR : PyRuntime}.

(** The attributes of a ViewportCapture object.  A widget attribute holds
    what the widget shows: the text of the scroll field and of the status
    label, the items of the preset list, the state of the check box. *)
Record ViewportCapture : Type := {
  window_name : string;
  result_field : string;
  status_label : string;
  preset_list : list string;
  last_captured_settings : value;
  gpu_cache_enabled : value;
  gpu_checkbox : value;
  custom_preset_path : string;
  display_attrs : list string;
  hw2_attrs : list (string * attr_type)
}.

Definition the_display_attrs : list string :=
  [ "nurbsCurves"; "nurbsSurfaces"; "polymeshes"; "subdivSurfaces";
    "planes"; "lights"; "joints"; "ikHandles"; "deformers";
    "dynamics"; "fluids"; "hairSystems"; "follicles"; "nCloths";
    "nParticles"; "nRigids"; "dynamicConstraints"; "locators";
    "manipulators"; "grid"; "handles"; "pivots"; "textures";
    "strokes"; "selectionHiliteDisplay"; "headsUpDisplay";
    "displayLights"; "wireframeOnShaded"; "wireframe"; "xray";
    "backfaceCulling"; "smoothWireframe"; "displayTextures";
    "displayAppearance"; "useDefaultMaterial"; "hwFog"; "fogging";
    "dimensions"; "cv"; "particleInstancers"; "motionTrails";
    "cameras"; "imagePlane"; "hulls"; "twoSidedLighting"; "shadows";
    "jointXray"; "activeComponentsXray" ].

Definition the_hw2_attrs : list (string * attr_type) :=
  [ ("multiSampleEnable", TBool);
    ("multiSampleCount", TInt);
    ("ssaoEnable", TBool);
    ("ssaoAmount", TFloat);
    ("ssaoRadius", TFloat);
    ("ssaoFilterRadius", TFloat);
    ("motionBlurEnable", TBool);
    ("motionBlurSampleCount", TInt);
    ("motionBlurShutterOpenFraction", TFloat);
    ("motionBlurShutterCloseFraction", TFloat);
    ("transparencyAlgorithm", TInt);
    ("transparencyQuality", TFloat);
    ("transparencyShadowDepth", TInt);
    ("lineAAEnable", TBool);
    ("maxHardwareLines", TInt);
    ("minimumPixelWidth", TFloat);
    ("hwFogEnable", TBool);
    ("hwFogMode", TInt);
    ("hwFogStart", TFloat);
    ("hwFogEnd", TFloat);
    ("hwFogDensity", TFloat);
    ("hwFogColor", TFloat3);
    ("hwFogFalloff", TInt);
    ("hwFogRatio", TFloat);
    ("defaultLightIntensity", TFloat);
    ("consolidateWorld", TBool);
    ("maxHardwareLights", TInt);
    ("transparentShadow", TBool);
    ("alphaCutPrepass", TBool) ].

(** The attribute values __init__ assigns, before the window is built. *)
Definition init_instance : ViewportCapture := {|
  window_name := "viewportCaptureWin";
  result_field := "// Capture a viewport to see settings";
  status_label := "Status: Ready";
  preset_list := [];
  last_captured_settings := VNone;
  gpu_cache_enabled := VBool false;
  gpu_checkbox := VBool false;
  custom_preset_path := "M:/MyProjectData/MayaViewportPresets/";
  display_attrs := the_display_attrs;
  hw2_attrs := the_hw2_attrs
|}.

(** update_status: the label is set to the message after a fixed prefix. *)
Definition update_status (self : ViewportCapture) (message : string)
  : ViewportCapture :=
  {| window_name := window_name self;
     result_field := result_field self;
     status_label := "Status: " +:+ message;
     preset_list := preset_list self;
     last_captured_settings := last_captured_settings self;
     gpu_cache_enabled := gpu_cache_enabled self;
     gpu_checkbox := gpu_checkbox self;
     custom_preset_path := custom_preset_path self;
     display_attrs := display_attrs self;
     hw2_attrs := hw2_attrs self |}.

Definition set_result_field (self : ViewportCapture) (text : string)
  : ViewportCapture :=
  {| window_name := window_name self;
     result_field := text;
     status_label := status_label self;
     preset_list := preset_list self;
     last_captured_settings := last_captured_settings self;
     gpu_cache_enabled := gpu_cache_enabled self;
     gpu_checkbox := gpu_checkbox self;
     custom_preset_path := custom_preset_path self;
     display_attrs := display_attrs self;
     hw2_attrs := hw2_attrs self |}.

Definition set_preset_list (self : ViewportCapture) (items : list string)
  : ViewportCapture :=
  {| window_name := window_name self;
     result_field := result_field self;
     status_label := status_label self;
     preset_list := items;
     last_captured_settings := last_captured_settings self;
     gpu_cache_enabled := gpu_cache_enabled self;
     gpu_checkbox := gpu_checkbox self;
     custom_preset_path := custom_preset_path self;
     display_attrs := display_attrs self;
     hw2_attrs := hw2_attrs self |}.

Definition set_last_captured_settings (self : ViewportCapture) (s : value)
  : ViewportCapture :=
  {| window_name := window_name self;
     result_field := result_field self;
     status_label := status_label self;
     preset_list := preset_list self;
     last_captured_settings := s;
     gpu_cache_enabled := gpu_cache_enabled self;
     gpu_checkbox := gpu_checkbox self;
     custom_preset_path := custom_preset_path self;
     display_attrs := display_attrs self;
     hw2_attrs := hw2_attrs self |}.

Definition set_gpu_cache_enabled (self : ViewportCapture) (g : value)
  : ViewportCapture :=
  {| window_name := window_name self;
     result_field := result_field self;
     status_label := status_label self;
     preset_list := preset_list self;
     last_captured_settings := last_captured_settings self;
     gpu_cache_enabled := g;
     gpu_checkbox := gpu_checkbox self;
     custom_preset_path := custom_preset_path self;
     display_attrs := display_attrs self;
     hw2_attrs := hw2_attrs self |}.

(** The state of the check box is written by checkbox_edit alone, and
    that writes a bool. *)
Definition set_gpu_checkbox (self : ViewportCapture) (g : value)
  : ViewportCapture :=
  {| window_name := window_name self;
     result_field := result_field self;
     status_label := status_label self;
     preset_list := preset_list self;
     last_captured_settings := last_captured_settings self;
     gpu_cache_enabled := gpu_cache_enabled self;
     gpu_checkbox := g;
     custom_preset_path := custom_preset_path self;
     display_attrs := display_attrs self;
     hw2_attrs := hw2_attrs self |}.

End Instance.

(** ** settings_to_mel *)

Section Emitter.

Context {PR : PyRuntime}.

(** str(v).lower() *)
Definition lower_str (v : value) : string := str_lower (py_str v).

(** The fixed opening lines of the emitted procedure. *)
Definition mel_header : list string :=
  [ "// Viewport Settings - Generated by viewportCapture";
    "global proc viewportCaptureApply()";
    "{";
    "    string $panel = `getPanel -withFocus`;";
    "    if (`getPanel -typeOf $panel` != " +:+ q "modelPanel" +:+ ")";
    "    {";
    "        string $modelPanels[] = `getPanel -type " +:+ q "modelPanel" +:+ "`;";
    "        $panel = " +:+ dq +:+ dq +:+ ";";
    "        if (size($modelPanels) > 0)";
    "        {";
    "            $panel = $modelPanels[0];";
    "        }";
    "        if ($panel == " +:+ dq +:+ dq +:+ ")";
    "        {";
    "            error " +:+ q "No valid modelPanel found.\nPlease open a viewport first." +:+ ";";
    "            return;";
    "        }";
    "    }";
    EmptyString;
    "    // Set Viewport 2.0 renderer";
    "    modelEditor -e -rendererName " +:+ q "vp2Renderer" +:+ " $panel;";
    EmptyString;
    "    string $camera = `modelEditor -q -camera $panel`;";
    "    if ($camera != " +:+ dq +:+ dq +:+ ")";
    "    {";
    "        // Camera Gate Settings" ].

(** One guarded append: if key in section, append line(section[key]). *)
Definition emit_if_in (section : value) (key : string)
    (line : value -> result string) (mel_commands : list string)
  : result (list string) :=
  let* present := py_contains key section in
  if present then
    let* v := py_getitem section key in
    let* l := line v in
    Ok (mel_commands ++ [l])
  else Ok mel_commands.

Definition camera_flag_line (flag : string) (text : string) : string :=
  "        camera -e -" +:+ flag +:+ " " +:+ text +:+ " $camera;".

Definition emit_camera_gate (settings : value) (mel_commands : list string)
  : result (list string) :=
  let* present := py_contains "camera_gate" settings in
  if present then
    let* camera_gate := py_getitem settings "camera_gate" in
    let* mel_commands :=
      emit_if_in camera_gate "displayFilmGate"
        (fun v => Ok (camera_flag_line "displayFilmGate" (lower_str v)))
        mel_commands in
    let* mel_commands :=
      emit_if_in camera_gate "displayResolution"
        (fun v => Ok (camera_flag_line "displayResolution" (lower_str v)))
        mel_commands in
    emit_if_in camera_gate "overscan"
      (fun v => Ok (camera_flag_line "overscan" (py_str v)))
      mel_commands
  else Ok mel_commands.

Definition emit_camera_mask (settings : value) (mel_commands : list string)
  : result (list string) :=
  let* present := py_contains "camera_mask" settings in
  if present then
    let* camera_mask := py_getitem settings "camera_mask" in
    emit_if_in camera_mask "displayGateMask"
      (fun v => Ok (camera_flag_line "displayGateMask" (lower_str v)))
      mel_commands
  else Ok mel_commands.

Definition emit_camera_filmfit (settings : value) (mel_commands : list string)
  : result (list string) :=
  let* present := py_contains "camera_filmfit" settings in
  if present then
    let* camera_filmfit := py_getitem settings "camera_filmfit" in
    emit_if_in camera_filmfit "filmFit"
      (fun v => Ok (camera_flag_line "filmFit" (py_str v)))
      mel_commands
  else Ok mel_commands.

(** The GPU cache block: the plugin-load guard and the filter flag, read
    with settings.get(plugin_display, {}).get(gpuCache, False). *)
Definition gpu_flag_line (text : string) : string :=
  "    modelEditor -e -pluginObjects gpuCacheDisplayFilter " +:+ text +:+ " $panel;".

(** The seven lines of the block, given the text of the flag. *)
Definition gpu_block (text : string) : list string :=
  [ "    // GPU Cache Settings";
    "    if (!`pluginInfo -q -loaded " +:+ q "gpuCache" +:+ "`)";
    "    {";
    "        loadPlugin " +:+ q "gpuCache" +:+ ";";
    "    }";
    gpu_flag_line text;
    EmptyString ].

Definition emit_gpu_cache (settings : value) (mel_commands : list string)
  : result (list string) :=
  let* plugin_display := py_get settings "plugin_display" (VDict []) in
  let* gpu := py_get plugin_display "gpuCache" (VBool false) in
  Ok (mel_commands ++ gpu_block (lower_str gpu)).

Definition model_editor_line (attr text : string) : string :=
  "    modelEditor -e -" +:+ attr +:+ " " +:+ text +:+ " $panel;".

Definition objexists_guard : list string :=
  [ "    if (!`objExists " +:+ q "hardwareRenderingGlobals" +:+ "`) {";
    "        createNode " +:+ q "hardwareRenderingGlobals" +:+ ";";
    "    }" ].

Definition fog_enable_line (text : string) : string :=
  "    setAttr " +:+ q "hardwareRenderingGlobals.hwFogEnable" +:+ " " +:+ text
    +:+ ";".

(** The body of the loop over settings[display].items(). *)
Definition emit_display_item (attr : string) (v : value)
    (mel_commands : list string) : result (list string) :=
  if String.eqb attr "hwFog" then
    let mel_commands := mel_commands ++ [model_editor_line "hwFog" (lower_str v)] in
    let mel_commands := mel_commands ++ objexists_guard in
    let* n := py_int v in
    Ok (mel_commands ++ [fog_enable_line (z_str n)])
  else if String.eqb attr "fogging" then
    Ok (mel_commands ++ [model_editor_line "fogging" (lower_str v)])
  else if (String.eqb attr "displayLights" || String.eqb attr "displayAppearance")%bool then
    Ok (mel_commands ++ [model_editor_line attr (q (py_str v))])
  else if String.eqb attr "twoSidedLighting" then
    Ok (mel_commands ++ [model_editor_line "twoSidedLighting" (lower_str v)])
  else if String.eqb attr "shadows" then
    Ok (mel_commands ++ [model_editor_line "shadows" (lower_str v)])
  else if String.eqb attr "jointXray" then
    Ok (mel_commands ++ [model_editor_line "jointXray" (lower_str v)])
  else if String.eqb attr "activeComponentsXray" then
    Ok (mel_commands ++ [model_editor_line "activeComponentsXray" (lower_str v)])
  else
    Ok (mel_commands ++ [model_editor_line attr (lower_str v)]).

Fixpoint emit_display_items (items : list (string * value))
    (mel_commands : list string) : result (list string) :=
  match items with
  | [] => Ok mel_commands
  | (attr, v) :: rest =>
      let* mel_commands := emit_display_item attr v mel_commands in
      emit_display_items rest mel_commands
  end.

Definition emit_display (settings : value) (mel_commands : list string)
  : result (list string) :=
  let mel_commands := mel_commands ++ ["    // Display Settings"] in
  let* display := py_getitem settings "display" in
  let* items := py_items display in
  emit_display_items items mel_commands.

Definition rgb_text (name t0 t1 t2 : string) : string :=
  "    displayRGBColor " +:+ q name +:+ " " +:+ t0 +:+ " " +:+ t1 +:+ " "
    +:+ t2 +:+ ";".

(** A colour statement: the three components c[0], c[1], c[2]. *)
Definition rgb_line (name : string) (c : value) : result string :=
  let* c0 := py_index c 0 in
  let* c1 := py_index c 1 in
  let* c2 := py_index c 2 in
  Ok (rgb_text name (py_str c0) (py_str c1) (py_str c2)).

Definition gradient_line (text : string) : string :=
  "    displayPref -displayGradient " +:+ text +:+ ";".

Definition emit_background (settings : value) (mel_commands : list string)
  : result (list string) :=
  let* present := py_contains "background" settings in
  if present then
    let mel_commands := mel_commands ++ [EmptyString] in
    let mel_commands := mel_commands ++ ["    // Background Settings"] in
    let* bg := py_getitem settings "background" in
    let* mel_commands :=
      emit_if_in bg "gradient" (fun v => Ok (gradient_line (lower_str v)))
        mel_commands in
    let* mel_commands :=
      emit_if_in bg "topColor" (rgb_line "backgroundTop") mel_commands in
    let* mel_commands :=
      emit_if_in bg "color" (rgb_line "background") mel_commands in
    let* gradient := py_get bg "gradient" VNone in
    if py_bool gradient then
      emit_if_in bg "bottomColor" (rgb_line "backgroundBottom") mel_commands
    else Ok mel_commands
  else Ok mel_commands.

Definition hw_attr_name (attr : string) : string :=
  "    setAttr " +:+ q ("hardwareRenderingGlobals." +:+ attr).

Definition hw_scalar_line (attr text : string) : string :=
  hw_attr_name attr +:+ " " +:+ text +:+ ";".

Definition hw_triple_line (attr t0 t1 t2 : string) : string :=
  hw_attr_name attr +:+ " -type double3 " +:+ t0 +:+ " " +:+ t1 +:+ " "
    +:+ t2 +:+ ";".

(** The body of the loop over settings[hardware2].items(). *)
Definition emit_hardware_item (attr : string) (v : value)
    (mel_commands : list string) : result (list string) :=
  let* v := if is_bool v then (let* n := py_int v in Ok (VInt n)) else Ok v in
  if is_sequence v then
    let* v0 := py_index v 0 in
    let* v1 := py_index v 1 in
    let* v2 := py_index v 2 in
    Ok (mel_commands ++
        [hw_triple_line attr (py_str v0) (py_str v1) (py_str v2)])
  else
    Ok (mel_commands ++ [hw_scalar_line attr (py_str v)]).

Fixpoint emit_hardware_items (items : list (string * value))
    (mel_commands : list string) : result (list string) :=
  match items with
  | [] => Ok mel_commands
  | (attr, v) :: rest =>
      let* mel_commands := emit_hardware_item attr v mel_commands in
      emit_hardware_items rest mel_commands
  end.

Definition emit_hardware (settings : value) (mel_commands : list string)
  : result (list string) :=
  let* present := py_contains "hardware2" settings in
  if present then
    let mel_commands := mel_commands ++ [EmptyString] in
    let mel_commands := mel_commands ++ ["    // Hardware 2.0 Settings"] in
    let mel_commands := mel_commands ++ objexists_guard in
    let* hardware2 := py_getitem settings "hardware2" in
    let* items := py_items hardware2 in
    emit_hardware_items items mel_commands
  else Ok mel_commands.

Definition mel_footer : list string :=
  [ "}"; EmptyString; "viewportCaptureApply();" ].

(** The list mel_commands as it stands at the return statement, for a
    snapshot that passed the guard at the top. *)
Definition mel_commands_of (settings : value) : result (list string) :=
  let mel_commands := mel_header in
  let* mel_commands := emit_camera_gate settings mel_commands in
  let* mel_commands := emit_camera_mask settings mel_commands in
  let* mel_commands := emit_camera_filmfit settings mel_commands in
  let mel_commands := mel_commands ++ ["    }"] in
  let mel_commands := mel_commands ++ [EmptyString] in
  let* mel_commands := emit_gpu_cache settings mel_commands in
  let* mel_commands := emit_display settings mel_commands in
  let* mel_commands := emit_background settings mel_commands in
  let* mel_commands := emit_hardware settings mel_commands in
  Ok (mel_commands ++ mel_footer).

Definition no_settings_text : string := "// No settings captured".

(** settings_to_mel(self, settings) *)
Definition settings_to_mel (self : ViewportCapture) (settings : value)
  : result string :=
  if negb (py_bool settings) then Ok no_settings_text
  else
    let* mel_commands := mel_commands_of settings in
    Ok (str_join nl mel_commands).

End Emitter.

(** ** JSON documents and the file system *)

Section Json.

Context {PR : PyRuntime}.

(** The document a preset file holds.  The json module's text layer (how a
    document is spelled and parsed back) is the library's and is not
    modelled: a file written by json.dump is the document it denotes. *)
Inductive json : Type :=
  | JNull
  | JBool (b : bool)
  | JInt (z : Z)
  | JFloat (f : float)
  | JString (s : string)
  | JArray (l : list json)
  | JObject (members : list (string * json)).

(** json.dump: lists and tuples both become arrays. *)
Fixpoint json_dump (v : value) : json :=
  match v with
  | VNone => JNull
  | VBool b => JBool b
  | VInt z => JInt z
  | VFloat f => JFloat f
  | VStr s => JString s
  | VList l => JArray (map json_dump l)
  | VTuple l => JArray (map json_dump l)
  | VDict d =>
      JObject (map (fun kv => match kv with (k, x) => (k, json_dump x) end) d)
  end.

(** json.load: arrays become lists; an object becomes a dict filled member
    by member, so a repeated name keeps its first place and its last
    value. *)
Fixpoint json_load (j : json) : value :=
  match j with
  | JNull => VNone
  | JBool b => VBool b
  | JInt z => VInt z
  | JFloat f => VFloat f
  | JString s => VStr s
  | JArray l => VList (map json_load l)
  | JObject members =>
      VDict (fold_left
               (fun d kv => match kv with (k, x) => dict_set k (json_load x) d end)
               members [])
  end.

(** What a path names: a directory, or a file holding a JSON document or
    text that is not one. *)
Inductive node : Type :=
  | Dir
  | File (data : option json).

End Json.

(** What the script takes from the operating system and this development
    leaves open: how os.path.join combines two components and what
    os.listdir enumerates for a directory (in whatever order). *)
Class OSLayer {PR : PyRuntime} : Type := {
  path_join : string -> string -> string;
  os_listdir : gmap string node -> string -> result (list string)
}.

Section FileSystem.

Context {PR : PyRuntime} {OS : OSLayer}.

Definition os_path_exists (fs : gmap string node) (p : string) : bool :=
  match fs !! p with Some _ => true | None => false end.

Definition os_path_isdir (fs : gmap string node) (p : string) : bool :=
  match fs !! p with Some Dir => true | _ => false end.

(** os.makedirs: refuses a path that exists.  Intermediate directories are
    not tracked, and what else the operating system may refuse (a parent
    that is a regular file, a directory that cannot be written) is left
    out: where get_preset_dir has to create the directory, what is proved
    below is about a file system that lets it. *)
Definition os_makedirs (fs : gmap string node) (p : string)
  : result (gmap string node) :=
  if os_path_exists fs p then Raise OSError else Ok (<[p := Dir]> fs).

(** open(p, w) followed by json.dump(v, f): fails on a directory, creates
    or replaces the file otherwise. *)
Definition write_json (fs : gmap string node) (p : string) (v : value)
  : result (gmap string node) :=
  match fs !! p with
  | Some Dir => Raise OSError
  | _ => Ok (<[p := File (Some (json_dump v))]> fs)
  end.

(** open(p, r) followed by json.load(f) *)
Definition read_json (fs : gmap string node) (p : string) : result value :=
  match fs !! p with
  | Some (File (Some j)) => Ok (json_load j)
  | Some (File None) => Raise ValueError
  | Some Dir => Raise OSError
  | None => Raise OSError
  end.

End FileSystem.

(** ** The Maya session *)

(** The commands of maya.cmds and maya.mel the modelled methods call.  A
    query reads the scene; an edit returns the changed scene or raises.
    cmds_checkBox_value is what the check box command makes of a value
    that is no bool when it is asked to show it: the boolean it shows, or
    the error it raises. *)
Class MayaHost {PR : PyRuntime} : Type := {
  scene : Type;
  cmds_getPanel_withFocus : scene -> value;
  cmds_getPanel_typeOf : scene -> value -> result value;
  cmds_getPanel_modelPanels : scene -> result (list value);
  cmds_modelEditor_query : scene -> value -> string -> result value;
  cmds_modelEditor_rendererName : scene -> value -> string -> result scene;
  cmds_refresh : scene -> scene;
  cmds_camera_query : scene -> value -> string -> result value;
  cmds_objExists : scene -> string -> bool;
  cmds_createNode : scene -> string -> result scene;
  cmds_setAttr : scene -> string -> value -> result scene;
  cmds_getAttr : scene -> string -> result value;
  cmds_displayPref_query : scene -> string -> result value;
  cmds_displayRGBColor_query : scene -> string -> result value;
  cmds_internalVar_userAppDir : scene -> string;
  cmds_checkBox_value : value -> result bool;
  mel_eval : scene -> string -> result scene
}.

(** ** State: the instance, the disk and the session *)

Section World.

Context {PR : PyRuntime} {OS : OSLayer} {MH : MayaHost}.

Record world : Type := {
  tool : ViewportCapture;
  disk : gmap string node;
  maya : scene
}.

Definition with_tool (w : world) (t : ViewportCapture) : world :=
  {| tool := t; disk := disk w; maya := maya w |}.

Definition with_disk (w : world) (fs : gmap string node) : world :=
  {| tool := tool w; disk := fs; maya := maya w |}.

Definition with_maya (w : world) (sc : scene) : world :=
  {| tool := tool w; disk := disk w; maya := sc |}.

(** A method body: it runs in a world and leaves a world, whether it
    returns or raises. *)
Definition M (A : Type) : Type := world -> result A * world.

Definition ret {A : Type} (a : A) : M A := fun w => (Ok a, w).

Definition raise {A : Type} (e : exn) : M A := fun w => (Raise e, w).

Definition bindM {A B : Type} (m : M A) (k : A -> M B) : M B :=
  fun w =>
    match m w with
    | (Ok a, w') => k a w'
    | (Raise e, w') => (Raise e, w')
    end.

(** try: m / except Exception as e: h e *)
Definition try_except {A : Type} (m : M A) (h : exn -> M A) : M A :=
  fun w =>
    match m w with
    | (Ok a, w') => (Ok a, w')
    | (Raise e, w') => h e w'
    end.

Definition lift {A : Type} (r : result A) : M A := fun w => (r, w).

Definition read {A : Type} (f : world -> A) : M A := fun w => (Ok (f w), w).

Definition modify (f : world -> world) : M unit := fun w => (Ok tt, f w).

(** An edit command of the session: the scene changes when it succeeds. *)
Definition edit_scene (f : scene -> result scene) : M unit :=
  fun w =>
    match f (maya w) with
    | Ok sc => (Ok tt, with_maya w sc)
    | Raise e => (Raise e, w)
    end.

(** A file system call that changes the disk when it succeeds. *)
Definition edit_disk (f : gmap string node -> result (gmap string node)) : M unit :=
  fun w =>
    match f (disk w) with
    | Ok fs => (Ok tt, with_disk w fs)
    | Raise e => (Raise e, w)
    end.

End World.

Notation "'let!' x ':=' m 'in' k" := (bindM m (fun x => k))
  (at level 10, x name, m at level 100, k at level 200).

(** ** The methods that capture, save, load and list *)

Section Methods.

Context {PR : PyRuntime} {OS : OSLayer} {MH : MayaHost}.

Definition set_status (message : string) : M unit :=
  modify (fun w => with_tool w (update_status (tool w) message)).

(** What the check box shows for a value it is given: a bool as it is,
    any other value as the host converts it, unless the host refuses
    it. *)
Definition checkbox_shows (v : value) : result bool :=
  match v with
  | VBool b => Ok b
  | _ => cmds_checkBox_value v
  end.

(** cmds.checkBox(self.gpu_checkbox, edit=True, value=v) *)
Definition checkbox_edit (v : value) : M unit :=
  fun w =>
    match checkbox_shows v with
    | Ok b => (Ok tt, with_tool w (set_gpu_checkbox (tool w) (VBool b)))
    | Raise e => (Raise e, w)
    end.

(** get_active_viewport *)
Fixpoint first_visible (sc : scene) (panels : list value) : result value :=
  match panels with
  | [] => Ok VNone
  | p :: rest =>
      let* visible := cmds_modelEditor_query sc p "visible" in
      if py_bool visible then Ok p else first_visible sc rest
  end.

Definition get_active_viewport : M value :=
  fun w =>
    let sc := maya w in
    let panel := cmds_getPanel_withFocus sc in
    let focused :=
      if py_bool panel then
        let* t := cmds_getPanel_typeOf sc panel in
        Ok (is_str "modelPanel" t)
      else Ok false in
    (let* ok := focused in
     if (ok : bool) then Ok panel
     else
       let* panels := cmds_getPanel_modelPanels sc in
       first_visible sc panels, w).

(** get_active_camera *)
Definition get_active_camera (panel : value) : M value :=
  fun w => (cmds_modelEditor_query (maya w) panel "camera", w).

(** ensure_viewport_20 *)
Definition ensure_viewport_20 (panel : value) : M unit :=
  let! current_renderer := (fun w => (cmds_modelEditor_query (maya w) panel "rendererName", w)) in
  let! _ :=
    try_except
      (if is_str "vp2Renderer" current_renderer then ret tt
       else edit_scene (fun sc => cmds_modelEditor_rendererName sc panel "vp2Renderer"))
      (fun _ => set_status "Warning: Could not set Viewport 2.0 renderer") in
  modify (fun w => with_maya w (cmds_refresh (maya w))).

(** settings[section][key] = v, on the dict literal capture_settings
    builds, where every section is a dict. *)
Definition section_set (section key : string) (v : value) (settings : dict)
  : dict :=
  match dict_get section settings with
  | Some (VDict d) => dict_set section (VDict (dict_set key v d)) settings
  | _ => settings
  end.

(** The statements of one try block that read a value and store it, one
    after the other: the stores made before a failing read stay. *)
Fixpoint try_assign (section : string) (reads : list (string * result value))
    (settings : dict) : dict * option exn :=
  match reads with
  | [] => (settings, None)
  | (key, Ok v) :: rest => try_assign section rest (section_set section key v settings)
  | (key, Raise e) :: _ => (settings, Some e)
  end.

(** A try block of stores whose handler reports a warning. *)
Definition try_assign_warn (section : string)
    (reads : list (string * result value)) (warning : string)
    (st : dict * world) : dict * world :=
  match try_assign section reads (fst st) with
  | (settings, None) => (settings, snd st)
  | (settings, Some e) =>
      (settings,
       with_tool (snd st) (update_status (tool (snd st)) (warning +:+ exn_str e)))
  end.

Definition capture_camera (active_camera : value) (st : dict * world)
  : dict * world :=
  let sc := maya (snd st) in
  let st :=
    try_assign_warn "camera_gate"
      [ ("displayFilmGate", cmds_camera_query sc active_camera "displayFilmGate");
        ("displayResolution", cmds_camera_query sc active_camera "displayResolution");
        ("overscan", cmds_camera_query sc active_camera "overscan") ]
      "Warning: Could not capture camera gate settings: " st in
  let st :=
    try_assign_warn "camera_mask"
      [ ("displayGateMask", cmds_camera_query sc active_camera "displayGateMask") ]
      "Warning: Could not capture camera gate mask setting: " st in
  try_assign_warn "camera_filmfit"
    [ ("filmFit", cmds_camera_query sc active_camera "filmFit") ]
    "Warning: Could not capture camera film fit setting: " st.

(** if not cmds.objExists(hardwareRenderingGlobals): cmds.createNode(...) *)
Definition ensure_globals : M unit :=
  fun w =>
    if cmds_objExists (maya w) "hardwareRenderingGlobals" then (Ok tt, w)
    else edit_scene (fun sc => cmds_createNode sc "hardwareRenderingGlobals") w.

Definition warn_capture (attr : string) (e : exn) (w : world) : world :=
  with_tool w
    (update_status (tool w)
       ("Warning: Could not capture " +:+ attr +:+ ": " +:+ exn_str e)).

(** One turn of the loop over display_attrs.  Every branch of the chain
    queries the flag named attr; the hwFog branch also stores the value at
    once and mirrors it onto the render globals. *)
Definition capture_display_attr (panel : value) (attr : string)
    (st : dict * world) : dict * world :=
  let settings := fst st in
  let w := snd st in
  match cmds_modelEditor_query (maya w) panel attr with
  | Raise e => (settings, warn_capture attr e w)
  | Ok val =>
      if String.eqb attr "hwFog" then
        let settings := section_set "display" attr val settings in
        match (let! _ := ensure_globals in
               edit_scene (fun sc =>
                 cmds_setAttr sc "hardwareRenderingGlobals.hwFogEnable" val)) w with
        | (Raise e, w') => (settings, warn_capture attr e w')
        | (Ok _, w') => (section_set "display" attr val settings, w')
        end
      else (section_set "display" attr val settings, w)
  end.

Definition capture_display (panel : value) (attrs : list string)
    (st : dict * world) : dict * world :=
  fold_left (fun st attr => capture_display_attr panel attr st) attrs st.

Definition capture_background (st : dict * world) : dict * world :=
  let sc := maya (snd st) in
  try_assign_warn "background"
    [ ("gradient", cmds_displayPref_query sc "displayGradient");
      ("color", cmds_displayRGBColor_query sc "background");
      ("topColor", cmds_displayRGBColor_query sc "backgroundTop");
      ("bottomColor", cmds_displayRGBColor_query sc "backgroundBottom") ]
    "Warning: Could not capture background settings: " st.

(** One turn of the loop over hw2_attrs.items(). *)
Definition capture_hw2_attr (attr : string) (attr_type : attr_type)
    (st : dict * world) : dict * world :=
  let sc := maya (snd st) in
  let read :=
    if is_float3 attr_type then
      let* r := cmds_getAttr sc ("hardwareRenderingGlobals." +:+ attr) in
      py_index r 0
    else cmds_getAttr sc ("hardwareRenderingGlobals." +:+ attr) in
  try_assign_warn "hardware2" [ (attr, read) ]
    ("Warning: Could not capture HW2 setting " +:+ attr +:+ ": ") st.

Definition capture_hw2 (attrs : list (string * attr_type))
    (st : dict * world) : dict * world :=
  fold_left (fun st a => capture_hw2_attr (fst a) (snd a) st) attrs st.

(** The dict literal capture_settings starts from. *)
Definition initial_settings (self : ViewportCapture) (panel : value) : dict :=
  [ ("panel", panel);
    ("display", VDict []);
    ("background", VDict []);
    ("hardware2", VDict []);
    ("plugin_display", VDict [("gpuCache", gpu_cache_enabled self)]);
    ("camera_gate", VDict []);
    ("camera_mask", VDict []);
    ("camera_filmfit", VDict []) ].

(** capture_settings(self, panel) *)
Definition capture_settings (panel : value) : M value :=
  fun w =>
    if negb (py_bool panel) then (Ok VNone, w)
    else
      let settings := initial_settings (tool w) panel in
      match get_active_camera panel w with
      | (Raise e, w) => (Raise e, w)
      | (Ok active_camera, w) =>
          let st := (settings, w) in
          let st := if py_bool active_camera
                    then capture_camera active_camera st else st in
          let st := capture_display panel (display_attrs (tool (snd st))) st in
          let st := capture_background st in
          match ensure_globals (snd st) with
          | (Raise e, w) => (Raise e, w)
          | (Ok _, w) =>
              let st := capture_hw2 (hw2_attrs (tool w)) (fst st, w) in
              (Ok (VDict (fst st)), snd st)
          end
      end.

(** capture_viewport(self) *)
Definition capture_viewport : M unit :=
  let! panel := get_active_viewport in
  if negb (py_bool panel) then set_status "No active viewport found"
  else
    let! _ := ensure_viewport_20 panel in
    let! settings := capture_settings panel in
    if py_bool settings then
      let! _ := modify (fun w => with_tool w (set_last_captured_settings (tool w) settings)) in
      let! mel_code := (fun w => (settings_to_mel (tool w) settings, w)) in
      let! _ := modify (fun w => with_tool w (set_result_field (tool w) mel_code)) in
      set_status ("Settings captured from " +:+ py_str panel)
    else set_status "Failed to capture settings".

(** get_preset_dir(self) *)
Definition get_preset_dir : M string :=
  fun w =>
    let custom := custom_preset_path (tool w) in
    if (negb (String.eqb custom EmptyString) && os_path_isdir (disk w) custom)%bool
    then (Ok custom, w)
    else
      let maya_app_dir := cmds_internalVar_userAppDir (maya w) in
      let preset_dir :=
        path_join (path_join maya_app_dir "viewportCapture") "presets" in
      if negb (os_path_exists (disk w) preset_dir) then
        (let! _ := edit_disk (fun fs => os_makedirs fs preset_dir) in ret preset_dir) w
      else (Ok preset_dir, w).

(** Python's sorted on strings: ascending in the order of String.leb. *)
Definition string_le (a b : string) : Prop := String.leb a b = true.

#[local] Instance string_le_dec (a b : string) : Decision (string_le a b).
Proof. unfold string_le. apply _. Defined.

Definition sorted (l : list string) : list string := merge_sort string_le l.

(** [f[:-5] for f in entries if f.endswith(.json)] *)
Definition preset_names (entries : list string) : list string :=
  map (str_drop_last 5) (List.filter (fun f => str_endswith f ".json") entries).

(** refresh_preset_list(self) *)
Definition refresh_preset_list : M unit :=
  let! _ := modify (fun w => with_tool w (set_preset_list (tool w) [])) in
  let! preset_dir := get_preset_dir in
  let! exists_ := read (fun w => os_path_exists (disk w) preset_dir) in
  if (exists_ : bool) then
    let! entries := (fun w => (os_listdir (disk w) preset_dir, w)) in
    let presets := preset_names entries in
    match presets with
    | [] => ret tt
    | _ => modify (fun w =>
             with_tool w (set_preset_list (tool w)
                            (preset_list (tool w) ++ sorted presets)))
    end
  else ret tt.

(** save_preset(self).  The three dialog results are what the user
    answers: the button of the name prompt, the text typed, and the button
    of the overwrite dialog (asked only when the file exists). *)
Definition save_preset (result name confirm_result : string) : M unit :=
  let! settings := read (fun w => last_captured_settings (tool w)) in
  if negb (py_bool settings) then set_status "No settings to save"
  else if String.eqb result "Save" then
    if negb (String.eqb name EmptyString) then
      let! preset_dir := get_preset_dir in
      let preset_path := path_join preset_dir (name +:+ ".json") in
      let! exists_ := read (fun w => os_path_exists (disk w) preset_path) in
      if ((exists_ : bool) && String.eqb confirm_result "No")%bool then
        set_status "Save cancelled."
      else
        try_except
          (let! settings := read (fun w => last_captured_settings (tool w)) in
           let! _ := edit_disk (fun fs => write_json fs preset_path settings) in
           let! _ := set_status ("Preset '" +:+ name +:+ "' saved") in
           refresh_preset_list)
          (fun e => set_status ("Error saving preset: " +:+ exn_str e))
    else ret tt
  else ret tt.

(** load_preset(self).  selected is what the list reports as selected:
    None, or the selected items. *)
Definition load_preset (selected : option (list string)) : M unit :=
  match selected with
  | None | Some [] => set_status "No preset selected"
  | Some (first :: _) =>
      let! preset_dir := get_preset_dir in
      let preset_path := path_join preset_dir (first +:+ ".json") in
      try_except
        (let! settings := (fun w => (read_json (disk w) preset_path, w)) in
         let! _ := modify (fun w => with_tool w (set_last_captured_settings (tool w) settings)) in
         let! gpu := lift (let* pd := py_get settings "plugin_display" (VDict []) in
                       py_get pd "gpuCache" (VBool false)) in
         let! _ := modify (fun w => with_tool w (set_gpu_cache_enabled (tool w) gpu)) in
         let! enabled := read (fun w => gpu_cache_enabled (tool w)) in
         let! _ := checkbox_edit enabled in
         let! mel_code := (fun w => (settings_to_mel (tool w) settings, w)) in
         let! _ := modify (fun w => with_tool w (set_result_field (tool w) mel_code)) in
         let! _ := edit_scene (fun sc => mel_eval sc mel_code) in
         set_status ("Preset '" +:+ first +:+ "' loaded and applied"))
        (fun e => set_status ("Error loading preset: " +:+ exn_str e))
  end.

End Methods.

(** ** Vocabulary of the statements proved below *)

(** The kinds of statement of the emitted script, told by how a line
    starts. *)
Definition is_camera_stmt (x : string) : bool :=
  str_startswith "        camera -e -" x.

Definition is_display_stmt (x : string) : bool :=
  (str_startswith "    modelEditor -e -" x
   || existsb (String.eqb x) objexists_guard
   || str_startswith ("    setAttr " +:+ q "hardwareRenderingGlobals.hwFogEnable" +:+ " ") x)%bool.

Definition is_background_stmt (x : string) : bool :=
  (str_startswith "    displayPref -displayGradient " x
   || str_startswith "    displayRGBColor " x)%bool.

Definition is_hardware_stmt (x : string) : bool :=
  str_startswith ("    setAttr " +:+ dq +:+ "hardwareRenderingGlobals.") x.

Definition is_base_color_stmt (x : string) : bool :=
  str_startswith ("    displayRGBColor " +:+ q "background" +:+ " ") x.

Definition is_bottom_color_stmt (x : string) : bool :=
  str_startswith ("    displayRGBColor " +:+ q "backgroundBottom" +:+ " ") x.

Definition is_plugin_flag_stmt (x : string) : bool :=
  str_startswith "    modelEditor -e -pluginObjects gpuCacheDisplayFilter " x.

(** Every line of the first kind stands before every line of the second. *)
Definition precedes_all (P Q : string -> bool) (l : list string) : Prop :=
  forall i j x y,
    nth_error l i = Some x -> P x = true ->
    nth_error l j = Some y -> Q y = true ->
    (i < j)%nat.

(** A line that is not a colour statement of either kind. *)
Definition no_color (x : string) : Prop :=
  is_base_color_stmt x = false /\ is_bottom_color_stmt x = false.

(** The MEL spelling of a boolean. *)
Definition bool_text (b : bool) : string := if b then "true" else "false".

(** What int prints for a boolean. *)
Definition bool_digit (b : bool) : string := if b then "1" else "0".

Section InstanceVocabulary.

Context {PR : PyRuntime}.

(** Two instances that differ at most in the text of the status label. *)
Definition same_but_status (t t' : ViewportCapture) : Prop :=
  window_name t' = window_name t
  /\ result_field t' = result_field t
  /\ preset_list t' = preset_list t
  /\ last_captured_settings t' = last_captured_settings t
  /\ gpu_cache_enabled t' = gpu_cache_enabled t
  /\ gpu_checkbox t' = gpu_checkbox t
  /\ custom_preset_path t' = custom_preset_path t
  /\ display_attrs t' = display_attrs t
  /\ hw2_attrs t' = hw2_attrs t.

End InstanceVocabulary.

Section DiskVocabulary.

Context {PR : PyRuntime} {OS : OSLayer} {MH : MayaHost}.

(** The directory get_preset_dir resolves to: the custom path when it is
    set and is a directory, the fallback under the Maya user directory
    otherwise. *)
Definition resolve_dir (custom app : string) (fs : gmap string node) : string :=
  if (negb (String.eqb custom EmptyString) && os_path_isdir fs custom)%bool
  then custom
  else path_join (path_join app "viewportCapture") "presets".

Definition preset_dir_of (w : world) : string :=
  resolve_dir (custom_preset_path (tool w))
    (cmds_internalVar_userAppDir (maya w)) (disk w).

(** The path of the preset of a name. *)
Definition preset_path_of (w : world) (name : string) : string :=
  path_join (preset_dir_of w) (name +:+ ".json").

(** The disk once the preset directory is there. *)
Definition disk_with_preset_dir (w : world) : gmap string node :=
  if os_path_exists (disk w) (preset_dir_of w) then disk w
  else <[preset_dir_of w := Dir]> (disk w).

(** A step that leaves the disk alone and, of the instance, changes at
    most the status label. *)
Definition status_only (w w' : world) : Prop :=
  disk w' = disk w /\ same_but_status (tool w) (tool w').

End DiskVocabulary.

Section Vocabulary.

Context {PR : PyRuntime}.

(** v[0], v[1] and v[2] all exist. *)
Definition triple_ok (v : value) : bool :=
  (is_ok (py_index v 0) && is_ok (py_index v 1) && is_ok (py_index v 2))%bool.

(** The three components of a list or tuple of length three. *)
Definition triple_of (v : value) : option (value * value * value) :=
  match v with
  | VList [x; y; z] | VTuple [x; y; z] => Some (x, y, z)
  | _ => None
  end.

(** An optional section: absent, or a dict that passes the test. *)
Definition opt_section (d : dict) (name : string) (ok : dict -> bool) : bool :=
  match dict_get name d with
  | None => true
  | Some (VDict sec) => ok sec
  | Some _ => false
  end.

(** An optional key: absent, or a value that passes the test. *)
Definition opt_key (d : dict) (key : string) (ok : value -> bool) : bool :=
  match dict_get key d with
  | None => true
  | Some v => ok v
  end.

Definition display_item_ok (kv : string * value) : bool :=
  if String.eqb (fst kv) "hwFog" then is_ok (py_int (snd kv)) else true.

Definition background_ok (bg : dict) : bool :=
  (opt_key bg "topColor" triple_ok
   && opt_key bg "color" triple_ok
   && (if py_bool (match dict_get "gradient" bg with Some g => g | None => VNone end)
       then opt_key bg "bottomColor" triple_ok else true))%bool.

Definition hardware_item_ok (kv : string * value) : bool :=
  if is_sequence (snd kv) then triple_ok (snd kv) else true.

(** A snapshot the emitter can render: a dict with a display section,
    whose sections are dicts, whose hwFog value converts to an int and
    whose colours and sequences have three components. *)
Definition renderable (settings : value) : bool :=
  match settings with
  | VDict d =>
      (match dict_get "display" d with
       | Some (VDict display) => forallb display_item_ok display
       | _ => false
       end
       && opt_section d "camera_gate" (fun _ => true)
       && opt_section d "camera_mask" (fun _ => true)
       && opt_section d "camera_filmfit" (fun _ => true)
       && opt_section d "plugin_display" (fun _ => true)
       && opt_section d "background" background_ok
       && opt_section d "hardware2" (forallb hardware_item_ok))%bool
  | _ => false
  end.

(** The member of a name in a JSON object. *)
Fixpoint json_member (k : string) (members : list (string * json)) : option json :=
  match members with
  | [] => None
  | (k', x) :: rest => if String.eqb k k' then Some x else json_member k rest
  end.

(** The keys of the dict capture_settings returns, in its order. *)
Definition captured_keys : list string :=
  [ "panel"; "display"; "background"; "hardware2"; "plugin_display";
    "camera_gate"; "camera_mask"; "camera_filmfit" ].

(** The sections capture_settings fills from the session. *)
Definition filled_sections : list string :=
  [ "display"; "background"; "hardware2"; "camera_gate"; "camera_mask";
    "camera_filmfit" ].

(** The shape of a captured snapshot: the eight keys, the panel under
    panel, the GPU cache flag alone under plugin_display, and a dict under
    each of the other six sections. *)
Definition captured_shape (panel gpu : value) (d : dict) : Prop :=
  map fst d = captured_keys
  /\ dict_get "panel" d = Some panel
  /\ dict_get "plugin_display" d = Some (VDict [("gpuCache", gpu)])
  /\ (forall sec, In sec filled_sections ->
       exists sd, dict_get sec d = Some (VDict sd)).

(** Every dict inside v has each key once, as a Python dict has. *)
Fixpoint wf_value (v : value) : Prop :=
  match v with
  | VList l | VTuple l => fold_right (fun x acc => wf_value x /\ acc) True l
  | VDict d =>
      NoDup (map fst d)
      /\ fold_right (fun kv acc => match kv with (_, x) => wf_value x /\ acc end)
           True d
  | _ => True
  end.

(** v with every tuple read as a list. *)
Fixpoint listify (v : value) : value :=
  match v with
  | VList l => VList (map listify l)
  | VTuple l => VList (map listify l)
  | VDict d => VDict (map (fun kv => match kv with (k, x) => (k, listify x) end) d)
  | _ => v
  end.

(** No tuple occurs in v. *)
Fixpoint tuple_free (v : value) : bool :=
  match v with
  | VList l => forallb tuple_free l
  | VTuple _ => false
  | VDict d => forallb (fun kv => match kv with (_, x) => tuple_free x end) d
  | _ => true
  end.

End Vocabulary.

(** ** A concrete runtime, disk and session to run the definitions on *)

Module Sample.

(** Three floats and their Python texts. *)
Inductive sample_float : Type := F_zero | F_half | F_one.

Definition sample_float_repr (f : sample_float) : string :=
  match f with F_zero => "0.0" | F_half => "0.5" | F_one => "1.0" end.

Definition sample_float_bool (f : sample_float) : bool :=
  match f with F_zero => false | _ => true end.

Definition sample_float_int (f : sample_float) : result Z :=
  match f with F_one => Ok 1 | _ => Ok 0 end.

(** int of a str of decimal digits with an optional minus sign. *)
Fixpoint digit_index (c : ascii) (ds : string) (n : Z) : option Z :=
  match ds with
  | EmptyString => None
  | String d r => if Ascii.eqb c d then Some n else digit_index c r (n + 1)
  end.

Definition digit_of (c : ascii) : option Z := digit_index c "0123456789" 0.

Fixpoint digits_value (s : string) (acc : Z) : result Z :=
  match s with
  | EmptyString => Ok acc
  | String c r =>
      match digit_of c with
      | Some d => digits_value r (10 * acc + d)
      | None => Raise ValueError
      end
  end.

Definition sample_str_int (s : string) : result Z :=
  match s with
  | EmptyString => Raise ValueError
  | String "-"%char EmptyString => Raise ValueError
  | String "-"%char r =>
      match digits_value r 0 with
      | Ok n => Ok (- n)
      | Raise e => Raise e
      end
  | _ => digits_value s 0
  end.

(** repr of a str of plain letters and digits. *)
Definition sample_str_repr (s : string) : string := "'" +:+ s +:+ "'".

Definition sample_exn_str (e : exn) : string :=
  match e with
  | KeyError k => "'" +:+ k +:+ "'"
  | HostError msg => msg
  | _ => "error"
  end.

Definition runtime : PyRuntime := {|
  float := sample_float;
  float_repr := sample_float_repr;
  float_bool := sample_float_bool;
  float_int := sample_float_int;
  str_repr := sample_str_repr;
  str_int := sample_str_int;
  exn_str := sample_exn_str
|}.

#[local] Existing Instance runtime.

(** Join with a slash; list the entries directly below a directory. *)
Definition sample_join (d n : string) : string := d +:+ "/" +:+ n.

Fixpoint strip_prefix (p s : string) : option string :=
  match p, s with
  | EmptyString, _ => Some s
  | String a p', String b s' =>
      if Ascii.eqb a b then strip_prefix p' s' else None
  | String _ _, EmptyString => None
  end.

Definition sample_listdir (fs : gmap string node) (d : string)
  : result (list string) :=
  match fs !! d with
  | Some Dir =>
      Ok (omap (fun kv =>
                  match strip_prefix (d +:+ "/") (fst kv) with
                  | Some n => if str_contains "/" n then None else Some n
                  | None => None
                  end)
               (map_to_list fs))
  | _ => Raise OSError
  end.

Definition os : OSLayer := {|
  path_join := sample_join;
  os_listdir := sample_listdir
|}.

#[local] Existing Instance os.

(** A session with one model panel and one camera, where every flag is on
    and every colour is grey. *)
Definition grey : value := VList [VFloat F_half; VFloat F_half; VFloat F_half].

Definition host : MayaHost := {|
  scene := unit;
  cmds_getPanel_withFocus := fun _ => VStr "modelPanel4";
  cmds_getPanel_typeOf := fun _ _ => Ok (VStr "modelPanel");
  cmds_getPanel_modelPanels := fun _ => Ok [VStr "modelPanel4"];
  cmds_modelEditor_query := fun _ _ flag =>
    if String.eqb flag "camera" then Ok (VStr "persp")
    else if String.eqb flag "rendererName" then Ok (VStr "vp2Renderer")
    else if String.eqb flag "displayAppearance" then Ok (VStr "smoothShaded")
    else if String.eqb flag "displayLights" then Ok (VStr "default")
    else Ok (VBool true);
  cmds_modelEditor_rendererName := fun sc _ _ => Ok sc;
  cmds_refresh := fun sc => sc;
  cmds_camera_query := fun _ _ flag =>
    if String.eqb flag "overscan" then Ok (VFloat F_one)
    else if String.eqb flag "filmFit" then Ok (VStr "fill")
    else Ok (VBool false);
  cmds_objExists := fun _ _ => true;
  cmds_createNode := fun sc _ => Ok sc;
  cmds_setAttr := fun sc _ _ => Ok sc;
  cmds_getAttr := fun _ attr =>
    if String.eqb attr "hardwareRenderingGlobals.hwFogColor"
    then Ok (VList [VTuple [VFloat F_half; VFloat F_half; VFloat F_half]])
    else Ok (VBool true);
  cmds_displayPref_query := fun _ _ => Ok (VBool false);
  cmds_displayRGBColor_query := fun _ _ => Ok grey;
  cmds_internalVar_userAppDir := fun _ => "/home/user/maya";
  cmds_checkBox_value := fun v =>
    match v with
    | VInt z => Ok (negb (Z.eqb z 0))
    | _ => Raise TypeError
    end;
  mel_eval := fun sc _ => Ok sc
|}.

#[local] Existing Instance host.

(** The example of the specification, with a gradient and a hardware
    section added. *)
Definition bottom : value := VList [VFloat F_zero; VFloat F_half; VFloat F_one].

Definition background : dict :=
  [ ("gradient", VBool true); ("color", grey); ("bottomColor", bottom) ].

(** A colour as getAttr hands it out: a tuple. *)
Definition grey_tuple : value :=
  VTuple [VFloat F_half; VFloat F_half; VFloat F_half].

Definition hardware2 : dict :=
  [ ("multiSampleEnable", VBool true); ("hwFogColor", grey_tuple) ].

Definition sections : dict :=
  [ ("display", VDict [("wireframe", VBool true); ("hwFog", VBool false)]);
    ("background", VDict background);
    ("hardware2", VDict hardware2);
    ("plugin_display", VDict [("gpuCache", VBool false)]);
    ("camera_gate", VDict [("displayFilmGate", VBool false)]) ].

Definition snapshot : value := VDict sections.

(** The same without a gradient. *)
Definition flat_background : dict :=
  [ ("gradient", VBool false); ("color", grey); ("bottomColor", grey) ].

Definition flat_sections : dict :=
  [ ("display", VDict [("wireframe", VBool true)]);
    ("background", VDict flat_background) ].

Definition flat_snapshot : value := VDict flat_sections.

(** A snapshot with no display section. *)
Definition no_display : value := VDict [("panel", VStr "modelPanel4")].

Definition presets_dir : string := "/home/user/maya/viewportCapture/presets".

(** A disk with the preset directory and two presets. *)
Definition disk0 : gmap string node :=
  <[ presets_dir := Dir ]>
  (<[ presets_dir +:+ "/studio.json" := File (Some (json_dump flat_snapshot)) ]>
   (<[ presets_dir +:+ "/anim.json" := File (Some (json_dump snapshot)) ]>
    (<[ presets_dir +:+ "/notes.txt" := File None ]> ∅))).

Definition instance0 : ViewportCapture :=
  set_last_captured_settings init_instance snapshot.

Definition world0 : world :=
  {| tool := instance0; disk := disk0; maya := tt |}.

(** A fresh instance on an empty disk. *)
Definition fresh_world : world :=
  {| tool := init_instance; disk := ∅; maya := tt |}.

Definition panel4 : value := VStr "modelPanel4".

Definition no_panel : value := VStr EmptyString.

End Sample.

(** ** Deleting a preset *)

Section PresetRemoval.

Context {PR : PyRuntime} {OS : OSLayer} {MH : MayaHost}.

(** os.remove: removes a file, and refuses a path that is missing or names
    a directory. *)
Definition os_remove (fs : gmap string node) (p : string)
  : result (gmap string node) :=
  match fs !! p with
  | Some (File _) => Ok (delete p fs)
  | Some Dir => Raise OSError
  | None => Raise OSError
  end.

(** delete_preset(self).  selected is what the list reports as selected,
    result the button the user presses in the confirm dialog. *)
Definition delete_preset (selected : option (list string)) (result : string)
  : M unit :=
  match selected with
  | None | Some [] => set_status "No preset selected"
  | Some (first :: _) =>
      if String.eqb result "Yes" then
        let! preset_dir := get_preset_dir in
        let preset_path := path_join preset_dir (first +:+ ".json") in
        try_except
          (let! _ := edit_disk (fun fs => os_remove fs preset_path) in
           let! _ := set_status ("Preset '" +:+ first +:+ "' deleted") in
           refresh_preset_list)
          (fun e => set_status ("Error deleting preset: " +:+ exn_str e))
      else ret tt
  end.

End PresetRemoval.

(** ** The commands that change the session *)

(** The edit commands of maya.cmds that apply_settings and the GPU cache
    methods call, and the plugin query.  Each returns the changed scene or
    raises. *)
Class MayaEdits {PR : PyRuntime} {MH : MayaHost} : Type := {
  cmds_undoInfo_openChunk : scene -> result scene;
  cmds_undoInfo_closeChunk : scene -> result scene;
  cmds_camera_edit : scene -> value -> string -> value -> result scene;
  cmds_modelEditor_edit : scene -> value -> string -> value -> result scene;
  cmds_modelEditor_pluginObjects : scene -> value -> string -> bool -> result scene;
  cmds_displayPref_edit : scene -> string -> value -> result scene;
  cmds_displayRGBColor_edit : scene -> string -> list value -> result scene;
  cmds_setAttr_double3 : scene -> string -> list value -> result scene;
  cmds_pluginInfo_loaded : scene -> string -> result value;
  cmds_loadPlugin : scene -> string -> result scene
}.

Section Unpacking.

Context {PR : PyRuntime}.

Fixpoint str_chars (s : string) : list value :=
  match s with
  | EmptyString => []
  | String c r => VStr (String c EmptyString) :: str_chars r
  end.

(** The arguments a starred value unpacks to in a call: the items of a
    list or tuple, the characters of a str, the keys of a dict. *)
Definition py_unpack (v : value) : result (list value) :=
  match v with
  | VList l | VTuple l => Ok l
  | VStr s => Ok (str_chars s)
  | VDict d => Ok (map (fun kv => VStr (fst kv)) d)
  | VNone | VBool _ | VInt _ | VFloat _ => Raise TypeError
  end.

End Unpacking.

Section GpuCache.

Context {PR : PyRuntime} {OS : OSLayer} {MH : MayaHost} {ME : MayaEdits}.

(** try: m / finally: f.  The final block runs on every path; what it
    raises replaces the outcome of the body. *)
Definition try_finally {A : Type} (m : M A) (f : M unit) : M A :=
  fun w =>
    match m w with
    | (r, w') =>
        match f w' with
        | (Ok _, w'') => (r, w'')
        | (Raise e, w'') => (Raise e, w'')
        end
    end.

(** ensure_gpu_plugin_loaded(self) *)
Definition ensure_gpu_plugin_loaded : M bool :=
  try_except
    (let! loaded := (fun w => (cmds_pluginInfo_loaded (maya w) "gpuCache", w)) in
     if negb (py_bool loaded) then
       let! _ := edit_scene (fun sc => cmds_loadPlugin sc "gpuCache") in
       let! _ := set_status "Loaded GPU Cache plugin" in
       ret true
     else ret true)
    (fun e =>
       let! _ := set_status ("Warning: Could not load GPU Cache plugin: "
                             +:+ exn_str e) in
       ret false).

(** toggle_gpu_cache(self): the check box holds what the user just set. *)
Definition toggle_gpu_cache : M unit :=
  let! checked := read (fun w => gpu_checkbox (tool w)) in
  let! _ := modify (fun w => with_tool w (set_gpu_cache_enabled (tool w) checked)) in
  let! enabled := read (fun w => gpu_cache_enabled (tool w)) in
  if py_bool enabled then
    let! loaded := ensure_gpu_plugin_loaded in
    if (loaded : bool) then set_status "GPU Cache enabled"
    else
      let! _ := modify (fun w => with_tool w (set_gpu_cache_enabled (tool w) (VBool false))) in
      let! _ := checkbox_edit (VBool false) in
      set_status "Failed to enable GPU Cache - plugin could not be loaded"
  else set_status "GPU Cache disabled".

End GpuCache.

(** ** apply_settings *)

Section Apply.

Context {PR : PyRuntime} {OS : OSLayer} {MH : MayaHost} {ME : MayaEdits}.

(** self.last_captured_settings, read where the source reads it. *)
Definition self_settings : M value :=
  read (fun w => last_captured_settings (tool w)).

(** if key in section: command(section[key]) *)
Definition apply_if_in (section : value) (key : string)
    (command : value -> M unit) : M unit :=
  let! present := lift (py_contains key section) in
  if (present : bool) then
    let! v := lift (py_getitem section key) in
    command v
  else ret tt.

Definition camera_edit (active_camera : value) (flag : string) (v : value)
  : M unit :=
  edit_scene (fun sc => cmds_camera_edit sc active_camera flag v).

Definition warn (warning : string) (e : exn) : M unit :=
  set_status (warning +:+ exn_str e).

(** The camera gate block; it hands on the camera it asked for. *)
Definition apply_camera_gate (panel : value) : M value :=
  let! settings := self_settings in
  let! camera_gate_settings := lift (py_get settings "camera_gate" (VDict [])) in
  let! active_camera := get_active_camera panel in
  let! _ :=
    if (py_bool active_camera && py_bool camera_gate_settings)%bool then
      try_except
        (let! _ := apply_if_in camera_gate_settings "displayFilmGate"
                     (camera_edit active_camera "displayFilmGate") in
         let! _ := apply_if_in camera_gate_settings "displayResolution"
                     (camera_edit active_camera "displayResolution") in
         apply_if_in camera_gate_settings "overscan"
           (camera_edit active_camera "overscan"))
        (warn "Warning: Could not apply camera gate settings: ")
    else ret tt in
  ret active_camera.

Definition apply_camera_mask (active_camera : value) : M unit :=
  let! settings := self_settings in
  let! camera_mask_settings := lift (py_get settings "camera_mask" (VDict [])) in
  if (py_bool active_camera && py_bool camera_mask_settings)%bool then
    try_except
      (apply_if_in camera_mask_settings "displayGateMask"
         (camera_edit active_camera "displayGateMask"))
      (warn "Warning: Could not apply camera gate mask setting: ")
  else ret tt.

Definition apply_camera_filmfit (active_camera : value) : M unit :=
  let! settings := self_settings in
  let! camera_filmfit_settings := lift (py_get settings "camera_filmfit" (VDict [])) in
  if (py_bool active_camera && py_bool camera_filmfit_settings)%bool then
    try_except
      (apply_if_in camera_filmfit_settings "filmFit"
         (camera_edit active_camera "filmFit"))
      (warn "Warning: Could not apply camera film fit setting: ")
  else ret tt.

(** The body of the loop over the display items.  Every branch of the
    chain edits the flag named attr; the hwFog branch also mirrors the
    value onto the render globals. *)
Definition apply_display_item (panel : value) (attr : string) (v : value)
  : M unit :=
  try_except
    (if String.eqb attr "hwFog" then
       let! _ := edit_scene (fun sc => cmds_modelEditor_edit sc panel "hwFog" v) in
       let! _ := ensure_globals in
       edit_scene (fun sc =>
         cmds_setAttr sc "hardwareRenderingGlobals.hwFogEnable" v)
     else edit_scene (fun sc => cmds_modelEditor_edit sc panel attr v))
    (warn ("Warning: Could not apply " +:+ attr +:+ ": ")).

Fixpoint apply_display_items (panel : value) (items : list (string * value))
  : M unit :=
  match items with
  | [] => ret tt
  | (attr, v) :: rest =>
      let! _ := apply_display_item panel attr v in
      apply_display_items panel rest
  end.

Definition apply_display (panel : value) : M unit :=
  let! settings := self_settings in
  let! display := lift (py_getitem settings "display") in
  let! items := lift (py_items display) in
  apply_display_items panel items.

(** The GPU cache block: the filter is switched on when the stored flag is
    true and the plugin is there, off otherwise; the flag of the instance
    takes the stored value and the check box is then asked to show it. *)
Definition apply_gpu_cache (panel : value) : M unit :=
  let! settings := self_settings in
  let! present := lift (py_contains "plugin_display" settings) in
  if (present : bool) then
    let! settings := self_settings in
    let! plugin_display := lift (py_getitem settings "plugin_display") in
    let! gpu_state := lift (py_getitem plugin_display "gpuCache") in
    let! on := if py_bool gpu_state then ensure_gpu_plugin_loaded else ret false in
    let! _ := edit_scene (fun sc =>
                cmds_modelEditor_pluginObjects sc panel "gpuCacheDisplayFilter" on) in
    let! _ := modify (fun w => with_tool w (set_gpu_cache_enabled (tool w) gpu_state)) in
    let! enabled := read (fun w => gpu_cache_enabled (tool w)) in
    checkbox_edit enabled
  else ret tt.

Definition rgb_edit (name : string) (c : value) : M unit :=
  let! components := lift (py_unpack c) in
  edit_scene (fun sc => cmds_displayRGBColor_edit sc name components).

Definition apply_background : M unit :=
  let! settings := self_settings in
  let! bg := lift (py_get settings "background" (VDict [])) in
  try_except
    (let! _ := apply_if_in bg "gradient"
                 (fun v => edit_scene (fun sc =>
                    cmds_displayPref_edit sc "displayGradient" v)) in
     let! _ := apply_if_in bg "topColor" (rgb_edit "backgroundTop") in
     let! _ := apply_if_in bg "color" (rgb_edit "background") in
     let! gradient := lift (py_get bg "gradient" VNone) in
     if py_bool gradient then
       apply_if_in bg "bottomColor" (rgb_edit "backgroundBottom")
     else ret tt)
    (warn "Warning: Could not apply background settings: ").

(** The body of the loop over the hardware2 items. *)
Definition apply_hw2_item (attr : string) (v : value) : M unit :=
  try_except
    (if is_sequence v then
       let! components := lift (py_unpack v) in
       edit_scene (fun sc =>
         cmds_setAttr_double3 sc ("hardwareRenderingGlobals." +:+ attr) components)
     else
       edit_scene (fun sc =>
         cmds_setAttr sc ("hardwareRenderingGlobals." +:+ attr) v))
    (warn ("Warning: Could not apply HW2 setting " +:+ attr +:+ ": ")).

Fixpoint apply_hw2_items (items : list (string * value)) : M unit :=
  match items with
  | [] => ret tt
  | (attr, v) :: rest =>
      let! _ := apply_hw2_item attr v in
      apply_hw2_items rest
  end.

Definition apply_hardware : M unit :=
  let! settings := self_settings in
  let! hw2_settings := lift (py_get settings "hardware2" (VDict [])) in
  if py_bool hw2_settings then
    let! _ := ensure_globals in
    let! items := lift (py_items hw2_settings) in
    apply_hw2_items items
  else ret tt.

(** The statements between the try and the except of apply_settings. *)
Definition apply_sections (panel : value) : M unit :=
  let! _ := edit_scene cmds_undoInfo_openChunk in
  let! active_camera := apply_camera_gate panel in
  let! _ := apply_camera_mask active_camera in
  let! _ := apply_camera_filmfit active_camera in
  let! _ := apply_display panel in
  let! _ := apply_gpu_cache panel in
  let! _ := apply_background in
  let! _ := apply_hardware in
  set_status "Settings applied successfully".

(** apply_settings(self) *)
Definition apply_settings : M unit :=
  let! settings := self_settings in
  if negb (py_bool settings) then set_status "No settings to apply"
  else
    let! panel := get_active_viewport in
    if negb (py_bool panel) then set_status "No active viewport found"
    else
      let! _ := ensure_viewport_20 panel in
      try_finally
        (try_except (apply_sections panel)
           (fun e => set_status ("Error applying settings: " +:+ exn_str e)))
        (edit_scene cmds_undoInfo_closeChunk).

End Apply.

(** ** Vocabulary of the further statements *)

(** The sections settings_to_mel looks up in a snapshot. *)
Definition section_names : list string :=
  [ "camera_gate"; "camera_mask"; "camera_filmfit"; "plugin_display";
    "display"; "background"; "hardware2" ].

Section SectionVocabulary.

Context {PR : PyRuntime}.

(** Each of the sections a snapshot holds is a dict. *)
Definition dict_sections (d : dict) : bool :=
  forallb (fun name => opt_section d name (fun _ => true)) section_names.

End SectionVocabulary.

Section CaptureVocabulary.

Context {PR : PyRuntime} {MH : MayaHost}.

(** What the stores of one try block leave in a section: the values read,
    in order, up to the first read that raised. *)
Fixpoint try_store (reads : list (string * result value)) (section : dict)
  : dict :=
  match reads with
  | [] => section
  | (key, Ok v) :: rest => try_store rest (dict_set key v section)
  | (_, Raise _) :: _ => section
  end.

(** The reads of the try blocks of capture_settings, in a scene. *)
Definition camera_gate_reads (sc : scene) (active_camera : value)
  : list (string * result value) :=
  [ ("displayFilmGate", cmds_camera_query sc active_camera "displayFilmGate");
    ("displayResolution", cmds_camera_query sc active_camera "displayResolution");
    ("overscan", cmds_camera_query sc active_camera "overscan") ].

Definition camera_mask_reads (sc : scene) (active_camera : value)
  : list (string * result value) :=
  [ ("displayGateMask", cmds_camera_query sc active_camera "displayGateMask") ].

Definition camera_filmfit_reads (sc : scene) (active_camera : value)
  : list (string * result value) :=
  [ ("filmFit", cmds_camera_query sc active_camera "filmFit") ].

Definition background_reads (sc : scene) : list (string * result value) :=
  [ ("gradient", cmds_displayPref_query sc "displayGradient");
    ("color", cmds_displayRGBColor_query sc "background");
    ("topColor", cmds_displayRGBColor_query sc "backgroundTop");
    ("bottomColor", cmds_displayRGBColor_query sc "backgroundBottom") ].

(** What one turn of the loop over hw2_attrs reads. *)
Definition hw2_read (sc : scene) (attr : string) (ty : attr_type)
  : result value :=
  if is_float3 ty then
    let* r := cmds_getAttr sc ("hardwareRenderingGlobals." +:+ attr) in
    py_index r 0
  else cmds_getAttr sc ("hardwareRenderingGlobals." +:+ attr).

End CaptureVocabulary.

Section ViewportVocabulary.

Context {PR : PyRuntime} {MH : MayaHost}.

(** A panel the list scan passes over: its visible flag is read and is
    false. *)
Definition not_visible (sc : scene) (p : value) : Prop :=
  exists v, cmds_modelEditor_query sc p "visible" = Ok v /\ py_bool v = false.

End ViewportVocabulary.

Section StoreVocabulary.

Context {PR : PyRuntime}.

(** settings.get(plugin_display, {}).get(gpuCache, False) *)
Definition stored_gpu_flag (settings : value) : result value :=
  let* plugin_display := py_get settings "plugin_display" (VDict []) in
  py_get plugin_display "gpuCache" (VBool false).

End StoreVocabulary.

Section SessionVocabulary.

Context {PR : PyRuntime} {MH : MayaHost} {ME : MayaEdits}.

(** The gpuCache plugin is loaded in the scene, or loading it succeeds. *)
Definition plugin_available (sc : scene) : bool :=
  match cmds_pluginInfo_loaded sc "gpuCache" with
  | Ok loaded => (py_bool loaded || is_ok (cmds_loadPlugin sc "gpuCache"))%bool
  | Raise _ => false
  end.

(** A step that leaves the disk alone and, of the instance, changes at
    most the status label, the GPU cache flag and the check box. *)
Definition keeps_store (w w' : world) : Prop :=
  disk w' = disk w
  /\ window_name (tool w') = window_name (tool w)
  /\ result_field (tool w') = result_field (tool w)
  /\ preset_list (tool w') = preset_list (tool w)
  /\ last_captured_settings (tool w') = last_captured_settings (tool w)
  /\ custom_preset_path (tool w') = custom_preset_path (tool w)
  /\ display_attrs (tool w') = display_attrs (tool w)
  /\ hw2_attrs (tool w') = hw2_attrs (tool w).

(** The check box shows the GPU cache flag. *)
Definition in_sync (w : world) : Prop :=
  gpu_checkbox (tool w) = gpu_cache_enabled (tool w).

(** The GPU cache flag a snapshot stores, when it stores one, is a
    bool. *)
Definition boolean_flag (settings : value) : Prop :=
  forall g, stored_gpu_flag settings = Ok g -> exists b, g = VBool b.

(** A method body keeps a property of the world, however it ends. *)
Definition preserves {A : Type} (P : world -> Prop) (m : M A) : Prop :=
  forall w r w', m w = (r, w') -> P w -> P w'.

End SessionVocabulary.

(** ** A session with edit commands, and further sample worlds *)

Module Studio.

#[local] Existing Instance Sample.runtime.
#[local] Existing Instance Sample.os.
#[local] Existing Instance Sample.host.

(** Every edit succeeds; the gpuCache plugin is not loaded and loads. *)
Definition edits : MayaEdits := {|
  cmds_undoInfo_openChunk := fun sc => Ok sc;
  cmds_undoInfo_closeChunk := fun sc => Ok sc;
  cmds_camera_edit := fun sc _ _ _ => Ok sc;
  cmds_modelEditor_edit := fun sc _ _ _ => Ok sc;
  cmds_modelEditor_pluginObjects := fun sc _ _ _ => Ok sc;
  cmds_displayPref_edit := fun sc _ _ => Ok sc;
  cmds_displayRGBColor_edit := fun sc _ _ => Ok sc;
  cmds_setAttr_double3 := fun sc _ _ => Ok sc;
  cmds_pluginInfo_loaded := fun _ _ => Ok (VBool false);
  cmds_loadPlugin := fun sc _ => Ok sc
|}.

(** A display section with a shading mode and fog. *)
Definition shaded_display : dict :=
  [ ("displayAppearance", VStr "smoothShaded"); ("hwFog", VBool true) ].

Definition shaded_sections : dict := [ ("display", VDict shaded_display) ].

(** The sample snapshot with the panel it was taken from. *)
Definition labelled_sections : dict :=
  ("panel", Sample.panel4) :: Sample.sections.

(** A disk where a file stands in the place of the preset directory. *)
Definition blocked_disk : gmap string node :=
  <[ Sample.presets_dir := File None ]> ∅.

Definition blocked_world : world :=
  {| tool := init_instance; disk := blocked_disk; maya := tt |}.

(** The sample instance on an empty disk. *)
Definition session_world : world :=
  {| tool := Sample.instance0; disk := ∅; maya := tt |}.

(** An instance whose snapshot has no display section. *)
Definition bare_sections : dict := [ ("panel", Sample.panel4) ].

Definition bare_world : world :=
  {| tool := set_last_captured_settings init_instance (VDict bare_sections);
     disk := ∅; maya := tt |}.

(** A snapshot that switches the GPU cache on, and one whose flag is
    null. *)
Definition cached_sections : dict :=
  [ ("display", VDict [("wireframe", VBool true)]);
    ("plugin_display", VDict [("gpuCache", VBool true)]) ].

Definition odd_sections : dict :=
  [ ("display", VDict [("wireframe", VBool true)]);
    ("plugin_display", VDict [("gpuCache", VNone)]) ].

(** A fresh instance on a disk that holds both as presets. *)
Definition cached_disk : gmap string node :=
  <[ Sample.presets_dir := Dir ]>
  (<[ Sample.presets_dir +:+ "/cached.json" :=
        File (Some (json_dump (VDict cached_sections))) ]>
   (<[ Sample.presets_dir +:+ "/odd.json" :=
         File (Some (json_dump (VDict odd_sections))) ]> ∅)).

Definition cached_world : world :=
  {| tool := init_instance; disk := cached_disk; maya := tt |}.

End Studio.

(** * Facts *)

(** ** The error monad *)

Lemma bind_ok {A B : Type} (r : result A) (k : A -> result B) (b : B) :
  bind r k = Ok b -> exists a, r = Ok a /\ k a = Ok b.
Proof.
  destruct r as [a|e]; simpl; intros H; [exists a; auto | discriminate].
Qed.

Lemma bind_with_ok {A B : Type} (r : result A) (k : A -> result B) (a : A) :
  r = Ok a -> bind r k = k a.
Proof. intros ->. reflexivity. Qed.

(** Splits a hypothesis that a chain of binds returned. *)
Ltac bind_inv H :=
  let a := fresh "a" in
  let Ha := fresh "Ha" in
  apply bind_ok in H; destruct H as (a & Ha & H).

Ltac case_if :=
  match goal with
  | |- context [if ?c then _ else _] => destruct c eqn:?
  end.

Ltac case_bind :=
  match goal with
  | |- context [bind ?r _] => destruct r eqn:?; simpl
  end.

(** ** Text *)

Lemma str_startswith_append (p x : string) : str_startswith p (p +:+ x) = true.
Proof.
  induction p as [|c p IH]; simpl; [reflexivity|].
  rewrite Ascii.eqb_refl. exact IH.
Qed.

Lemma str_startswith_inv (p s : string) :
  str_startswith p s = true -> exists r, s = p +:+ r.
Proof.
  revert s. induction p as [|c p IH]; intros s H; simpl in *.
  - exists s. reflexivity.
  - destruct s as [|b s]; [discriminate|].
    apply andb_prop in H. destruct H as [Hc Hs].
    apply Ascii.eqb_eq in Hc. subst b.
    destruct (IH s Hs) as [r ->]. exists r. reflexivity.
Qed.

Lemma lower_str_bool {PR : PyRuntime} (b : bool) :
  lower_str (VBool b) = bool_text b.
Proof. destruct b; reflexivity. Qed.

Lemma z_str_bool (b : bool) : z_str (if b then 1 else 0) = bool_digit b.
Proof. destruct b; reflexivity. Qed.

(** ** The stages of the emitter only append *)

Section EmitterStages.

Context {PR : PyRuntime}.

Lemma emit_if_in_acc section key line mc :
  emit_if_in section key line mc =
  let* a := emit_if_in section key line [] in Ok (mc ++ a).
Proof.
  unfold emit_if_in.
  destruct (py_contains key section) as [[|]|e]; simpl;
    [ | rewrite app_nil_r; reflexivity | reflexivity ].
  destruct (py_getitem section key) as [v|e]; simpl; [|reflexivity].
  destruct (line v) as [l|e]; reflexivity.
Qed.

(** What one guarded append adds: nothing when the key is absent, the one
    line of the value when it is there. *)
Lemma emit_if_in_nil section key line a :
  emit_if_in section key line [] = Ok a ->
  (py_contains key section = Ok false /\ a = [])
  \/ (exists v l, py_contains key section = Ok true
                  /\ py_getitem section key = Ok v
                  /\ line v = Ok l /\ a = [l]).
Proof.
  unfold emit_if_in. intros H. bind_inv H. destruct a0.
  - right. bind_inv H. bind_inv H. inversion H; subst.
    exists a0, a1. auto.
  - left. inversion H. auto.
Qed.

Ltac norm_if_in :=
  repeat match goal with
  | |- context [emit_if_in ?s ?k ?l (?a :: ?b)] =>
      rewrite (emit_if_in_acc s k l (a :: b))
  | |- context [emit_if_in ?s ?k ?l (?a ++ ?b)] =>
      rewrite (emit_if_in_acc s k l (a ++ b))
  | |- context [emit_if_in ?s ?k ?l ?m] =>
      is_var m; rewrite (emit_if_in_acc s k l m)
  end.

Ltac step_if_in :=
  norm_if_in;
  match goal with
  | |- context [bind (emit_if_in ?s ?k ?l []) _] =>
      destruct (emit_if_in s k l []); simpl; [|reflexivity]
  end.

Lemma emit_camera_gate_acc settings mc :
  emit_camera_gate settings mc =
  let* a := emit_camera_gate settings [] in Ok (mc ++ a).
Proof.
  unfold emit_camera_gate.
  destruct (py_contains "camera_gate" settings) as [[|]|e]; simpl;
    [ | rewrite app_nil_r; reflexivity | reflexivity ].
  destruct (py_getitem settings "camera_gate") as [g|e]; simpl; [|reflexivity].
  do 3 step_if_in.
  rewrite <- !app_assoc. reflexivity.
Qed.

Lemma emit_camera_mask_acc settings mc :
  emit_camera_mask settings mc =
  let* a := emit_camera_mask settings [] in Ok (mc ++ a).
Proof.
  unfold emit_camera_mask.
  destruct (py_contains "camera_mask" settings) as [[|]|e]; simpl;
    [ | rewrite app_nil_r; reflexivity | reflexivity ].
  destruct (py_getitem settings "camera_mask") as [g|e]; simpl; [|reflexivity].
  step_if_in. reflexivity.
Qed.

Lemma emit_camera_filmfit_acc settings mc :
  emit_camera_filmfit settings mc =
  let* a := emit_camera_filmfit settings [] in Ok (mc ++ a).
Proof.
  unfold emit_camera_filmfit.
  destruct (py_contains "camera_filmfit" settings) as [[|]|e]; simpl;
    [ | rewrite app_nil_r; reflexivity | reflexivity ].
  destruct (py_getitem settings "camera_filmfit") as [g|e]; simpl; [|reflexivity].
  step_if_in. reflexivity.
Qed.

Lemma emit_gpu_cache_acc settings mc :
  emit_gpu_cache settings mc =
  let* a := emit_gpu_cache settings [] in Ok (mc ++ a).
Proof.
  unfold emit_gpu_cache.
  destruct (py_get settings "plugin_display" (VDict [])) as [pd|e]; simpl;
    [|reflexivity].
  destruct (py_get pd "gpuCache" (VBool false)) as [g|e]; reflexivity.
Qed.

Lemma emit_display_item_acc attr v mc :
  emit_display_item attr v mc =
  let* a := emit_display_item attr v [] in Ok (mc ++ a).
Proof.
  unfold emit_display_item.
  repeat case_if; simpl; try reflexivity.
  destruct (py_int v) as [n|e]; simpl; [|reflexivity].
  rewrite <- !app_assoc. reflexivity.
Qed.

Lemma emit_display_items_acc items : forall mc,
  emit_display_items items mc =
  let* a := emit_display_items items [] in Ok (mc ++ a).
Proof.
  induction items as [|[attr v] rest IH]; intros mc; simpl.
  - rewrite app_nil_r. reflexivity.
  - rewrite (emit_display_item_acc attr v mc).
    destruct (emit_display_item attr v []) as [a1|e]; simpl; [|reflexivity].
    rewrite (IH (mc ++ a1)), (IH a1).
    destruct (emit_display_items rest []) as [a2|e]; simpl; [|reflexivity].
    rewrite <- app_assoc. reflexivity.
Qed.

Lemma emit_display_acc settings mc :
  emit_display settings mc =
  let* a := emit_display settings [] in Ok (mc ++ a).
Proof.
  unfold emit_display.
  destruct (py_getitem settings "display") as [d|e]; simpl; [|reflexivity].
  destruct (py_items d) as [items|e]; simpl; [|reflexivity].
  rewrite (emit_display_items_acc items (mc ++ _)).
  rewrite (emit_display_items_acc items [_]).
  destruct (emit_display_items items []) as [a|e]; simpl; [|reflexivity].
  rewrite <- app_assoc. reflexivity.
Qed.

Lemma emit_background_acc settings mc :
  emit_background settings mc =
  let* a := emit_background settings [] in Ok (mc ++ a).
Proof.
  unfold emit_background.
  destruct (py_contains "background" settings) as [[|]|e]; simpl;
    [ | rewrite app_nil_r; reflexivity | reflexivity ].
  destruct (py_getitem settings "background") as [bg|e]; simpl; [|reflexivity].
  do 3 step_if_in.
  destruct (py_get bg "gradient" VNone) as [g|e]; simpl; [|reflexivity].
  destruct (py_bool g).
  - step_if_in. rewrite <- !app_assoc. reflexivity.
  - rewrite <- !app_assoc. reflexivity.
Qed.

Lemma emit_hardware_item_acc attr v mc :
  emit_hardware_item attr v mc =
  let* a := emit_hardware_item attr v [] in Ok (mc ++ a).
Proof.
  unfold emit_hardware_item.
  destruct (if is_bool v then _ else _) as [v'|e]; simpl; [|reflexivity].
  destruct (is_sequence v'); [|reflexivity].
  repeat (case_bind; [|reflexivity]). reflexivity.
Qed.

Lemma emit_hardware_items_acc items : forall mc,
  emit_hardware_items items mc =
  let* a := emit_hardware_items items [] in Ok (mc ++ a).
Proof.
  induction items as [|[attr v] rest IH]; intros mc; simpl.
  - rewrite app_nil_r. reflexivity.
  - rewrite (emit_hardware_item_acc attr v mc).
    destruct (emit_hardware_item attr v []) as [a1|e]; simpl; [|reflexivity].
    rewrite (IH (mc ++ a1)), (IH a1).
    destruct (emit_hardware_items rest []) as [a2|e]; simpl; [|reflexivity].
    rewrite <- app_assoc. reflexivity.
Qed.

Lemma emit_hardware_acc settings mc :
  emit_hardware settings mc =
  let* a := emit_hardware settings [] in Ok (mc ++ a).
Proof.
  unfold emit_hardware.
  destruct (py_contains "hardware2" settings) as [[|]|e]; simpl;
    [ | rewrite app_nil_r; reflexivity | reflexivity ].
  destruct (py_getitem settings "hardware2") as [h|e]; simpl; [|reflexivity].
  destruct (py_items h) as [items|e]; simpl; [|reflexivity].
  rewrite (emit_hardware_items_acc items (((mc ++ _) ++ _) ++ _)).
  rewrite (emit_hardware_items_acc items (_ :: _ :: _)).
  destruct (emit_hardware_items items []) as [a|e]; simpl; [|reflexivity].
  rewrite <- !app_assoc. reflexivity.
Qed.

(** The list at the return statement is the header, what each stage adds,
    in the order of the source, and the footer. *)
Lemma mel_commands_of_stages settings :
  mel_commands_of settings =
  let* cg := emit_camera_gate settings [] in
  let* cm := emit_camera_mask settings [] in
  let* cf := emit_camera_filmfit settings [] in
  let* gp := emit_gpu_cache settings [] in
  let* dp := emit_display settings [] in
  let* bg := emit_background settings [] in
  let* hw := emit_hardware settings [] in
  Ok (mel_header ++ (cg ++ cm ++ cf) ++ ["    }"; EmptyString]
        ++ gp ++ dp ++ bg ++ hw ++ mel_footer).
Proof.
  unfold mel_commands_of.
  rewrite (emit_camera_gate_acc settings mel_header).
  destruct (emit_camera_gate settings []) as [cg|e]; simpl bind; [|reflexivity].
  rewrite (emit_camera_mask_acc settings _).
  destruct (emit_camera_mask settings []) as [cm|e]; simpl bind; [|reflexivity].
  rewrite (emit_camera_filmfit_acc settings _).
  destruct (emit_camera_filmfit settings []) as [cf|e]; simpl bind; [|reflexivity].
  rewrite (emit_gpu_cache_acc settings _).
  destruct (emit_gpu_cache settings []) as [gp|e]; simpl bind; [|reflexivity].
  rewrite (emit_display_acc settings _).
  destruct (emit_display settings []) as [dp|e]; simpl bind; [|reflexivity].
  rewrite (emit_background_acc settings _).
  destruct (emit_background settings []) as [bg|e]; simpl bind; [|reflexivity].
  rewrite (emit_hardware_acc settings _).
  destruct (emit_hardware settings []) as [hw|e]; simpl bind; [|reflexivity].
  f_equal. rewrite <- !app_assoc. reflexivity.
Qed.

End EmitterStages.

(** ** What each kind of line is *)

Lemma camera_flag_line_kind flag text :
  is_camera_stmt (camera_flag_line flag text) = true.
Proof. reflexivity. Qed.

Lemma model_editor_line_kind attr text :
  is_display_stmt (model_editor_line attr text) = true.
Proof. reflexivity. Qed.

Lemma fog_enable_line_kind text : is_display_stmt (fog_enable_line text) = true.
Proof. reflexivity. Qed.

Lemma objexists_guard_kind :
  Forall (fun x => is_display_stmt x = true) objexists_guard.
Proof. repeat constructor. Qed.

Lemma gradient_line_kind text : is_background_stmt (gradient_line text) = true.
Proof. reflexivity. Qed.

Lemma rgb_text_kind name t0 t1 t2 :
  is_background_stmt (rgb_text name t0 t1 t2) = true.
Proof. reflexivity. Qed.

Lemma hw_scalar_line_kind attr text :
  is_hardware_stmt (hw_scalar_line attr text) = true.
Proof. reflexivity. Qed.

Lemma hw_triple_line_kind attr t0 t1 t2 :
  is_hardware_stmt (hw_triple_line attr t0 t1 t2) = true.
Proof. reflexivity. Qed.

Lemma base_color_kind t0 t1 t2 :
  is_base_color_stmt (rgb_text "background" t0 t1 t2) = true
  /\ is_bottom_color_stmt (rgb_text "background" t0 t1 t2) = false.
Proof. split; reflexivity. Qed.

Lemma bottom_color_kind t0 t1 t2 :
  is_bottom_color_stmt (rgb_text "backgroundBottom" t0 t1 t2) = true
  /\ is_base_color_stmt (rgb_text "backgroundBottom" t0 t1 t2) = false.
Proof. split; reflexivity. Qed.

Lemma top_color_kind t0 t1 t2 :
  is_bottom_color_stmt (rgb_text "backgroundTop" t0 t1 t2) = false
  /\ is_base_color_stmt (rgb_text "backgroundTop" t0 t1 t2) = false.
Proof. split; reflexivity. Qed.

Lemma camera_no_color x : is_camera_stmt x = true -> no_color x.
Proof.
  intros H. apply str_startswith_inv in H. destruct H as [r ->].
  split; reflexivity.
Qed.

Lemma hardware_no_color x : is_hardware_stmt x = true -> no_color x.
Proof.
  intros H. apply str_startswith_inv in H. destruct H as [r ->].
  split; reflexivity.
Qed.

Lemma display_no_color x : is_display_stmt x = true -> no_color x.
Proof.
  unfold is_display_stmt. intros H.
  apply orb_prop in H. destruct H as [H|H];
    [apply orb_prop in H; destruct H as [H|H]|].
  - apply str_startswith_inv in H. destruct H as [r ->]. split; reflexivity.
  - simpl in H. rewrite orb_false_r in H.
    repeat (apply orb_prop in H; destruct H as [H|H]);
      apply String.eqb_eq in H; subst x; split; reflexivity.
  - apply str_startswith_inv in H. destruct H as [r ->]. split; reflexivity.
Qed.

Lemma header_no_color : Forall no_color mel_header.
Proof. repeat constructor. Qed.

Lemma footer_no_color : Forall no_color mel_footer.
Proof. repeat constructor. Qed.

Lemma gpu_block_no_color text : Forall no_color (gpu_block text).
Proof. repeat constructor. Qed.

(** ** What each stage of the emitter adds *)

(** Splits off the first guarded append of a chain that returned. *)
Ltac split_if_in H :=
  rewrite emit_if_in_acc in H;
  let x := fresh "x" in
  let Hx := fresh "Hx" in
  let y := fresh "added" in
  let Hy := fresh "Hadd" in
  apply bind_ok in H; destruct H as (x & Hx & H);
  apply bind_ok in Hx; destruct Hx as (y & Hy & Hx);
  inversion Hx; subst x; clear Hx.

Section EmitterStructure.

Context {PR : PyRuntime}.

Lemma emit_if_in_forall (P : string -> Prop) section key line a :
  emit_if_in section key line [] = Ok a ->
  (forall v l, line v = Ok l -> P l) ->
  Forall P a.
Proof.
  intros H HP. apply emit_if_in_nil in H.
  destruct H as [[_ ->]|(v & l & _ & _ & Hl & ->)]; [constructor|].
  constructor; [eauto | constructor].
Qed.

Lemma emit_if_in_dict (d : dict) key line a :
  emit_if_in (VDict d) key line [] = Ok a ->
  match dict_get key d with
  | Some v => exists l, line v = Ok l /\ a = [l]
  | None => a = []
  end.
Proof.
  intros H. apply emit_if_in_nil in H. simpl in H. unfold dict_has in H.
  destruct (dict_get key d) as [v|].
  - destruct H as [[H _]|(v' & l & _ & Hv & Hl & ->)]; [discriminate|].
    inversion Hv; subst. eauto.
  - destruct H as [[_ ->]|(v' & l & H & _)]; [reflexivity | discriminate].
Qed.

Lemma rgb_line_inv name v l :
  rgb_line name v = Ok l -> exists t0 t1 t2, l = rgb_text name t0 t1 t2.
Proof.
  unfold rgb_line. intros H. do 3 bind_inv H. inversion H. eauto.
Qed.

Lemma triple_of_index (v x y z : value) :
  triple_of v = Some (x, y, z) ->
  py_index v 0 = Ok x /\ py_index v 1 = Ok y /\ py_index v 2 = Ok z.
Proof.
  destruct v as [| | | | |l|l|]; simpl; try discriminate;
    destruct l as [|a [|b [|c [|]]]]; try discriminate;
    intros H; inversion H; subst; auto.
Qed.

Lemma rgb_line_triple name (v x y z : value) :
  triple_of v = Some (x, y, z) ->
  rgb_line name v = Ok (rgb_text name (py_str x) (py_str y) (py_str z)).
Proof.
  intros H. apply triple_of_index in H. destruct H as (H0 & H1 & H2).
  unfold rgb_line. rewrite H0, H1, H2. reflexivity.
Qed.

(** *** Camera *)

Lemma emit_camera_gate_kind settings a :
  emit_camera_gate settings [] = Ok a ->
  Forall (fun x => is_camera_stmt x = true) a.
Proof.
  unfold emit_camera_gate. intros H. bind_inv H.
  destruct a0; [|inversion H; constructor].
  bind_inv H. do 2 split_if_in H. rewrite emit_if_in_acc in H.
  bind_inv H. inversion H; subst.
  repeat apply Forall_app_2; try constructor;
    (eapply emit_if_in_forall; [eassumption|]);
    intros v l Hl; inversion Hl; subst; reflexivity.
Qed.

Lemma emit_camera_mask_kind settings a :
  emit_camera_mask settings [] = Ok a ->
  Forall (fun x => is_camera_stmt x = true) a.
Proof.
  unfold emit_camera_mask. intros H. bind_inv H.
  destruct a0; [|inversion H; constructor].
  bind_inv H.
  eapply emit_if_in_forall; [eassumption|].
  intros v l Hl; inversion Hl; subst; reflexivity.
Qed.

Lemma emit_camera_filmfit_kind settings a :
  emit_camera_filmfit settings [] = Ok a ->
  Forall (fun x => is_camera_stmt x = true) a.
Proof.
  unfold emit_camera_filmfit. intros H. bind_inv H.
  destruct a0; [|inversion H; constructor].
  bind_inv H.
  eapply emit_if_in_forall; [eassumption|].
  intros v l Hl; inversion Hl; subst; reflexivity.
Qed.

(** *** GPU cache *)

Lemma emit_gpu_cache_inv settings a :
  emit_gpu_cache settings [] = Ok a ->
  exists pd g,
    py_get settings "plugin_display" (VDict []) = Ok pd
    /\ py_get pd "gpuCache" (VBool false) = Ok g
    /\ a = gpu_block (lower_str g).
Proof.
  unfold emit_gpu_cache. intros H. do 2 bind_inv H. inversion H.
  exists a0, a1. auto.
Qed.

(** *** Display *)

Lemma emit_display_item_inv attr v a :
  emit_display_item attr v [] = Ok a ->
  Forall (fun x => is_display_stmt x = true) a
  /\ (attr <> "displayLights" -> attr <> "displayAppearance" ->
      In (model_editor_line attr (lower_str v)) a).
Proof.
  unfold emit_display_item.
  destruct (String.eqb attr "hwFog") eqn:E1.
  { apply String.eqb_eq in E1. subst attr. intros H. bind_inv H.
    inversion H; subst. simpl. split.
    - repeat constructor.
    - intros _ _. left. reflexivity. }
  destruct (String.eqb attr "fogging") eqn:E2.
  { apply String.eqb_eq in E2. subst attr. intros H. inversion H. split.
    - repeat constructor.
    - intros _ _. left. reflexivity. }
  destruct (String.eqb attr "displayLights" || String.eqb attr "displayAppearance")%bool eqn:E3.
  { intros H. inversion H. split.
    - repeat constructor.
    - intros N1 N2. exfalso. apply orb_prop in E3.
      destruct E3 as [E|E]; apply String.eqb_eq in E; contradiction. }
  destruct (String.eqb attr "twoSidedLighting") eqn:E4.
  { apply String.eqb_eq in E4. subst attr. intros H. inversion H. split.
    - repeat constructor.
    - intros _ _. left. reflexivity. }
  destruct (String.eqb attr "shadows") eqn:E5.
  { apply String.eqb_eq in E5. subst attr. intros H. inversion H. split.
    - repeat constructor.
    - intros _ _. left. reflexivity. }
  destruct (String.eqb attr "jointXray") eqn:E6.
  { apply String.eqb_eq in E6. subst attr. intros H. inversion H. split.
    - repeat constructor.
    - intros _ _. left. reflexivity. }
  destruct (String.eqb attr "activeComponentsXray") eqn:E7.
  { apply String.eqb_eq in E7. subst attr. intros H. inversion H. split.
    - repeat constructor.
    - intros _ _. left. reflexivity. }
  intros H. inversion H. split.
  - repeat constructor.
  - intros _ _. left. reflexivity.
Qed.

Lemma emit_display_items_inv items : forall a,
  emit_display_items items [] = Ok a ->
  Forall (fun x => is_display_stmt x = true) a
  /\ (forall attr v, In (attr, v) items ->
      attr <> "displayLights" -> attr <> "displayAppearance" ->
      In (model_editor_line attr (lower_str v)) a).
Proof.
  induction items as [|[attr v] rest IH]; intros a H; simpl in H.
  - inversion H. split; [constructor | intros ? ? []].
  - bind_inv H. rewrite emit_display_items_acc in H. bind_inv H.
    inversion H; subst.
    apply emit_display_item_inv in Ha. destruct Ha as [K1 M1].
    apply IH in Ha0. destruct Ha0 as [K2 M2]. split.
    + apply Forall_app_2; assumption.
    + intros attr' v' [E|E] N1 N2; apply in_or_app.
      * inversion E; subst. left. auto.
      * right. eauto.
Qed.

Lemma emit_display_inv settings a :
  emit_display settings [] = Ok a ->
  exists display items stmts,
    py_getitem settings "display" = Ok display
    /\ py_items display = Ok items
    /\ a = "    // Display Settings" :: stmts
    /\ Forall (fun x => is_display_stmt x = true) stmts
    /\ (forall attr v, In (attr, v) items ->
        attr <> "displayLights" -> attr <> "displayAppearance" ->
        In (model_editor_line attr (lower_str v)) stmts).
Proof.
  unfold emit_display. intros H. do 2 bind_inv H.
  rewrite emit_display_items_acc in H. bind_inv H. inversion H; subst.
  apply emit_display_items_inv in Ha1. destruct Ha1 as [K M].
  exists a0, a1, a2. simpl. auto.
Qed.

(** *** Background *)

Lemma emit_background_inv settings a :
  emit_background settings [] = Ok a ->
  (py_contains "background" settings = Ok false /\ a = [])
  \/ (exists bg g t c b gradient,
        py_contains "background" settings = Ok true
        /\ py_getitem settings "background" = Ok bg
        /\ emit_if_in bg "gradient" (fun v => Ok (gradient_line (lower_str v))) [] = Ok g
        /\ emit_if_in bg "topColor" (rgb_line "backgroundTop") [] = Ok t
        /\ emit_if_in bg "color" (rgb_line "background") [] = Ok c
        /\ py_get bg "gradient" VNone = Ok gradient
        /\ (if py_bool gradient
            then emit_if_in bg "bottomColor" (rgb_line "backgroundBottom") [] = Ok b
            else b = [])
        /\ a = [EmptyString; "    // Background Settings"] ++ g ++ t ++ c ++ b).
Proof.
  unfold emit_background. intros H. bind_inv H.
  destruct a0; [|left; inversion H; auto].
  right. bind_inv H. do 3 split_if_in H. bind_inv H.
  destruct (py_bool a1) eqn:G.
  - rewrite emit_if_in_acc in H. bind_inv H. inversion H; subst.
    exists a0, added, added0, added1, a2, a1. rewrite G.
    repeat split; try assumption. simpl. rewrite <- !app_assoc. reflexivity.
  - inversion H; subst.
    exists a0, added, added0, added1, [], a1. rewrite G.
    repeat split; try assumption. simpl. rewrite app_nil_r.
    rewrite <- !app_assoc. reflexivity.
Qed.

(** *** Hardware *)

Lemma emit_hardware_item_inv attr v a :
  emit_hardware_item attr v [] = Ok a ->
  Forall (fun x => is_hardware_stmt x = true) a
  /\ (forall b, v = VBool b -> a = [hw_scalar_line attr (bool_digit b)])
  /\ (forall x y z, triple_of v = Some (x, y, z) ->
      a = [hw_triple_line attr (py_str x) (py_str y) (py_str z)]).
Proof.
  unfold emit_hardware_item. intros H. bind_inv H.
  destruct (is_sequence a0) eqn:S.
  - do 3 bind_inv H. inversion H; subst. split; [repeat constructor|]. split.
    + intros b ->. simpl in Ha. inversion Ha; subst. discriminate.
    + intros x y z T.
      assert (a0 = v) as ->.
      { destruct v; simpl in *; try discriminate; inversion Ha; reflexivity. }
      apply triple_of_index in T. destruct T as (T0 & T1 & T2).
      rewrite T0 in Ha0. rewrite T1 in Ha1. rewrite T2 in Ha2.
      inversion Ha0; inversion Ha1; inversion Ha2; subst. reflexivity.
  - inversion H; subst. split; [repeat constructor|]. split.
    + intros b ->. simpl in Ha. inversion Ha; subst. simpl.
      destruct b; reflexivity.
    + intros x y z T. exfalso.
      destruct v as [| | | | |l|l|]; simpl in *; try discriminate;
        inversion Ha; subst; discriminate.
Qed.

Lemma emit_hardware_items_inv items : forall a,
  emit_hardware_items items [] = Ok a ->
  Forall (fun x => is_hardware_stmt x = true) a
  /\ (forall attr b, In (attr, VBool b) items ->
      In (hw_scalar_line attr (bool_digit b)) a)
  /\ (forall attr v x y z, In (attr, v) items ->
      triple_of v = Some (x, y, z) ->
      In (hw_triple_line attr (py_str x) (py_str y) (py_str z)) a).
Proof.
  induction items as [|[attr v] rest IH]; intros a H; simpl in H.
  - inversion H. split; [constructor|]. split; intros; contradiction.
  - bind_inv H. rewrite emit_hardware_items_acc in H. bind_inv H.
    inversion H; subst.
    apply emit_hardware_item_inv in Ha. destruct Ha as (K1 & B1 & T1).
    apply IH in Ha0. destruct Ha0 as (K2 & B2 & T2). split; [|split].
    + apply Forall_app_2; assumption.
    + intros attr' b [E|E]; apply in_or_app.
      * inversion E; subst. left. rewrite (B1 b eq_refl). left. reflexivity.
      * right. eauto.
    + intros attr' v' x y z [E|E] T; apply in_or_app.
      * inversion E; subst. left. rewrite (T1 x y z T). left. reflexivity.
      * right. eauto.
Qed.

Lemma emit_hardware_inv settings a :
  emit_hardware settings [] = Ok a ->
  (py_contains "hardware2" settings = Ok false /\ a = [])
  \/ (exists hardware2 items stmts,
        py_contains "hardware2" settings = Ok true
        /\ py_getitem settings "hardware2" = Ok hardware2
        /\ py_items hardware2 = Ok items
        /\ a = [EmptyString; "    // Hardware 2.0 Settings"] ++ objexists_guard ++ stmts
        /\ emit_hardware_items items [] = Ok stmts).
Proof.
  unfold emit_hardware. intros H. bind_inv H.
  destruct a0; [|left; inversion H; auto].
  right. do 2 bind_inv H.
  rewrite emit_hardware_items_acc in H. bind_inv H. inversion H; subst.
  exists a0, a1, a2. repeat split; auto.
Qed.

End EmitterStructure.

(** ** The emitted script as a whole *)

Section EmitterTheorems.

Context {PR : PyRuntime}.

Lemma settings_to_mel_inv self settings out :
  py_bool settings = true ->
  settings_to_mel self settings = Ok out ->
  exists l, mel_commands_of settings = Ok l /\ out = str_join nl l.
Proof.
  unfold settings_to_mel. intros ->. simpl. intros H. bind_inv H.
  inversion H. eauto.
Qed.

Lemma background_lines_kind bg (g t c b : list string) gradient :
  emit_if_in bg "gradient" (fun v => Ok (gradient_line (lower_str v))) [] = Ok g ->
  emit_if_in bg "topColor" (rgb_line "backgroundTop") [] = Ok t ->
  emit_if_in bg "color" (rgb_line "background") [] = Ok c ->
  (if py_bool gradient
   then emit_if_in bg "bottomColor" (rgb_line "backgroundBottom") [] = Ok b
   else b = []) ->
  Forall (fun x => is_background_stmt x = true) (g ++ t ++ c ++ b).
Proof.
  intros Hg Ht Hc Hb.
  assert (forall name v l, rgb_line name v = Ok l -> is_background_stmt l = true)
    as RGB.
  { intros name v l H. apply rgb_line_inv in H.
    destruct H as (t0 & t1 & t2 & ->). reflexivity. }
  repeat apply Forall_app_2.
  - eapply emit_if_in_forall; [eassumption|].
    intros v l H. inversion H. reflexivity.
  - eapply emit_if_in_forall; [eassumption|]. eauto.
  - eapply emit_if_in_forall; [eassumption|]. eauto.
  - destruct (py_bool gradient); [|subst b; constructor].
    eapply emit_if_in_forall; [eassumption|]. eauto.
Qed.

(** C2, as amended.  In the script settings_to_mel returns for a snapshot
    that is not empty, the sections stand in this order: the fixed header,
    the camera statements, the closing of the camera block, the GPU cache
    block (plugin-load guard, then the gpuCacheDisplayFilter flag), the
    display statements, the background block if there is one, the hardware
    block if there is one, and last the closing brace, an empty line and
    the call viewportCaptureApply(). *)
Theorem settings_to_mel_section_order
    (self : ViewportCapture) (settings : value) (out : string) :
  py_bool settings = true ->
  settings_to_mel self settings = Ok out ->
  exists camera flag display background hardware,
    out = str_join nl
            (mel_header ++ camera ++ ["    }"; EmptyString]
               ++ gpu_block flag
               ++ ("    // Display Settings" :: display)
               ++ background ++ hardware
               ++ ["}"; EmptyString; "viewportCaptureApply();"])
    /\ Forall (fun x => is_camera_stmt x = true) camera
    /\ Forall (fun x => is_display_stmt x = true) display
    /\ (background = []
        \/ exists stmts,
             background = EmptyString :: "    // Background Settings" :: stmts
             /\ Forall (fun x => is_background_stmt x = true) stmts)
    /\ (hardware = []
        \/ exists stmts,
             hardware = EmptyString :: "    // Hardware 2.0 Settings"
                          :: objexists_guard ++ stmts
             /\ Forall (fun x => is_hardware_stmt x = true) stmts).
Proof.
  intros T H. destruct (settings_to_mel_inv _ _ _ T H) as (l & Hl & ->).
  rewrite mel_commands_of_stages in Hl. do 7 bind_inv Hl.
  inversion Hl; subst l; clear Hl.
  apply emit_camera_gate_kind in Ha.
  apply emit_camera_mask_kind in Ha0.
  apply emit_camera_filmfit_kind in Ha1.
  apply emit_gpu_cache_inv in Ha2. destruct Ha2 as (pd & g & _ & _ & ->).
  apply emit_display_inv in Ha3.
  destruct Ha3 as (dv & items & stmts & _ & _ & -> & Kd & _).
  exists (a ++ a0 ++ a1), (lower_str g), stmts, a4, a5.
  split; [reflexivity|]. split; [repeat apply Forall_app_2; assumption|].
  split; [assumption|]. split.
  - apply emit_background_inv in Ha4.
    destruct Ha4 as [[_ ->]|(bg & g' & t & c & b & gr & _ & _ & Hg & Ht & Hc & _ & Hb & ->)];
      [left; reflexivity|].
    right. exists (g' ++ t ++ c ++ b). split; [reflexivity|].
    eapply background_lines_kind; eassumption.
  - apply emit_hardware_inv in Ha5.
    destruct Ha5 as [[_ ->]|(hw & items' & stmts' & _ & _ & _ & -> & Hi)];
      [left; reflexivity|].
    right. exists stmts'. split; [reflexivity|].
    apply emit_hardware_items_inv in Hi. tauto.
Qed.

End EmitterTheorems.

Lemma settings_to_mel_section_order_witness :
  py_bool (PR := Sample.runtime) Sample.snapshot = true
  /\ exists out,
       settings_to_mel (PR := Sample.runtime) init_instance Sample.snapshot
       = Ok out
       /\ exists camera flag display background hardware,
            out = str_join nl
                    (mel_header ++ camera ++ ["    }"; EmptyString]
                       ++ gpu_block flag
                       ++ ("    // Display Settings" :: display)
                       ++ background ++ hardware
                       ++ ["}"; EmptyString; "viewportCaptureApply();"])
            /\ Forall (fun x => is_camera_stmt x = true) camera
            /\ Forall (fun x => is_display_stmt x = true) display
            /\ (background = []
                \/ exists stmts,
                     background
                     = EmptyString :: "    // Background Settings" :: stmts
                     /\ Forall (fun x => is_background_stmt x = true) stmts)
            /\ (hardware = []
                \/ exists stmts,
                     hardware = EmptyString :: "    // Hardware 2.0 Settings"
                                  :: objexists_guard ++ stmts
                     /\ Forall (fun x => is_hardware_stmt x = true) stmts).
Proof.
  split; [reflexivity|].
  eexists. split; [vm_compute; reflexivity|].
  apply (settings_to_mel_section_order (PR := Sample.runtime)
           init_instance Sample.snapshot); [reflexivity | vm_compute; reflexivity].
Defined.

(** C2, the claim as stated fails: in the script emitted for the sample
    snapshot the gpuCacheDisplayFilter flag stands before the wireframe
    display flag, not after it. *)
Lemma display_before_plugin_counterexample :
  exists l,
    mel_commands_of (PR := Sample.runtime) Sample.snapshot = Ok l
    /\ ~ precedes_all (String.eqb (model_editor_line "wireframe" "true"))
           is_plugin_flag_stmt l.
Proof.
  eexists. split; [vm_compute; reflexivity|].
  intros H.
  specialize (H 37%nat 34%nat _ _ eq_refl eq_refl eq_refl eq_refl). lia.
Qed.

(** ** How values are rendered, and where the colour statements stand *)

Lemma precedes_all_split (P Q : string -> bool) (pre post : list string) :
  Forall (fun x => Q x = false) pre ->
  Forall (fun x => P x = false) post ->
  precedes_all P Q (pre ++ post).
Proof.
  intros Hpre Hpost i j x y Hi Px Hj Qy.
  destruct (Nat.lt_ge_cases i (length pre)) as [Li|Li].
  - destruct (Nat.lt_ge_cases j (length pre)) as [Lj|Lj]; [|lia].
    rewrite nth_error_app1 in Hj by assumption.
    apply nth_error_In in Hj.
    rewrite List.Forall_forall in Hpre. rewrite (Hpre y Hj) in Qy. discriminate.
  - rewrite nth_error_app2 in Hi by assumption.
    apply nth_error_In in Hi.
    rewrite List.Forall_forall in Hpost. rewrite (Hpost x Hi) in Px. discriminate.
Qed.

Lemma no_color_of_kind (P : string -> bool) (l : list string) :
  (forall x, P x = true -> no_color x) ->
  Forall (fun x => P x = true) l -> Forall no_color l.
Proof. intros HP H. eapply List.Forall_impl; [|exact H]. exact HP. Qed.

Section Rendering.

Context {PR : PyRuntime}.

Lemma dict_get_has (d : dict) k v : dict_get k d = Some v -> dict_has k d = true.
Proof. unfold dict_has. intros ->. reflexivity. Qed.

Lemma dict_get_nonempty (d : dict) k v :
  dict_get k d = Some v -> py_bool (VDict d) = true.
Proof. destruct d; [discriminate | reflexivity]. Qed.

(** The camera statements of a snapshot whose camera_gate is a dict. *)
Lemma camera_gate_flag (d g : dict) key v cg :
  dict_get "camera_gate" d = Some (VDict g) ->
  emit_camera_gate (VDict d) [] = Ok cg ->
  key = "displayFilmGate" \/ key = "displayResolution" ->
  dict_get key g = Some v ->
  In (camera_flag_line key (lower_str v)) cg.
Proof.
  intros Hd H K Hv. unfold emit_camera_gate in H. simpl in H.
  rewrite (dict_get_has _ _ _ Hd), Hd in H. simpl in H.
  do 2 split_if_in H. rewrite emit_if_in_acc in H. bind_inv H.
  inversion H; subst cg; clear H.
  apply emit_if_in_dict in Hadd, Hadd0.
  destruct K as [-> | ->].
  - rewrite Hv in Hadd. destruct Hadd as (l & Hl & ->). inversion Hl.
    simpl. left. reflexivity.
  - rewrite Hv in Hadd0. destruct Hadd0 as (l & Hl & ->). inversion Hl.
    apply in_or_app. left. apply in_or_app. right. left. reflexivity.
Qed.

Lemma camera_mask_flag (d g : dict) v cm :
  dict_get "camera_mask" d = Some (VDict g) ->
  emit_camera_mask (VDict d) [] = Ok cm ->
  dict_get "displayGateMask" g = Some v ->
  In (camera_flag_line "displayGateMask" (lower_str v)) cm.
Proof.
  intros Hd H Hv. unfold emit_camera_mask in H. simpl in H.
  rewrite (dict_get_has _ _ _ Hd), Hd in H. simpl in H.
  apply emit_if_in_dict in H. rewrite Hv in H.
  destruct H as (l & Hl & ->). inversion Hl. left. reflexivity.
Qed.

Lemma gpu_cache_flag (d pd : dict) v gp :
  dict_get "plugin_display" d = Some (VDict pd) ->
  emit_gpu_cache (VDict d) [] = Ok gp ->
  dict_get "gpuCache" pd = Some v ->
  In (gpu_flag_line (lower_str v)) gp.
Proof.
  intros Hd H Hv. unfold emit_gpu_cache in H. simpl in H.
  rewrite Hd in H. simpl in H. rewrite Hv in H. simpl in H.
  inversion H. simpl. do 5 right. left. reflexivity.
Qed.

(** The background block of a snapshot whose background is a dict: the
    gradient statement, the top colour, the base colour and, under a true
    gradient only, the bottom colour, in that order. *)
Lemma background_block (d bg : dict) a :
  dict_get "background" d = Some (VDict bg) ->
  emit_background (VDict d) [] = Ok a ->
  exists g t c b,
    a = [EmptyString; "    // Background Settings"] ++ g ++ t ++ c ++ b
    /\ match dict_get "gradient" bg with
       | Some v => g = [gradient_line (lower_str v)]
       | None => g = []
       end
    /\ match dict_get "topColor" bg with
       | Some v => exists l, rgb_line "backgroundTop" v = Ok l /\ t = [l]
       | None => t = []
       end
    /\ match dict_get "color" bg with
       | Some v => exists l, rgb_line "background" v = Ok l /\ c = [l]
       | None => c = []
       end
    /\ (if py_bool (match dict_get "gradient" bg with
                    | Some v => v
                    | None => VNone
                    end)
        then match dict_get "bottomColor" bg with
             | Some v => exists l, rgb_line "backgroundBottom" v = Ok l /\ b = [l]
             | None => b = []
             end
        else b = []).
Proof.
  intros Hd H. apply emit_background_inv in H.
  destruct H as [[H _]|(bg' & g & t & c & b & gr & _ & Hbg & Hg & Ht & Hc & Hgr & Hb & ->)].
  { simpl in H. rewrite (dict_get_has _ _ _ Hd) in H. discriminate. }
  simpl in Hbg. rewrite Hd in Hbg. inversion Hbg; subst bg'; clear Hbg.
  exists g, t, c, b. split; [reflexivity|].
  apply emit_if_in_dict in Hg, Ht, Hc.
  split; [|split; [exact Ht|split; [exact Hc|]]].
  - destruct (dict_get "gradient" bg); [|exact Hg].
    destruct Hg as (l & Hl & ->). inversion Hl. reflexivity.
  - simpl in Hgr.
    assert (gr = match dict_get "gradient" bg with Some v => v | None => VNone end)
      as <-.
    { destruct (dict_get "gradient" bg); inversion Hgr; reflexivity. }
    destruct (py_bool gr); [|exact Hb].
    apply emit_if_in_dict in Hb. exact Hb.
Qed.

Lemma hardware_block (d hw : dict) a :
  dict_get "hardware2" d = Some (VDict hw) ->
  emit_hardware (VDict d) [] = Ok a ->
  exists stmts,
    a = [EmptyString; "    // Hardware 2.0 Settings"] ++ objexists_guard ++ stmts
    /\ emit_hardware_items hw [] = Ok stmts.
Proof.
  intros Hd H. apply emit_hardware_inv in H.
  destruct H as [[H _]|(hw' & items & stmts & _ & Hh & Hi & -> & Hs)].
  { simpl in H. rewrite (dict_get_has _ _ _ Hd) in H. discriminate. }
  simpl in Hh. rewrite Hd in Hh. inversion Hh; subst hw'.
  simpl in Hi. inversion Hi; subst items. eauto.
Qed.

Lemma display_block (d display : dict) a :
  dict_get "display" d = Some (VDict display) ->
  emit_display (VDict d) [] = Ok a ->
  forall attr v, In (attr, v) display ->
    attr <> "displayLights" -> attr <> "displayAppearance" ->
    In (model_editor_line attr (lower_str v)) a.
Proof.
  intros Hd H attr v Hin N1 N2. apply emit_display_inv in H.
  destruct H as (dv & items & stmts & Hdv & Hi & -> & _ & M).
  simpl in Hdv. rewrite Hd in Hdv. inversion Hdv; subst dv.
  simpl in Hi. inversion Hi; subst items.
  right. eauto.
Qed.

End Rendering.

Section RenderingTheorems.

Context {PR : PyRuntime}.

(** The lines of a script that returned, stage by stage. *)
Lemma emitted_lines (settings : value) (l : list string) :
  mel_commands_of settings = Ok l ->
  exists cg cm cf gp dp bg hw,
    emit_camera_gate settings [] = Ok cg
    /\ emit_camera_mask settings [] = Ok cm
    /\ emit_camera_filmfit settings [] = Ok cf
    /\ emit_gpu_cache settings [] = Ok gp
    /\ emit_display settings [] = Ok dp
    /\ emit_background settings [] = Ok bg
    /\ emit_hardware settings [] = Ok hw
    /\ l = mel_header ++ (cg ++ cm ++ cf) ++ ["    }"; EmptyString]
             ++ gp ++ dp ++ bg ++ hw ++ mel_footer.
Proof.
  intros H. rewrite mel_commands_of_stages in H. do 7 bind_inv H.
  inversion H. exists a, a0, a1, a2, a3, a4, a5. repeat split; assumption.
Qed.

(** C3, as amended.  In the script settings_to_mel returns for a snapshot:
    a boolean under a display flag other than displayLights and
    displayAppearance, under displayFilmGate, displayResolution,
    displayGateMask, gpuCache or gradient is written true or false; a
    boolean of the hardware2 section is written 1 or 0; a list or tuple of
    three components of the hardware2 section, or under topColor, color
    or (when the gradient is on) bottomColor, is written as its three
    components with a space between them. *)
Theorem settings_to_mel_renders_values
    (self : ViewportCapture) (d : dict) (out : string) :
  py_bool (VDict d) = true ->
  settings_to_mel self (VDict d) = Ok out ->
  exists l,
    out = str_join nl l
    /\ (forall display attr b,
          dict_get "display" d = Some (VDict display) ->
          In (attr, VBool b) display ->
          attr <> "displayLights" -> attr <> "displayAppearance" ->
          In (model_editor_line attr (bool_text b)) l)
    /\ (forall g key b,
          dict_get "camera_gate" d = Some (VDict g) ->
          key = "displayFilmGate" \/ key = "displayResolution" ->
          dict_get key g = Some (VBool b) ->
          In (camera_flag_line key (bool_text b)) l)
    /\ (forall g b,
          dict_get "camera_mask" d = Some (VDict g) ->
          dict_get "displayGateMask" g = Some (VBool b) ->
          In (camera_flag_line "displayGateMask" (bool_text b)) l)
    /\ (forall pd b,
          dict_get "plugin_display" d = Some (VDict pd) ->
          dict_get "gpuCache" pd = Some (VBool b) ->
          In (gpu_flag_line (bool_text b)) l)
    /\ (forall bg b,
          dict_get "background" d = Some (VDict bg) ->
          dict_get "gradient" bg = Some (VBool b) ->
          In (gradient_line (bool_text b)) l)
    /\ (forall hw attr b,
          dict_get "hardware2" d = Some (VDict hw) ->
          In (attr, VBool b) hw ->
          In (hw_scalar_line attr (bool_digit b)) l)
    /\ (forall hw attr v x y z,
          dict_get "hardware2" d = Some (VDict hw) ->
          In (attr, v) hw ->
          triple_of v = Some (x, y, z) ->
          In (hw_triple_line attr (py_str x) (py_str y) (py_str z)) l)
    /\ (forall bg v x y z,
          dict_get "background" d = Some (VDict bg) ->
          triple_of v = Some (x, y, z) ->
          (dict_get "topColor" bg = Some v ->
           In (rgb_text "backgroundTop" (py_str x) (py_str y) (py_str z)) l)
          /\ (dict_get "color" bg = Some v ->
              In (rgb_text "background" (py_str x) (py_str y) (py_str z)) l)
          /\ (dict_get "bottomColor" bg = Some v ->
              forall gradient,
                dict_get "gradient" bg = Some gradient ->
                py_bool gradient = true ->
                In (rgb_text "backgroundBottom" (py_str x) (py_str y) (py_str z)) l)).
Proof.
  intros T H. destruct (settings_to_mel_inv _ _ _ T H) as (l & Hl & ->).
  exists l. split; [reflexivity|].
  apply emitted_lines in Hl.
  destruct Hl as (cg & cm & cf & gp & dp & bgl & hwl & Hcg & Hcm & Hcf & Hgp & Hdp & Hbg & Hhw & ->).
  repeat split.
  - intros display attr b Hd Hin N1 N2.
    pose proof (display_block _ _ _ Hd Hdp attr (VBool b) Hin N1 N2) as M.
    rewrite lower_str_bool in M. rewrite !in_app_iff. tauto.
  - intros g key b Hd K Hv.
    pose proof (camera_gate_flag _ _ _ _ _ Hd Hcg K Hv) as M.
    rewrite lower_str_bool in M. rewrite !in_app_iff. tauto.
  - intros g b Hd Hv.
    pose proof (camera_mask_flag _ _ _ _ Hd Hcm Hv) as M.
    rewrite lower_str_bool in M. rewrite !in_app_iff. tauto.
  - intros pd b Hd Hv.
    pose proof (gpu_cache_flag _ _ _ _ Hd Hgp Hv) as M.
    rewrite lower_str_bool in M. rewrite !in_app_iff. tauto.
  - intros bg b Hd Hv.
    destruct (background_block _ _ _ Hd Hbg) as (g & t & c & bt & -> & Hg & _).
    rewrite Hv in Hg. subst g. rewrite lower_str_bool.
    rewrite !in_app_iff. simpl. tauto.
  - intros hw attr b Hd Hin.
    destruct (hardware_block _ _ _ Hd Hhw) as (stmts & -> & Hs).
    apply emit_hardware_items_inv in Hs. destruct Hs as (_ & B & _).
    specialize (B attr b Hin). rewrite !in_app_iff. tauto.
  - intros hw attr v x y z Hd Hin Tv.
    destruct (hardware_block _ _ _ Hd Hhw) as (stmts & -> & Hs).
    apply emit_hardware_items_inv in Hs. destruct Hs as (_ & _ & B).
    specialize (B attr v x y z Hin Tv). rewrite !in_app_iff. tauto.
  - intros Hv.
    destruct (background_block _ _ _ H0 Hbg) as (g & t & c & bt & -> & _ & Ht & _).
    rewrite Hv in Ht. destruct Ht as (ln & Hln & ->).
    rewrite (rgb_line_triple _ _ _ _ _ H1) in Hln. inversion Hln.
    rewrite !in_app_iff. simpl. tauto.
  - intros Hv.
    destruct (background_block _ _ _ H0 Hbg) as (g & t & c & bt & -> & _ & _ & Hc & _).
    rewrite Hv in Hc. destruct Hc as (ln & Hln & ->).
    rewrite (rgb_line_triple _ _ _ _ _ H1) in Hln. inversion Hln.
    rewrite !in_app_iff. simpl. tauto.
  - intros Hv gradient Hgr Tg.
    destruct (background_block _ _ _ H0 Hbg) as (g & t & c & bt & -> & _ & _ & _ & Hb).
    rewrite Hgr, Tg, Hv in Hb. destruct Hb as (ln & Hln & ->).
    rewrite (rgb_line_triple _ _ _ _ _ H1) in Hln. inversion Hln.
    rewrite !in_app_iff. simpl. tauto.
Qed.

(** Where the colour statements of a script stand: everything before the
    base colour and everything after the bottom colour is no colour
    statement of either kind. *)
Lemma color_statements_split (d bg : dict) (l : list string) :
  dict_get "background" d = Some (VDict bg) ->
  mel_commands_of (VDict d) = Ok l ->
  exists pre c b post,
    l = (pre ++ c) ++ (b ++ post)
    /\ Forall no_color pre /\ Forall no_color post
    /\ match dict_get "color" bg with
       | Some v => exists x, rgb_line "background" v = Ok x /\ c = [x]
       | None => c = []
       end
    /\ (if py_bool (match dict_get "gradient" bg with
                    | Some v => v
                    | None => VNone
                    end)
        then match dict_get "bottomColor" bg with
             | Some v => exists x, rgb_line "backgroundBottom" v = Ok x /\ b = [x]
             | None => b = []
             end
        else b = []).
Proof.
  intros Hd Hl. apply emitted_lines in Hl.
  destruct Hl as (cg & cm & cf & gp & dp & bgl & hwl & Hcg & Hcm & Hcf & Hgp & Hdp & Hbg & Hhw & ->).
  destruct (background_block _ _ _ Hd Hbg) as (g & t & c & b & -> & Hg & Ht & Hc & Hb).
  exists (mel_header ++ (cg ++ cm ++ cf) ++ ["    }"; EmptyString] ++ gp ++ dp
            ++ [EmptyString; "    // Background Settings"] ++ g ++ t),
    c, b, (hwl ++ mel_footer).
  split; [rewrite <- !app_assoc; reflexivity|].
  split; [|split; [|split; assumption]].
  - repeat apply Forall_app_2.
    + exact header_no_color.
    + eapply no_color_of_kind; [exact camera_no_color|].
      eapply emit_camera_gate_kind; eassumption.
    + eapply no_color_of_kind; [exact camera_no_color|].
      eapply emit_camera_mask_kind; eassumption.
    + eapply no_color_of_kind; [exact camera_no_color|].
      eapply emit_camera_filmfit_kind; eassumption.
    + repeat constructor.
    + apply emit_gpu_cache_inv in Hgp. destruct Hgp as (pd & gv & _ & _ & ->).
      apply gpu_block_no_color.
    + apply emit_display_inv in Hdp.
      destruct Hdp as (dv & items & stmts & _ & _ & -> & K & _).
      constructor; [split; reflexivity|].
      eapply no_color_of_kind; [exact display_no_color | exact K].
    + repeat constructor.
    + destruct (dict_get "gradient" bg); subst g; repeat constructor.
    + destruct (dict_get "topColor" bg) as [v|]; [|subst t; constructor].
      destruct Ht as (x & Hx & ->). apply rgb_line_inv in Hx.
      destruct Hx as (t0 & t1 & t2 & ->). repeat constructor.
  - apply Forall_app_2; [|exact footer_no_color].
    apply emit_hardware_inv in Hhw.
    destruct Hhw as [[_ ->]|(hw & items & stmts & _ & _ & _ & -> & Hi)];
      [constructor|].
    apply emit_hardware_items_inv in Hi. destruct Hi as (K & _).
    repeat apply Forall_app_2; try (repeat constructor; fail).
    eapply no_color_of_kind; [exact hardware_no_color | exact K].
Qed.

(** C5.  For a snapshot whose background section has gradient True and a
    bottomColor, the script settings_to_mel returns holds the bottom-colour
    statement, every base-colour statement in it stands before every
    bottom-colour statement, and the base-colour statement is there when
    the section has a color.  For a snapshot whose background section has
    gradient False, no statement of the script is a bottom-colour
    statement, whatever bottomColor holds.  A statement is an element of
    the list mel_commands the emitter has built at its return statement,
    which the script is the join of. *)
Theorem background_color_order
    (self : ViewportCapture) (d bg : dict) (out : string) :
  dict_get "background" d = Some (VDict bg) ->
  settings_to_mel self (VDict d) = Ok out ->
  exists l,
    mel_commands_of (VDict d) = Ok l
    /\ out = str_join nl l
    /\ (dict_get "gradient" bg = Some (VBool true) ->
        forall bottom_color,
          dict_get "bottomColor" bg = Some bottom_color ->
          (exists y, In y l
                     /\ rgb_line "backgroundBottom" bottom_color = Ok y
                     /\ is_bottom_color_stmt y = true)
          /\ precedes_all is_base_color_stmt is_bottom_color_stmt l
          /\ (forall color,
                dict_get "color" bg = Some color ->
                exists x, In x l
                          /\ rgb_line "background" color = Ok x
                          /\ is_base_color_stmt x = true))
    /\ (dict_get "gradient" bg = Some (VBool false) ->
        Forall (fun x => is_bottom_color_stmt x = false) l).
Proof.
  intros Hd H.
  destruct (settings_to_mel_inv _ _ _ (dict_get_nonempty _ _ _ Hd) H)
    as (l & Hl & ->).
  exists l. split; [exact Hl|]. split; [reflexivity|].
  destruct (color_statements_split _ _ _ Hd Hl)
    as (pre & c & b & post & -> & Hpre & Hpost & Hc & Hb).
  assert (Forall (fun x => is_bottom_color_stmt x = false) (pre ++ c)) as Npre.
  { apply Forall_app_2.
    - eapply List.Forall_impl; [|exact Hpre]. intros x [_ N]. exact N.
    - destruct (dict_get "color" bg); [|subst c; constructor].
      destruct Hc as (x & Hx & ->). apply rgb_line_inv in Hx.
      destruct Hx as (t0 & t1 & t2 & ->). repeat constructor. }
  assert (Forall (fun x => is_base_color_stmt x = false) post) as Npost.
  { eapply List.Forall_impl; [|exact Hpost]. intros x [N _]. exact N. }
  split.
  - intros Hg bottom_color Hbc. rewrite Hg, Hbc in Hb. simpl in Hb.
    destruct Hb as (y & Hy & ->).
    assert (is_bottom_color_stmt y = true /\ is_base_color_stmt y = false) as [By Ny].
    { pose proof Hy as Hy'. apply rgb_line_inv in Hy'.
      destruct Hy' as (t0 & t1 & t2 & ->). split; reflexivity. }
    split; [|split].
    + exists y. split; [|split; assumption].
      rewrite !in_app_iff. simpl. tauto.
    + apply precedes_all_split; [exact Npre|].
      constructor; assumption.
    + intros color Hcol. rewrite Hcol in Hc. destruct Hc as (x & Hx & ->).
      exists x. split; [rewrite !in_app_iff; simpl; tauto|].
      split; [assumption|].
      apply rgb_line_inv in Hx. destruct Hx as (t0 & t1 & t2 & ->). reflexivity.
  - intros Hg. rewrite Hg in Hb. simpl in Hb. subst b. simpl.
    apply Forall_app_2; [exact Npre|].
    eapply List.Forall_impl; [|exact Hpost]. intros x [_ N]. exact N.
Qed.

(** C7.  With None for a snapshot, settings_to_mel returns the fixed
    placeholder text and raises nothing. *)
Theorem settings_to_mel_none (self : ViewportCapture) :
  settings_to_mel self VNone = Ok "// No settings captured".
Proof. reflexivity. Qed.

(** C4, at the failing input: a snapshot that holds a panel name and no
    display section makes settings_to_mel raise KeyError. *)
Theorem settings_to_mel_missing_display
    (self : ViewportCapture) (panel : string) :
  settings_to_mel self (VDict [("panel", VStr panel)])
  = Raise (KeyError "display").
Proof. reflexivity. Qed.

(** More generally, no snapshot that is not empty and lacks the display
    section gets a script. *)
Lemma settings_to_mel_needs_display (self : ViewportCapture) (d : dict) :
  d <> [] ->
  dict_get "display" d = None ->
  is_ok (settings_to_mel self (VDict d)) = false.
Proof.
  intros Hne Hd. unfold settings_to_mel.
  assert (py_bool (VDict d) = true) as -> by (destruct d; [contradiction|reflexivity]).
  simpl negb. cbv iota.
  rewrite mel_commands_of_stages.
  destruct (emit_camera_gate _ []); [|reflexivity]. simpl bind.
  destruct (emit_camera_mask _ []); [|reflexivity]. simpl bind.
  destruct (emit_camera_filmfit _ []); [|reflexivity]. simpl bind.
  destruct (emit_gpu_cache _ []); [|reflexivity]. simpl bind.
  unfold emit_display, py_getitem. rewrite Hd. reflexivity.
Qed.

End RenderingTheorems.

(** ** The snapshots the emitter renders *)

Section Renderable.

Context {PR : PyRuntime}.

Lemma emit_if_in_dict_ok (sec : dict) key line acc :
  (forall v, dict_get key sec = Some v -> is_ok (line v) = true) ->
  exists a, emit_if_in (VDict sec) key line acc = Ok a.
Proof.
  intros H. unfold emit_if_in. simpl. unfold dict_has.
  destruct (dict_get key sec) as [v|]; simpl; [|eauto].
  specialize (H v eq_refl). destruct (line v); [simpl; eauto|discriminate].
Qed.

Lemma rgb_line_ok name v : triple_ok v = true -> is_ok (rgb_line name v) = true.
Proof.
  unfold triple_ok, rgb_line. intros H.
  apply andb_prop in H. destruct H as [H H2].
  apply andb_prop in H. destruct H as [H0 H1].
  destruct (py_index v 0); [|discriminate].
  destruct (py_index v 1); [|discriminate].
  destruct (py_index v 2); [|discriminate]. reflexivity.
Qed.

Lemma opt_key_ok (bg : dict) key ok v :
  opt_key bg key ok = true -> dict_get key bg = Some v -> ok v = true.
Proof. unfold opt_key. intros H E. rewrite E in H. exact H. Qed.

Lemma emit_camera_gate_ok (d : dict) :
  opt_section d "camera_gate" (fun _ => true) = true ->
  exists a, emit_camera_gate (VDict d) [] = Ok a.
Proof.
  unfold opt_section, emit_camera_gate. simpl. unfold dict_has.
  destruct (dict_get "camera_gate" d) as [v|]; simpl; [|eauto].
  destruct v; try discriminate. intros _.
  destruct (emit_if_in_dict_ok d0 "displayFilmGate"
              (fun v => Ok (camera_flag_line "displayFilmGate" (lower_str v))) [])
    as [a1 ->]; [reflexivity|]. simpl.
  destruct (emit_if_in_dict_ok d0 "displayResolution"
              (fun v => Ok (camera_flag_line "displayResolution" (lower_str v))) a1)
    as [a2 ->]; [reflexivity|]. simpl.
  apply emit_if_in_dict_ok. reflexivity.
Qed.

Lemma emit_camera_mask_ok (d : dict) :
  opt_section d "camera_mask" (fun _ => true) = true ->
  exists a, emit_camera_mask (VDict d) [] = Ok a.
Proof.
  unfold opt_section, emit_camera_mask. simpl. unfold dict_has.
  destruct (dict_get "camera_mask" d) as [v|]; simpl; [|eauto].
  destruct v; try discriminate. intros _.
  apply emit_if_in_dict_ok. reflexivity.
Qed.

Lemma emit_camera_filmfit_ok (d : dict) :
  opt_section d "camera_filmfit" (fun _ => true) = true ->
  exists a, emit_camera_filmfit (VDict d) [] = Ok a.
Proof.
  unfold opt_section, emit_camera_filmfit. simpl. unfold dict_has.
  destruct (dict_get "camera_filmfit" d) as [v|]; simpl; [|eauto].
  destruct v; try discriminate. intros _.
  apply emit_if_in_dict_ok. reflexivity.
Qed.

Lemma emit_gpu_cache_ok (d : dict) :
  opt_section d "plugin_display" (fun _ => true) = true ->
  exists a, emit_gpu_cache (VDict d) [] = Ok a.
Proof.
  unfold opt_section, emit_gpu_cache. simpl.
  destruct (dict_get "plugin_display" d) as [v|]; simpl; [|eauto].
  destruct v; try discriminate. intros _. simpl.
  destruct (dict_get "gpuCache" d0); simpl; eauto.
Qed.

Lemma emit_display_items_ok (items : list (string * value)) : forall acc,
  forallb display_item_ok items = true ->
  exists a, emit_display_items items acc = Ok a.
Proof.
  induction items as [|[attr v] rest IH]; intros acc H; simpl in *; [eauto|].
  apply andb_prop in H. destruct H as [H1 H2].
  assert (exists a1, emit_display_item attr v acc = Ok a1) as [a1 ->].
  { unfold emit_display_item. unfold display_item_ok in H1. simpl in H1.
    destruct (String.eqb attr "hwFog").
    - destruct (py_int v); [simpl; eauto|discriminate].
    - repeat case_if; eauto. }
  simpl. apply IH. exact H2.
Qed.

Lemma emit_display_ok (d display : dict) :
  dict_get "display" d = Some (VDict display) ->
  forallb display_item_ok display = true ->
  exists a, emit_display (VDict d) [] = Ok a.
Proof.
  intros Hd H. unfold emit_display. simpl. rewrite Hd. simpl.
  apply emit_display_items_ok. exact H.
Qed.

Lemma emit_background_ok (d : dict) :
  opt_section d "background" background_ok = true ->
  exists a, emit_background (VDict d) [] = Ok a.
Proof.
  unfold opt_section. intros H. unfold emit_background. simpl.
  unfold dict_has.
  destruct (dict_get "background" d) as [v|]; simpl; [|eauto].
  destruct v; try discriminate. unfold background_ok in H.
  apply andb_prop in H. destruct H as [H H3].
  apply andb_prop in H. destruct H as [H1 H2].
  match goal with
  | |- context [emit_if_in (VDict d0) "gradient" ?line ?acc] =>
      destruct (emit_if_in_dict_ok d0 "gradient" line acc) as [a1 ->];
        [reflexivity|]
  end. simpl.
  destruct (emit_if_in_dict_ok d0 "topColor" (rgb_line "backgroundTop") a1)
    as [a2 ->].
  { intros v Hv. apply rgb_line_ok. exact (opt_key_ok d0 _ triple_ok v H1 Hv). }
  simpl.
  destruct (emit_if_in_dict_ok d0 "color" (rgb_line "background") a2)
    as [a3 ->].
  { intros v Hv. apply rgb_line_ok. exact (opt_key_ok d0 _ triple_ok v H2 Hv). }
  simpl.
  destruct (dict_get "gradient" d0) as [g|]; simpl in H3 |- *.
  - destruct (py_bool g); [|eauto].
    apply emit_if_in_dict_ok.
    intros v Hv. apply rgb_line_ok. exact (opt_key_ok d0 _ triple_ok v H3 Hv).
  - eauto.
Qed.

Lemma emit_hardware_items_ok (items : list (string * value)) : forall acc,
  forallb hardware_item_ok items = true ->
  exists a, emit_hardware_items items acc = Ok a.
Proof.
  induction items as [|[attr v] rest IH]; intros acc H; simpl in *; [eauto|].
  apply andb_prop in H. destruct H as [H1 H2].
  assert (exists a1, emit_hardware_item attr v acc = Ok a1) as [a1 ->].
  { unfold emit_hardware_item. unfold hardware_item_ok in H1. simpl in H1.
    destruct v as [| | | | |l|l|]; simpl in *; eauto;
      unfold triple_ok in H1;
      destruct l as [|x0 [|x1 [|x2 l']]]; try discriminate H1;
      simpl; eauto. }
  simpl. apply IH. exact H2.
Qed.

Lemma emit_hardware_ok (d : dict) :
  opt_section d "hardware2" (forallb hardware_item_ok) = true ->
  exists a, emit_hardware (VDict d) [] = Ok a.
Proof.
  unfold opt_section. intros H. unfold emit_hardware. simpl.
  unfold dict_has.
  destruct (dict_get "hardware2" d) as [v|]; simpl; [|eauto].
  destruct v; try discriminate. simpl.
  apply emit_hardware_items_ok. exact H.
Qed.

(** Every renderable snapshot gets its script. *)
Lemma renderable_emits (self : ViewportCapture) (settings : value) :
  renderable settings = true ->
  exists l, mel_commands_of settings = Ok l
            /\ settings_to_mel self settings = Ok (str_join nl l).
Proof.
  destruct settings as [| | | | | | |d]; try discriminate.
  unfold renderable. intros H.
  repeat (apply andb_prop in H; let K := fresh "K" in destruct H as [H K]).
  destruct (dict_get "display" d) as [dv|] eqn:Hd; [|discriminate].
  destruct dv as [| | | | | | |display]; try discriminate.
  assert (exists l, mel_commands_of (VDict d) = Ok l) as [l Hl].
  { rewrite mel_commands_of_stages.
    destruct (emit_camera_gate_ok d) as [cg ->]; [assumption|].
    destruct (emit_camera_mask_ok d) as [cm ->]; [assumption|].
    destruct (emit_camera_filmfit_ok d) as [cf ->]; [assumption|].
    destruct (emit_gpu_cache_ok d) as [gp ->]; [assumption|].
    destruct (emit_display_ok d display Hd H) as [dp ->].
    destruct (emit_background_ok d) as [bg ->]; [assumption|].
    destruct (emit_hardware_ok d) as [hw ->]; [assumption|].
    simpl. eauto. }
  exists l. split; [exact Hl|].
  unfold settings_to_mel. rewrite (dict_get_nonempty _ _ _ Hd). simpl.
  rewrite Hl. reflexivity.
Qed.

End Renderable.

Lemma settings_to_mel_renders_values_witness :
  py_bool (PR := Sample.runtime) (VDict Sample.sections) = true
  /\ exists out l,
       settings_to_mel (PR := Sample.runtime) init_instance
         (VDict Sample.sections) = Ok out
       /\ out = str_join nl l
       /\ In (model_editor_line "wireframe" "true") l
       /\ In (camera_flag_line "displayFilmGate" "false") l
       /\ In (gpu_flag_line "false") l
       /\ In (gradient_line "true") l
       /\ In (hw_scalar_line "multiSampleEnable" "1") l
       /\ In (hw_triple_line "hwFogColor" "0.5" "0.5" "0.5") l
       /\ In (rgb_text "background" "0.5" "0.5" "0.5") l
       /\ In (rgb_text "backgroundBottom" "0.0" "0.5" "1.0") l.
Proof.
  split; [reflexivity|].
  eexists.
  destruct (settings_to_mel_renders_values (PR := Sample.runtime)
              init_instance Sample.sections _ eq_refl eq_refl)
    as (l & E & Dp & Cg & _ & Gp & Gr & Hb & Ht & Bg).
  exists l. split; [reflexivity|]. split; [exact E|].
  split; [apply (Dp _ "wireframe" true eq_refl); [left; reflexivity | discriminate | discriminate]|].
  split; [apply (Cg _ "displayFilmGate" false eq_refl); [left; reflexivity | reflexivity]|].
  split; [apply (Gp _ false eq_refl eq_refl)|].
  split; [apply (Gr _ true eq_refl eq_refl)|].
  split; [apply (Hb _ "multiSampleEnable" true eq_refl); left; reflexivity|].
  split; [apply (Ht _ "hwFogColor" _ _ _ _ eq_refl (or_intror (or_introl eq_refl)) eq_refl)|].
  split.
  - destruct (Bg Sample.background Sample.grey _ _ _ eq_refl eq_refl)
      as (_ & B & _).
    exact (B eq_refl).
  - destruct (Bg Sample.background Sample.bottom _ _ _ eq_refl eq_refl)
      as (_ & _ & B).
    exact (B eq_refl (VBool true) eq_refl eq_refl).
Defined.

(** C3, the claim as stated fails: the sample snapshot holds True under
    multiSampleEnable in its hardware2 section, and the script written for
    it sets that attribute to 1; the text true does not follow the
    attribute anywhere in the script. *)
Lemma hardware_boolean_counterexample :
  exists out,
    settings_to_mel (PR := Sample.runtime) init_instance Sample.snapshot = Ok out
    /\ dict_get "multiSampleEnable" Sample.hardware2 = Some (VBool true)
    /\ str_contains
         ("hardwareRenderingGlobals.multiSampleEnable" +:+ dq +:+ " 1;") out = true
    /\ str_contains
         ("hardwareRenderingGlobals.multiSampleEnable" +:+ dq +:+ " true") out = false.
Proof.
  eexists. split; [vm_compute; reflexivity|].
  split; [reflexivity|]. split; vm_compute; reflexivity.
Qed.

Lemma background_color_order_witness :
  dict_get "background" Sample.sections = Some (VDict Sample.background)
  /\ dict_get "background" Sample.flat_sections
     = Some (VDict Sample.flat_background)
  /\ (exists out l,
        settings_to_mel (PR := Sample.runtime) init_instance
          (VDict Sample.sections) = Ok out
        /\ mel_commands_of (PR := Sample.runtime) (VDict Sample.sections)
           = Ok l
        /\ out = str_join nl l
        /\ precedes_all is_base_color_stmt is_bottom_color_stmt l
        /\ In (rgb_text "backgroundBottom" "0.0" "0.5" "1.0") l)
  /\ (exists out l,
        settings_to_mel (PR := Sample.runtime) init_instance
          (VDict Sample.flat_sections) = Ok out
        /\ mel_commands_of (PR := Sample.runtime)
             (VDict Sample.flat_sections) = Ok l
        /\ out = str_join nl l
        /\ Forall (fun x => is_bottom_color_stmt x = false) l).
Proof.
  split; [reflexivity|]. split; [reflexivity|]. split.
  - eexists.
    destruct (background_color_order (PR := Sample.runtime) init_instance
                Sample.sections Sample.background _ eq_refl eq_refl)
      as (l & L & E & A & _).
    exists l. split; [reflexivity|]. split; [exact L|]. split; [exact E|].
    destruct (A eq_refl _ eq_refl) as ((y & Hy & Ry & _) & P & _).
    split; [exact P|].
    inversion Ry; subst y. exact Hy.
  - eexists.
    destruct (background_color_order (PR := Sample.runtime) init_instance
                Sample.flat_sections Sample.flat_background _ eq_refl eq_refl)
      as (l & L & E & _ & B).
    exists l. split; [reflexivity|]. split; [exact L|]. split; [exact E|].
    exact (B eq_refl).
Defined.

(** ** Text: suffixes *)

Lemma str_length_append (a b : string) :
  String.length (a +:+ b) = (String.length a + String.length b)%nat.
Proof. induction a as [|c a IH]; simpl; [reflexivity | rewrite IH; reflexivity]. Qed.

Lemma substring_all (s : string) : String.substring 0 (String.length s) s = s.
Proof. induction s as [|c s IH]; simpl; [reflexivity | rewrite IH; reflexivity]. Qed.

Lemma substring_skip (a b : string) (m : nat) :
  String.substring (String.length a) m (a +:+ b) = String.substring 0 m b.
Proof.
  induction a as [|c a IH]; simpl; [reflexivity|]. exact IH.
Qed.

Lemma substring_take (a b : string) :
  String.substring 0 (String.length a) (a +:+ b) = a.
Proof.
  induction a as [|c a IH]; simpl.
  - destruct b; reflexivity.
  - rewrite IH. reflexivity.
Qed.

Lemma substring_split (s : string) : forall k,
  (k <= String.length s)%nat ->
  s = String.substring 0 k s +:+ String.substring k (String.length s - k) s.
Proof.
  induction s as [|c s IH]; intros k Hk; simpl in *.
  - assert (k = 0%nat) as -> by lia. reflexivity.
  - destruct k as [|k]; simpl.
    + rewrite substring_all. reflexivity.
    + change (String c s
              = String c (String.substring 0 k s
                          +:+ String.substring k (String.length s - k) s)).
      f_equal. apply IH. lia.
Qed.

Lemma str_endswith_append (n suffix : string) :
  str_endswith (n +:+ suffix) suffix = true.
Proof.
  unfold str_endswith. rewrite str_length_append.
  apply andb_true_intro. split.
  - apply Nat.leb_le. lia.
  - replace (String.length n + String.length suffix - String.length suffix)%nat
      with (String.length n) by lia.
    rewrite substring_skip, substring_all. apply String.eqb_refl.
Qed.

Lemma str_drop_last_append (n suffix : string) :
  str_drop_last (String.length suffix) (n +:+ suffix) = n.
Proof.
  unfold str_drop_last. rewrite str_length_append.
  replace (String.length n + String.length suffix - String.length suffix)%nat
    with (String.length n) by lia.
  apply substring_take.
Qed.

Lemma str_endswith_inv (s suffix : string) :
  str_endswith s suffix = true ->
  s = str_drop_last (String.length suffix) s +:+ suffix.
Proof.
  unfold str_endswith, str_drop_last. intros H.
  apply andb_prop in H. destruct H as [Hlen Heq].
  apply Nat.leb_le in Hlen. apply String.eqb_eq in Heq.
  rewrite (substring_split s (String.length s - String.length suffix)) at 1 by lia.
  replace (String.length s - (String.length s - String.length suffix))%nat
    with (String.length suffix) by lia.
  rewrite Heq. reflexivity.
Qed.

(** The names the listing keeps: n is listed exactly when n.json is an
    entry. *)
Lemma preset_names_spec (entries : list string) (n : string) :
  In n (preset_names entries) <-> exists f, In f entries /\ f = n +:+ ".json".
Proof.
  unfold preset_names. rewrite in_map_iff. split.
  - intros (f & Hn & Hf). apply filter_In in Hf. destruct Hf as [Hf He].
    exists f. split; [exact Hf|].
    apply str_endswith_inv in He. simpl in He. rewrite Hn in He. exact He.
  - intros (f & Hf & ->). exists (n +:+ ".json"). split.
    + exact (str_drop_last_append n ".json").
    + apply filter_In. split; [exact Hf|]. apply str_endswith_append.
Qed.

(** ** Sorting *)

Lemma string_le_total : Total string_le.
Proof.
  intros a b. unfold string_le, String.leb.
  rewrite (String.compare_antisym a b).
  destruct (String.compare b a); simpl; auto.
Qed.

Lemma sorted_spec (l : list string) :
  Sorted string_le (sorted l) /\ Permutation (sorted l) l.
Proof.
  unfold sorted. split.
  - apply Sorted_merge_sort. exact string_le_total.
  - apply merge_sort_Permutation.
Qed.

(** ** The preset directory *)

Section PresetDirectory.

Context {PR : PyRuntime} {OS : OSLayer} {MH : MayaHost}.

Lemma isdir_exists (fs : gmap string node) (p : string) :
  os_path_isdir fs p = true -> os_path_exists fs p = true.
Proof.
  unfold os_path_isdir, os_path_exists. destruct (fs !! p); [reflexivity|discriminate].
Qed.

Lemma exists_insert (fs : gmap string node) (p r : string) (n : node) :
  os_path_exists fs p = true -> os_path_exists (<[r := n]> fs) p = true.
Proof.
  unfold os_path_exists. destruct (decide (r = p)) as [->|N].
  - rewrite lookup_insert_eq. reflexivity.
  - rewrite lookup_insert_ne by exact N. auto.
Qed.

Lemma exists_insert_same (fs : gmap string node) (p : string) (n : node) :
  os_path_exists (<[p := n]> fs) p = true.
Proof. unfold os_path_exists. rewrite lookup_insert_eq. reflexivity. Qed.

(** Writing a file where no directory stands changes no answer of isdir. *)
Lemma isdir_insert_file (fs : gmap string node) (p c : string) (data : option json) :
  fs !! p <> Some Dir ->
  os_path_isdir (<[p := File data]> fs) c = os_path_isdir fs c.
Proof.
  intros Hp. unfold os_path_isdir. destruct (decide (p = c)) as [->|N].
  - rewrite lookup_insert_eq. destruct (fs !! c) as [[|]|]; try reflexivity.
    contradiction.
  - rewrite lookup_insert_ne by exact N. reflexivity.
Qed.

Lemma resolve_dir_insert_file custom app (fs : gmap string node) p data :
  fs !! p <> Some Dir ->
  resolve_dir custom app (<[p := File data]> fs) = resolve_dir custom app fs.
Proof.
  intros Hp. unfold resolve_dir. rewrite isdir_insert_file by exact Hp.
  reflexivity.
Qed.

(** Creating the directory get_preset_dir resolved to does not change what
    it resolves to. *)
Lemma resolve_dir_insert_dir custom app (fs : gmap string node) :
  resolve_dir custom app (<[resolve_dir custom app fs := Dir]> fs)
  = resolve_dir custom app fs.
Proof.
  unfold resolve_dir.
  destruct (negb (String.eqb custom EmptyString)) eqn:Hc; simpl; [|reflexivity].
  destruct (os_path_isdir fs custom) eqn:Hd.
  - unfold os_path_isdir. rewrite lookup_insert_eq. reflexivity.
  - unfold os_path_isdir.
    destruct (decide (path_join (path_join app "viewportCapture") "presets" = custom))
      as [E|N].
    + rewrite E, lookup_insert_eq. reflexivity.
    + rewrite lookup_insert_ne by exact N.
      unfold os_path_isdir in Hd. rewrite Hd. reflexivity.
Qed.

Lemma get_preset_dir_spec (w : world) :
  exists w',
    get_preset_dir w = (Ok (preset_dir_of w), w')
    /\ tool w' = tool w /\ maya w' = maya w
    /\ disk w' = disk_with_preset_dir w.
Proof.
  unfold get_preset_dir, disk_with_preset_dir, preset_dir_of, resolve_dir.
  destruct (negb (String.eqb (custom_preset_path (tool w)) EmptyString)
            && os_path_isdir (disk w) (custom_preset_path (tool w)))%bool eqn:C.
  - exists w. apply andb_prop in C. destruct C as [_ C].
    rewrite (isdir_exists _ _ C). auto.
  - destruct (os_path_exists (disk w) _) eqn:E; simpl.
    + exists w. auto.
    + unfold bindM, edit_disk, os_makedirs, ret. rewrite E.
      eexists. split; [reflexivity|]. auto.
Qed.

Lemma preset_dir_exists (w : world) :
  os_path_exists (disk_with_preset_dir w) (preset_dir_of w) = true.
Proof.
  unfold disk_with_preset_dir.
  destruct (os_path_exists (disk w) (preset_dir_of w)) eqn:E; [exact E|].
  apply exists_insert_same.
Qed.

Lemma disk_with_preset_dir_id (w : world) :
  os_path_exists (disk w) (preset_dir_of w) = true ->
  disk_with_preset_dir w = disk w.
Proof. unfold disk_with_preset_dir. intros ->. reflexivity. Qed.

(** The directory resolved after the directory was made is the same. *)
Lemma preset_dir_of_made (w w' : world) :
  custom_preset_path (tool w') = custom_preset_path (tool w) ->
  maya w' = maya w ->
  disk w' = disk_with_preset_dir w ->
  preset_dir_of w' = preset_dir_of w.
Proof.
  unfold preset_dir_of, disk_with_preset_dir. intros -> -> ->.
  destruct (os_path_exists (disk w) _); [reflexivity|].
  apply resolve_dir_insert_dir.
Qed.

Lemma resolve_dir_made (w : world) :
  resolve_dir (custom_preset_path (tool w))
    (cmds_internalVar_userAppDir (maya w)) (disk_with_preset_dir w)
  = preset_dir_of w.
Proof.
  apply (preset_dir_of_made w (with_disk w (disk_with_preset_dir w)));
    reflexivity.
Qed.

(** refresh_preset_list, whatever os.listdir answers, leaves the disk as
    get_preset_dir left it and touches only the list of the instance. *)
Lemma refresh_preset_list_frame (w : world) :
  exists r w',
    refresh_preset_list w = (r, w')
    /\ disk w' = disk_with_preset_dir w
    /\ maya w' = maya w
    /\ last_captured_settings (tool w') = last_captured_settings (tool w)
    /\ custom_preset_path (tool w') = custom_preset_path (tool w).
Proof.
  unfold refresh_preset_list, bindM, modify, read, ret.
  set (w1 := with_tool w (set_preset_list (tool w) [])).
  destruct (get_preset_dir_spec w1) as (w2 & E & Ht & Hm & Hd).
  rewrite E.
  assert (preset_dir_of w1 = preset_dir_of w) as Hp by reflexivity.
  assert (disk_with_preset_dir w1 = disk_with_preset_dir w) as Hq by reflexivity.
  cbv beta iota. rewrite Hd, Hq, Hp, preset_dir_exists.
  cbv beta iota. rewrite Hd, Hq.
  destruct (os_listdir (disk_with_preset_dir w) (preset_dir_of w)) as [entries|e].
  - destruct (preset_names entries); eexists _, _; (split; [reflexivity|]);
      simpl; rewrite ?Ht, ?Hm, ?Hd, ?Hq; auto.
  - eexists _, _. split; [reflexivity|]. rewrite Ht, Hm, Hd, Hq. auto.
Qed.

(** C9.  Whatever the preset directory holds, refresh_preset_list returns,
    and the list it leaves in the window is computed from what os.listdir
    answers for the directory of this call, not from the list of before:
    it is in ascending order, it is a rearrangement of the entries ending
    in .json with that suffix removed, and so a name n is listed exactly
    when n.json is an entry. *)
Theorem refresh_preset_list_lists (w : world) (entries : list string) :
  os_listdir (disk_with_preset_dir w) (preset_dir_of w) = Ok entries ->
  exists w',
    refresh_preset_list w = (Ok tt, w')
    /\ disk w' = disk_with_preset_dir w
    /\ Sorted string_le (preset_list (tool w'))
    /\ Permutation (preset_list (tool w')) (preset_names entries)
    /\ (forall n, In n (preset_list (tool w'))
                  <-> exists f, In f entries /\ f = n +:+ ".json").
Proof.
  intros Hl.
  unfold refresh_preset_list, bindM, modify, read, ret.
  set (w1 := with_tool w (set_preset_list (tool w) [])).
  destruct (get_preset_dir_spec w1) as (w2 & E & Ht & Hm & Hd).
  rewrite E.
  assert (preset_dir_of w1 = preset_dir_of w) as Hp by reflexivity.
  assert (disk_with_preset_dir w1 = disk_with_preset_dir w) as Hq by reflexivity.
  cbv beta iota. rewrite Hd, Hq, Hp, preset_dir_exists.
  cbv beta iota. rewrite Hd, Hq, Hl.
  assert (preset_list (tool w2) = []) as Hnil by (rewrite Ht; reflexivity).
  destruct (preset_names entries) as [|n0 rest] eqn:En.
  - exists w2. split; [reflexivity|]. rewrite Hd, Hq, Hnil.
    split; [reflexivity|]. split; [constructor|]. split; [constructor|].
    intros n. rewrite <- preset_names_spec, En. reflexivity.
  - eexists. split; [reflexivity|]. simpl. rewrite Hd, Hq, Hnil. simpl.
    rewrite <- En. destruct (sorted_spec (preset_names entries)) as [S P].
    split; [reflexivity|]. split; [exact S|]. split; [exact P|].
    intros n. rewrite <- preset_names_spec. split; intros H.
    + eapply Permutation_in; [exact P | exact H].
    + eapply Permutation_in; [symmetry; exact P | exact H].
Qed.

End PresetDirectory.

Lemma refresh_preset_list_lists_witness :
  exists entries,
    @os_listdir Sample.runtime Sample.os
      (disk_with_preset_dir (OS := Sample.os) Sample.world0)
      (preset_dir_of (OS := Sample.os) Sample.world0) = Ok entries
    /\ exists w',
         refresh_preset_list (OS := Sample.os) Sample.world0 = (Ok tt, w')
         /\ Sorted string_le (preset_list (tool w'))
         /\ In "anim" (preset_list (tool w'))
         /\ In "studio" (preset_list (tool w')).
Proof.
  assert (@os_listdir Sample.runtime Sample.os
            (disk_with_preset_dir (OS := Sample.os) Sample.world0)
            (preset_dir_of (OS := Sample.os) Sample.world0)
          = Ok ["studio.json"; "anim.json"; "notes.txt"]) as L
    by (vm_compute; reflexivity).
  exists ["studio.json"; "anim.json"; "notes.txt"]. split; [exact L|].
  destruct (refresh_preset_list_lists (OS := Sample.os) Sample.world0 _ L)
    as (w' & E & _ & S & _ & M).
  exists w'. split; [exact E|]. split; [exact S|]. split.
  - apply M. exists "anim.json". split; [simpl; tauto | reflexivity].
  - apply M. exists "studio.json". split; [simpl; tauto | reflexivity].
Defined.

(** ** JSON round trip *)

Section JsonRoundTrip.

Context {PR : PyRuntime}.

(** Induction on a value, with the property known of the components of a
    list, tuple or dict. *)
Lemma value_nested_ind (P : value -> Prop)
    (HNone : P VNone)
    (HBool : forall b, P (VBool b))
    (HInt : forall z, P (VInt z))
    (HFloat : forall f, P (VFloat f))
    (HStr : forall s, P (VStr s))
    (HList : forall l, Forall P l -> P (VList l))
    (HTuple : forall l, Forall P l -> P (VTuple l))
    (HDict : forall d, Forall (fun kv => P (snd kv)) d -> P (VDict d)) :
  forall v, P v.
Proof.
  fix IH 1. intros [| b | z | f | s | l | l | d].
  - exact HNone.
  - apply HBool.
  - apply HInt.
  - apply HFloat.
  - apply HStr.
  - apply HList. induction l as [|x l IHl]; constructor; [apply IH | exact IHl].
  - apply HTuple. induction l as [|x l IHl]; constructor; [apply IH | exact IHl].
  - apply HDict. induction d as [|[k x] d IHd]; constructor; [apply IH | exact IHd].
Qed.

Lemma dict_set_fresh (k : string) (v : value) (d : dict) :
  ~ In k (map fst d) -> dict_set k v d = d ++ [(k, v)].
Proof.
  induction d as [|[k' v'] d IH]; simpl; intros H; [reflexivity|].
  destruct (String.eqb k k') eqn:E.
  - apply String.eqb_eq in E. subst. exfalso. apply H. left. reflexivity.
  - rewrite IH; [reflexivity|]. intros Hin. apply H. right. exact Hin.
Qed.

(** Filling a dict member by member, with names that are all different and
    new, appends the members in order. *)
Lemma fold_dict_set (f : json -> value) (members : list (string * json)) :
  forall acc : dict,
    NoDup (map fst acc ++ map fst members) ->
    fold_left (fun d kv => match kv with (k, x) => dict_set k (f x) d end)
      members acc
    = acc ++ map (fun kv => match kv with (k, x) => (k, f x) end) members.
Proof.
  induction members as [|[k x] rest IH]; intros acc H; simpl.
  - rewrite app_nil_r. reflexivity.
  - simpl in H. rewrite dict_set_fresh.
    + rewrite IH.
      * rewrite <- app_assoc. reflexivity.
      * rewrite map_app, <- app_assoc. simpl. exact H.
    + apply NoDup_ListNoDup in H. apply NoDup_remove_2 in H.
      intros Hin. apply H. apply in_or_app. left. exact Hin.
Qed.

Lemma wf_value_list (l : list value) :
  fold_right (fun x acc => wf_value x /\ acc) True l -> Forall wf_value l.
Proof.
  induction l as [|x l IH]; simpl; intros H; constructor; tauto.
Qed.

Lemma wf_value_dict (d : dict) :
  fold_right (fun kv acc => match kv with (_, x) => wf_value x /\ acc end) True d ->
  Forall (fun kv => wf_value (snd kv)) d.
Proof.
  induction d as [|[k x] d IH]; simpl; intros H; constructor; simpl; tauto.
Qed.

(** What json.load reads back from what json.dump wrote: the value, with
    its tuples as lists. *)
Lemma json_load_dump (v : value) :
  wf_value v -> json_load (json_dump v) = listify v.
Proof.
  induction v as [| | | | | l IH | l IH | d IH] using value_nested_ind;
    intros W; try reflexivity.
  - simpl. f_equal. rewrite map_map. apply map_ext_in.
    intros x Hx. simpl in W. apply wf_value_list in W.
    rewrite List.Forall_forall in IH, W. auto.
  - simpl. f_equal. rewrite map_map. apply map_ext_in.
    intros x Hx. simpl in W. apply wf_value_list in W.
    rewrite List.Forall_forall in IH, W. auto.
  - simpl. f_equal. simpl in W. destruct W as [N W].
    apply wf_value_dict in W.
    rewrite fold_dict_set.
    + simpl. rewrite map_map. apply map_ext_in.
      intros [k x] Hx. f_equal.
      rewrite List.Forall_forall in IH, W.
      apply (IH (k, x) Hx). apply (W (k, x) Hx).
    + simpl. rewrite map_map.
      erewrite map_ext; [exact N|]. intros [k x]. reflexivity.
Qed.

Lemma listify_tuple_free (v : value) : tuple_free v = true -> listify v = v.
Proof.
  induction v as [| | | | | l IH | l IH | d IH] using value_nested_ind;
    intros T; try reflexivity; simpl in *.
  - f_equal. rewrite <- (map_id l) at 2. apply map_ext_in.
    intros x Hx. rewrite List.Forall_forall in IH.
    apply IH; [exact Hx|]. rewrite forallb_forall in T. auto.
  - discriminate.
  - f_equal. rewrite <- (map_id d) at 2. apply map_ext_in.
    intros [k x] Hx. f_equal. rewrite List.Forall_forall in IH.
    apply (IH (k, x) Hx). rewrite forallb_forall in T. apply (T (k, x) Hx).
Qed.

End JsonRoundTrip.

(** ** Saving and loading presets *)

Section PresetStore.

Context {PR : PyRuntime} {OS : OSLayer} {MH : MayaHost}.

(** The check box edit is not refused for a bool. *)
Lemma checkbox_edit_bool (b : bool) (w : world) :
  checkbox_edit (VBool b) w
  = (Ok tt, with_tool w (set_gpu_checkbox (tool w) (VBool b))).
Proof. reflexivity. Qed.

(** A save that reaches the write: the file holds the dumped snapshot. *)
Lemma save_preset_writes (w : world) (name confirm : string) :
  py_bool (last_captured_settings (tool w)) = true ->
  name <> EmptyString ->
  (os_path_exists (disk_with_preset_dir w) (preset_path_of w name)
   && String.eqb confirm "No")%bool = false ->
  disk_with_preset_dir w !! preset_path_of w name <> Some Dir ->
  exists w',
    save_preset "Save" name confirm w = (Ok tt, w')
    /\ disk w' = <[preset_path_of w name :=
                    File (Some (json_dump (last_captured_settings (tool w))))]>
                   (disk_with_preset_dir w)
    /\ maya w' = maya w
    /\ custom_preset_path (tool w') = custom_preset_path (tool w)
    /\ last_captured_settings (tool w') = last_captured_settings (tool w).
Proof.
  intros Hs Hn Hc Hd.
  unfold save_preset, bindM, read. cbv beta iota. rewrite Hs. cbv beta iota delta [negb]. rewrite String.eqb_refl. cbv beta iota.
  apply String.eqb_neq in Hn. rewrite Hn. cbv beta iota delta [negb].
  destruct (get_preset_dir_spec w) as (w1 & E & Ht & Hm & Hk).
  rewrite E. cbv beta iota. fold (preset_path_of w name).
  rewrite Hk, Hc.
  unfold try_except, bindM, read, edit_disk, write_json, set_status, modify.
  cbv beta iota. rewrite Hk, Ht.
  destruct (disk_with_preset_dir w !! preset_path_of w name) as [[|data]|] eqn:L;
    try contradiction.
  - set (w3 := with_tool _ _).
    destruct (refresh_preset_list_frame w3) as (r & w4 & R & Rd & Rm & Rs & Rc).
    rewrite R.
    assert (disk_with_preset_dir w3 = disk w3) as Hid.
    { apply disk_with_preset_dir_id. unfold preset_dir_of. simpl.
      rewrite Ht, Hm. rewrite resolve_dir_insert_file by (rewrite L; discriminate).
      rewrite resolve_dir_made.
      apply exists_insert. apply preset_dir_exists. }
    destruct r as [[]|e].
    + exists w4. split; [reflexivity|]. rewrite Rd, Hid, Rm, Rs, Rc. simpl.
      rewrite Ht, Hm. auto.
    + eexists. split; [reflexivity|]. simpl. rewrite Rd, Hid, Rm, Rs, Rc. simpl.
      rewrite Ht, Hm. auto.
  - set (w3 := with_tool _ _).
    destruct (refresh_preset_list_frame w3) as (r & w4 & R & Rd & Rm & Rs & Rc).
    rewrite R.
    assert (disk_with_preset_dir w3 = disk w3) as Hid.
    { apply disk_with_preset_dir_id. unfold preset_dir_of. simpl.
      rewrite Ht, Hm. rewrite resolve_dir_insert_file by (rewrite L; discriminate).
      rewrite resolve_dir_made.
      apply exists_insert. apply preset_dir_exists. }
    destruct r as [[]|e].
    + exists w4. split; [reflexivity|]. rewrite Rd, Hid, Rm, Rs, Rc. simpl.
      rewrite Ht, Hm. auto.
    + eexists. split; [reflexivity|]. simpl. rewrite Rd, Hid, Rm, Rs, Rc. simpl.
      rewrite Ht, Hm. auto.
Qed.

(** A save the user does not confirm, over a path that exists. *)
Lemma save_preset_declined (w : world) (button name : string) :
  os_path_exists (disk_with_preset_dir w) (preset_path_of w name) = true ->
  exists w',
    save_preset button name "No" w = (Ok tt, w')
    /\ (disk w' = disk w \/ disk w' = disk_with_preset_dir w).
Proof.
  intros He. unfold save_preset, bindM, read, set_status, modify, ret.
  cbv beta iota.
  destruct (py_bool (last_captured_settings (tool w))); cbv beta iota delta [negb];
    [|eexists; split; [reflexivity|left; reflexivity]].
  destruct (String.eqb button "Save");
    [|eexists; split; [reflexivity|left; reflexivity]].
  destruct (String.eqb name EmptyString); cbv beta iota delta [negb];
    [eexists; split; [reflexivity|left; reflexivity]|].
  destruct (get_preset_dir_spec w) as (w1 & E & Ht & Hm & Hk).
  rewrite E. cbv beta iota. fold (preset_path_of w name).
  rewrite Hk, He. simpl.
  eexists. split; [reflexivity|]. right. simpl. exact Hk.
Qed.

(** C6.  When the preset directory is there and the file of the name
    exists in it: a save answered No at the overwrite dialog returns and
    leaves the disk as it was, whatever else was answered; a save of a
    captured snapshot answered Yes returns and leaves the disk changed at
    that path alone, where the file now holds the dump of the current
    snapshot. *)
Theorem save_preset_existing
    (w : world) (button name : string) (old : option json) :
  os_path_exists (disk w) (preset_dir_of w) = true ->
  disk w !! preset_path_of w name = Some (File old) ->
  (exists w', save_preset button name "No" w = (Ok tt, w') /\ disk w' = disk w)
  /\ (py_bool (last_captured_settings (tool w)) = true ->
      name <> EmptyString ->
      exists w',
        save_preset "Save" name "Yes" w = (Ok tt, w')
        /\ disk w' = <[preset_path_of w name :=
                        File (Some (json_dump (last_captured_settings (tool w))))]>
                       (disk w)).
Proof.
  intros Hdir Hfile. pose proof (disk_with_preset_dir_id w Hdir) as Hid. split.
  - destruct (save_preset_declined w button name) as (w' & E & D).
    { rewrite Hid. unfold os_path_exists. rewrite Hfile. reflexivity. }
    exists w'. split; [exact E|]. destruct D as [D|D]; [exact D|].
    rewrite D. exact Hid.
  - intros Hs Hn.
    destruct (save_preset_writes w name "Yes" Hs Hn) as (w' & E & D & _).
    { apply andb_false_r. }
    { rewrite Hid, Hfile. discriminate. }
    exists w'. split; [exact E|]. rewrite D, Hid. reflexivity.
Qed.

(** A load of a file that holds a document leaves what json.load reads
    as the current snapshot, whatever happens after the assignment; it
    leaves the disk as get_preset_dir left it. *)
Lemma load_preset_reads (w : world) (name : string) (rest : list string) (j : json) :
  disk_with_preset_dir w !! preset_path_of w name = Some (File (Some j)) ->
  exists w',
    load_preset (Some (name :: rest)) w = (Ok tt, w')
    /\ last_captured_settings (tool w') = json_load j
    /\ disk w' = disk_with_preset_dir w
    /\ custom_preset_path (tool w') = custom_preset_path (tool w).
Proof.
  intros Hf. unfold load_preset, bindM.
  destruct (get_preset_dir_spec w) as (w1 & E & Ht & Hm & Hk).
  rewrite E. cbv beta iota. fold (preset_path_of w name).
  unfold try_except, bindM, read_json, modify, lift, set_status, edit_scene, read.
  cbv beta iota. rewrite Hk, Hf.
  destruct (let* pd := py_get (json_load j) "plugin_display" (VDict []) in
            py_get pd "gpuCache" (VBool false)) as [gpu|e];
    [|eexists; split; [reflexivity|]; simpl; rewrite Ht, Hk; auto].
  cbv beta iota.
  unfold checkbox_edit.
  match goal with |- context [checkbox_shows ?x] => change x with gpu end.
  destruct (checkbox_shows gpu) as [b|e];
    [|eexists; split; [reflexivity|]; simpl; rewrite Ht, Hk; auto].
  cbv beta iota.
  destruct (settings_to_mel _ (json_load j)) as [mel_code|e];
    [|eexists; split; [reflexivity|]; simpl; rewrite Ht, Hk; auto].
  cbv beta iota.
  destruct (mel_eval _ mel_code) as [sc|e];
    (eexists; split; [reflexivity|]; simpl; rewrite Ht, Hk; auto).
Qed.

End PresetStore.

Section RoundTrip.

Context {PR : PyRuntime} {OS : OSLayer} {MH : MayaHost}.

(** A snapshot saved under a name and loaded back under it: the load
    reads the file the save wrote and leaves what json.load makes of the
    dump. *)
Lemma saved_preset_loads (w : world) (name confirm : string) :
  py_bool (last_captured_settings (tool w)) = true ->
  name <> EmptyString ->
  (os_path_exists (disk_with_preset_dir w) (preset_path_of w name)
   && String.eqb confirm "No")%bool = false ->
  disk_with_preset_dir w !! preset_path_of w name <> Some Dir ->
  exists w1 w2,
    save_preset "Save" name confirm w = (Ok tt, w1)
    /\ disk w1 !! preset_path_of w name
       = Some (File (Some (json_dump (last_captured_settings (tool w)))))
    /\ preset_path_of w1 name = preset_path_of w name
    /\ load_preset (Some [name]) w1 = (Ok tt, w2)
    /\ last_captured_settings (tool w2)
       = json_load (json_dump (last_captured_settings (tool w))).
Proof.
  intros Hs Hn Hc Hd.
  destruct (save_preset_writes w name confirm Hs Hn Hc Hd)
    as (w1 & E1 & D1 & M1 & C1 & L1).
  assert (preset_dir_of w1 = preset_dir_of w) as Hp.
  { unfold preset_dir_of. rewrite C1, M1, D1.
    rewrite resolve_dir_insert_file by exact Hd. apply resolve_dir_made. }
  assert (preset_path_of w1 name = preset_path_of w name) as Hq.
  { unfold preset_path_of. rewrite Hp. reflexivity. }
  assert (disk_with_preset_dir w1 = disk w1) as Hid.
  { apply disk_with_preset_dir_id. rewrite Hp, D1.
    apply exists_insert. apply preset_dir_exists. }
  assert (disk w1 !! preset_path_of w name
          = Some (File (Some (json_dump (last_captured_settings (tool w))))))
    as Hf.
  { rewrite D1. apply lookup_insert_eq. }
  destruct (load_preset_reads w1 name [] (json_dump (last_captured_settings (tool w))))
    as (w2 & E2 & L2 & _).
  { rewrite Hid, Hq. exact Hf. }
  exists w1, w2. auto.
Qed.

(** C1, as amended.  A snapshot x saved under a name (the save reaching
    the write: the name is not empty, the file is new or the overwrite is
    confirmed, the path is no directory) and then loaded back under that
    name is read from the file it was written to, and the snapshot the load
    leaves has the sections, keys and values of x in the same order, each
    tuple of x read back as a list of the same components; it is x itself
    when x holds no tuple. *)
Theorem save_then_load (w : world) (name confirm : string) :
  py_bool (last_captured_settings (tool w)) = true ->
  wf_value (last_captured_settings (tool w)) ->
  name <> EmptyString ->
  (os_path_exists (disk_with_preset_dir w) (preset_path_of w name)
   && String.eqb confirm "No")%bool = false ->
  disk_with_preset_dir w !! preset_path_of w name <> Some Dir ->
  exists w1 w2,
    save_preset "Save" name confirm w = (Ok tt, w1)
    /\ disk w1 !! preset_path_of w name
       = Some (File (Some (json_dump (last_captured_settings (tool w)))))
    /\ preset_path_of w1 name = preset_path_of w name
    /\ load_preset (Some [name]) w1 = (Ok tt, w2)
    /\ last_captured_settings (tool w2)
       = listify (last_captured_settings (tool w))
    /\ (tuple_free (last_captured_settings (tool w)) = true ->
        last_captured_settings (tool w2) = last_captured_settings (tool w)).
Proof.
  intros Hs Hw Hn Hc Hd.
  destruct (saved_preset_loads w name confirm Hs Hn Hc Hd)
    as (w1 & w2 & E1 & Hf & Hq & E2 & L2).
  exists w1, w2. split; [exact E1|]. split; [exact Hf|]. split; [exact Hq|].
  split; [exact E2|]. rewrite L2, (json_load_dump _ Hw).
  split; [reflexivity|]. intros T. apply listify_tuple_free. exact T.
Qed.

End RoundTrip.

Lemma save_then_load_witness :
  py_bool (last_captured_settings (tool Sample.world0)) = true
  /\ wf_value (last_captured_settings (tool Sample.world0))
  /\ exists w1 w2,
       save_preset (OS := Sample.os) "Save" "look" "No" Sample.world0 = (Ok tt, w1)
       /\ load_preset (OS := Sample.os) (Some ["look"]) w1 = (Ok tt, w2)
       /\ last_captured_settings (tool w2) = listify Sample.snapshot.
Proof.
  assert (wf_value (last_captured_settings (tool Sample.world0))) as W.
  { simpl. repeat split; repeat constructor; simpl;
      rewrite ?list_elem_of_In; simpl; intuition discriminate. }
  split; [reflexivity|]. split; [exact W|].
  destruct (save_then_load (OS := Sample.os) Sample.world0 "look" "No"
              eq_refl W)
    as (w1 & w2 & E1 & _ & _ & E2 & L & _).
  - discriminate.
  - vm_compute. reflexivity.
  - vm_compute. discriminate.
  - exists w1, w2. split; [exact E1|]. split; [exact E2|]. exact L.
Defined.

(** C1, the claim as stated fails: the sample snapshot holds a tuple
    under hwFogColor, as capture stores it; saved and loaded back, the
    value under hwFogColor is a list, so the loaded snapshot is not the
    saved one. *)
Lemma save_then_load_counterexample :
  exists w1 w2,
    save_preset (OS := Sample.os) "Save" "look" "No" Sample.world0 = (Ok tt, w1)
    /\ load_preset (OS := Sample.os) (Some ["look"]) w1 = (Ok tt, w2)
    /\ (let* h := py_getitem (last_captured_settings (tool Sample.world0)) "hardware2" in
        py_getitem h "hwFogColor")
       = Ok Sample.grey_tuple
    /\ (let* h := py_getitem (last_captured_settings (tool w2)) "hardware2" in
        py_getitem h "hwFogColor")
       = Ok Sample.grey
    /\ last_captured_settings (tool w2)
       <> last_captured_settings (tool Sample.world0).
Proof.
  destruct (saved_preset_loads (OS := Sample.os) Sample.world0 "look" "No" eq_refl)
    as (w1 & w2 & E1 & _ & _ & E2 & L).
  - discriminate.
  - vm_compute. reflexivity.
  - vm_compute. discriminate.
  - exists w1, w2. split; [exact E1|]. split; [exact E2|].
    split; [reflexivity|]. rewrite L.
    split; [reflexivity|].
    intros H.
    pose proof (f_equal (fun s => let* h := py_getitem s "hardware2" in
                                  py_getitem h "hwFogColor") H) as K.
    vm_compute in K. discriminate K.
Qed.

Lemma save_preset_existing_witness :
  os_path_exists (disk Sample.world0)
    (preset_dir_of (OS := Sample.os) Sample.world0) = true
  /\ (exists old,
        disk Sample.world0 !! preset_path_of (OS := Sample.os) Sample.world0 "anim"
        = Some (File old))
  /\ (exists w',
        save_preset (OS := Sample.os) "Save" "anim" "No" Sample.world0 = (Ok tt, w')
        /\ disk w' = disk Sample.world0)
  /\ (exists w',
        save_preset (OS := Sample.os) "Save" "anim" "Yes" Sample.world0 = (Ok tt, w')
        /\ disk w' !! preset_path_of (OS := Sample.os) Sample.world0 "anim"
           = Some (File (Some (json_dump Sample.snapshot)))).
Proof.
  split; [vm_compute; reflexivity|].
  split; [exists (Some (json_dump Sample.snapshot)); vm_compute; reflexivity|].
  destruct (save_preset_existing (OS := Sample.os) Sample.world0 "Save" "anim"
              (Some (json_dump Sample.snapshot)))
    as [A B].
  - vm_compute. reflexivity.
  - vm_compute. reflexivity.
  - split; [exact A|].
    destruct (B eq_refl) as (w' & E & D); [discriminate|].
    exists w'. split; [exact E|]. rewrite D. apply lookup_insert_eq.
Defined.

(** ** Capture *)

Section Capture.

Context {PR : PyRuntime} {OS : OSLayer} {MH : MayaHost}.

Lemma dict_set_keys (k : string) (v : value) (d : dict) :
  dict_get k d <> None -> map fst (dict_set k v d) = map fst d.
Proof.
  induction d as [|[k' v'] d IH]; simpl; intros H; [contradiction|].
  destruct (String.eqb k k'); simpl; [reflexivity|].
  rewrite IH by exact H. reflexivity.
Qed.

Lemma dict_get_set_eq (k : string) (v : value) (d : dict) :
  dict_get k (dict_set k v d) = Some v.
Proof.
  induction d as [|[k' v'] d IH]; simpl.
  - rewrite String.eqb_refl. reflexivity.
  - destruct (String.eqb k k') eqn:E; simpl; rewrite E; [reflexivity | exact IH].
Qed.

Lemma dict_get_set_ne (k k' : string) (v : value) (d : dict) :
  k <> k' -> dict_get k' (dict_set k v d) = dict_get k' d.
Proof.
  intros N. induction d as [|[k0 v0] d IH]; simpl.
  - apply String.eqb_neq in N. rewrite String.eqb_sym, N. reflexivity.
  - destruct (String.eqb k k0) eqn:E; simpl.
    + apply String.eqb_eq in E. subst k0.
      apply String.eqb_neq in N. rewrite String.eqb_sym, N. reflexivity.
    + rewrite IH. reflexivity.
Qed.

(** Storing under a key of one of the six filled sections keeps the
    shape. *)
Lemma section_set_shape (panel gpu : value) (section key : string) (v : value)
    (d : dict) :
  In section filled_sections ->
  captured_shape panel gpu d ->
  captured_shape panel gpu (section_set section key v d).
Proof.
  intros Hin (K & P & G & S). unfold section_set.
  destruct (S section Hin) as (sd & Hsd). rewrite Hsd.
  assert (section <> "panel" /\ section <> "plugin_display") as [N1 N2].
  { simpl in Hin. intuition (subst; discriminate). }
  split; [|split; [|split]].
  - rewrite dict_set_keys; [exact K | rewrite Hsd; discriminate].
  - rewrite dict_get_set_ne by exact N1. exact P.
  - rewrite dict_get_set_ne by exact N2. exact G.
  - intros sec Hsec. destruct (String.eqb_spec section sec) as [->|N].
    + rewrite dict_get_set_eq. eauto.
    + rewrite dict_get_set_ne by exact N. apply S. exact Hsec.
Qed.

Lemma try_assign_shape (panel gpu : value) (section : string) reads :
  In section filled_sections ->
  forall d, captured_shape panel gpu d ->
  captured_shape panel gpu (fst (try_assign section reads d)).
Proof.
  intros Hin. induction reads as [|[key [v|e]] rest IH]; intros d H; simpl.
  - exact H.
  - apply IH. apply section_set_shape; assumption.
  - exact H.
Qed.

Lemma try_assign_warn_shape (panel gpu : value) (section : string) reads warning
    (st : dict * world) :
  In section filled_sections ->
  captured_shape panel gpu (fst st) ->
  captured_shape panel gpu (fst (try_assign_warn section reads warning st))
  /\ gpu_cache_enabled (tool (snd (try_assign_warn section reads warning st)))
     = gpu_cache_enabled (tool (snd st)).
Proof.
  intros Hin H. unfold try_assign_warn.
  pose proof (try_assign_shape panel gpu section reads Hin (fst st) H) as T.
  destruct (try_assign section reads (fst st)) as [d [e|]]; simpl in *; auto.
Qed.

Ltac in_filled := simpl; tauto.

Lemma capture_camera_shape (panel gpu cam : value) (st : dict * world) :
  captured_shape panel gpu (fst st) ->
  captured_shape panel gpu (fst (capture_camera cam st)).
Proof.
  intros H. unfold capture_camera.
  repeat (apply try_assign_warn_shape; [in_filled|]). exact H.
Qed.

Lemma capture_display_attr_shape (panel gpu p : value) (attr : string)
    (st : dict * world) :
  captured_shape panel gpu (fst st) ->
  captured_shape panel gpu (fst (capture_display_attr p attr st)).
Proof.
  intros H. unfold capture_display_attr.
  destruct (cmds_modelEditor_query _ p attr) as [val|e]; [|exact H].
  destruct (String.eqb attr "hwFog").
  - destruct (bindM _ _ _) as [[u|e] w']; simpl;
      repeat (apply section_set_shape; [in_filled|]); exact H.
  - simpl. apply section_set_shape; [in_filled | exact H].
Qed.

Lemma capture_display_shape (panel gpu p : value) (attrs : list string) :
  forall st,
    captured_shape panel gpu (fst st) ->
    captured_shape panel gpu (fst (capture_display p attrs st)).
Proof.
  unfold capture_display.
  induction attrs as [|a rest IH]; intros st H; simpl; [exact H|].
  apply IH. apply capture_display_attr_shape. exact H.
Qed.

Lemma capture_hw2_shape (panel gpu : value) (attrs : list (string * attr_type)) :
  forall st,
    captured_shape panel gpu (fst st) ->
    captured_shape panel gpu (fst (capture_hw2 attrs st)).
Proof.
  unfold capture_hw2.
  induction attrs as [|[a ty] rest IH]; intros st H; simpl; [exact H|].
  apply IH. unfold capture_hw2_attr.
  apply try_assign_warn_shape; [in_filled | exact H].
Qed.

Lemma initial_settings_shape (self : ViewportCapture) (panel : value) :
  captured_shape panel (gpu_cache_enabled self) (initial_settings self panel).
Proof.
  repeat split. intros sec Hin. simpl in Hin.
  intuition (subst; simpl; eauto).
Qed.

(** Whatever the session answers, a capture that returns for a panel that
    is not None and not empty returns a dict of the captured shape. *)
Lemma capture_settings_shape (w w' : world) (panel s : value) :
  py_bool panel = true ->
  capture_settings panel w = (Ok s, w') ->
  exists d, s = VDict d
            /\ captured_shape panel (gpu_cache_enabled (tool w)) d.
Proof.
  intros Hp. unfold capture_settings. rewrite Hp. cbv beta iota delta [negb].
  unfold get_active_camera.
  destruct (cmds_modelEditor_query (maya w) panel "camera") as [cam|e];
    [|discriminate].
  match goal with
  | |- context [ensure_globals ?x] => destruct (ensure_globals x) as [[u|e] w2]
  end; [|discriminate].
  intros H. inversion H; subst; clear H.
  eexists. split; [reflexivity|].
  apply capture_hw2_shape. simpl.
  apply try_assign_warn_shape; [in_filled|].
  apply capture_display_shape.
  destruct (py_bool cam).
  - apply capture_camera_shape. apply initial_settings_shape.
  - apply initial_settings_shape.
Qed.

(** A capture raises only what the camera query or createNode raised. *)
Lemma capture_settings_raises (w w' : world) (panel : value) (e : exn) :
  capture_settings panel w = (Raise e, w') ->
  cmds_modelEditor_query (maya w) panel "camera" = Raise e
  \/ exists sc, cmds_createNode sc "hardwareRenderingGlobals" = Raise e.
Proof.
  unfold capture_settings.
  destruct (negb (py_bool panel)); [discriminate|].
  unfold get_active_camera.
  destruct (cmds_modelEditor_query (maya w) panel "camera") as [cam|e'].
  - match goal with
    | |- context [ensure_globals ?x] =>
        destruct (ensure_globals x) as [[u|e'] w2] eqn:G
    end; [discriminate|].
    intros H. inversion H; subst. right.
    unfold ensure_globals, edit_scene in G.
    destruct (cmds_objExists _ _); [discriminate|].
    match type of G with
    | context [cmds_createNode ?sc _] =>
        exists sc; destruct (cmds_createNode sc _); [discriminate|]
    end.
    inversion G. reflexivity.
  - intros H. inversion H. left. reflexivity.
Qed.

(** A capture returns whenever the camera query answers and createNode,
    where it is needed, succeeds: no other failure of the session stops
    it. *)
Lemma capture_settings_returns (w : world) (panel cam : value) :
  py_bool panel = true ->
  cmds_modelEditor_query (maya w) panel "camera" = Ok cam ->
  (forall sc, cmds_objExists sc "hardwareRenderingGlobals" = false ->
              is_ok (cmds_createNode sc "hardwareRenderingGlobals") = true) ->
  exists s w', capture_settings panel w = (Ok s, w').
Proof.
  intros Hp Hc Hn. unfold capture_settings. rewrite Hp.
  cbv beta iota delta [negb]. unfold get_active_camera. rewrite Hc.
  match goal with
  | |- context [ensure_globals ?x] =>
      destruct (ensure_globals x) as [[u|e] w2] eqn:G
  end; [eauto|].
  exfalso. unfold ensure_globals, edit_scene in G.
  destruct (cmds_objExists _ _) eqn:X; [discriminate|].
  apply Hn in X. destruct (cmds_createNode _ _); discriminate.
Qed.

Lemma json_member_dump (k : string) (d : dict) :
  json_member k (map (fun kv => match kv with (k', x) => (k', json_dump x) end) d)
  = option_map json_dump (dict_get k d).
Proof.
  induction d as [|[k' x] d IH]; simpl; [reflexivity|].
  destruct (String.eqb k k'); [reflexivity | exact IH].
Qed.

(** *** What capture leaves alone *)

Lemma same_but_status_refl (t : ViewportCapture) : same_but_status t t.
Proof. repeat split. Qed.


Lemma status_only_refl (w : world) : status_only w w.
Proof. split; [reflexivity | apply same_but_status_refl]. Qed.

Lemma status_only_status (w : world) (message : string) :
  status_only w (with_tool w (update_status (tool w) message)).
Proof. split; [reflexivity | repeat split]. Qed.

Lemma status_only_trans (w1 w2 w3 : world) :
  status_only w1 w2 -> status_only w2 w3 -> status_only w1 w3.
Proof.
  intros [D1 (A1 & A2 & A3 & A4 & A5 & A6 & A7 & A8 & A9)]
         [D2 (B1 & B2 & B3 & B4 & B5 & B6 & B7 & B8 & B9)].
  split; [congruence|]. repeat split; congruence.
Qed.

Lemma try_assign_warn_frame section reads warning (st : dict * world) :
  status_only (snd st) (snd (try_assign_warn section reads warning st))
  /\ maya (snd (try_assign_warn section reads warning st)) = maya (snd st).
Proof.
  unfold try_assign_warn.
  destruct (try_assign section reads (fst st)) as [d [e|]]; simpl.
  - split; [apply status_only_status | reflexivity].
  - split; [apply status_only_refl | reflexivity].
Qed.

Lemma capture_camera_frame cam (st : dict * world) :
  status_only (snd st) (snd (capture_camera cam st))
  /\ maya (snd (capture_camera cam st)) = maya (snd st).
Proof.
  unfold capture_camera. cbv zeta.
  match goal with
  | |- context [try_assign_warn ?a3 ?r3 ?m3
                  (try_assign_warn ?a2 ?r2 ?m2 (try_assign_warn ?a1 ?r1 ?m1 st))] =>
      destruct (try_assign_warn_frame a1 r1 m1 st) as [F1 M1];
      destruct (try_assign_warn_frame a2 r2 m2 (try_assign_warn a1 r1 m1 st))
        as [F2 M2];
      destruct (try_assign_warn_frame a3 r3 m3
                  (try_assign_warn a2 r2 m2 (try_assign_warn a1 r1 m1 st)))
        as [F3 M3]
  end.
  split.
  - eapply status_only_trans; [|exact F3].
    eapply status_only_trans; [exact F1 | exact F2].
  - rewrite M3, M2, M1. reflexivity.
Qed.

Lemma ensure_globals_frame (w w' : world) (r : result unit) :
  ensure_globals w = (r, w') -> status_only w w'.
Proof.
  unfold ensure_globals, edit_scene.
  destruct (cmds_objExists _ _).
  - intros H. inversion H. apply status_only_refl.
  - destruct (cmds_createNode _ _); intros H; inversion H;
      (split; [reflexivity | apply same_but_status_refl]).
Qed.

Lemma capture_display_attr_frame p attr (st : dict * world) :
  status_only (snd st) (snd (capture_display_attr p attr st)).
Proof.
  unfold capture_display_attr.
  destruct (cmds_modelEditor_query _ p attr) as [val|e];
    [|apply status_only_status].
  destruct (String.eqb attr "hwFog"); [|apply status_only_refl].
  unfold bindM.
  destruct (ensure_globals (snd st)) as [[u|e] w1] eqn:G.
  - apply ensure_globals_frame in G. unfold edit_scene.
    destruct (cmds_setAttr _ _ _); simpl.
    + eapply status_only_trans; [exact G|].
      split; [reflexivity | apply same_but_status_refl].
    + eapply status_only_trans; [exact G|]. apply status_only_status.
  - apply ensure_globals_frame in G. simpl.
    eapply status_only_trans; [exact G|]. apply status_only_status.
Qed.

Lemma capture_display_frame p attrs : forall st,
  status_only (snd st) (snd (capture_display p attrs st)).
Proof.
  unfold capture_display.
  induction attrs as [|a rest IH]; intros st; simpl; [apply status_only_refl|].
  eapply status_only_trans; [apply capture_display_attr_frame | apply IH].
Qed.

Lemma capture_hw2_frame attrs : forall st,
  status_only (snd st) (snd (capture_hw2 attrs st)).
Proof.
  unfold capture_hw2.
  induction attrs as [|[a ty] rest IH]; intros st; simpl; [apply status_only_refl|].
  eapply status_only_trans; [|apply IH].
  unfold capture_hw2_attr. apply try_assign_warn_frame.
Qed.

(** capture_settings, whether it returns or raises, leaves the disk alone
    and changes nothing of the instance but the status label. *)
Lemma capture_settings_frame (w w' : world) (panel : value) (r : result value) :
  capture_settings panel w = (r, w') -> status_only w w'.
Proof.
  unfold capture_settings.
  destruct (negb (py_bool panel)).
  { intros H. inversion H. apply status_only_refl. }
  unfold get_active_camera.
  destruct (cmds_modelEditor_query (maya w) panel "camera") as [cam|e].
  2:{ intros H. inversion H. apply status_only_refl. }
  set (st0 := (initial_settings (tool w) panel, w)).
  set (st1 := if py_bool cam then capture_camera cam st0 else st0).
  assert (status_only w (snd st1)) as F1.
  { unfold st1. destruct (py_bool cam); [|apply status_only_refl].
    apply (capture_camera_frame cam st0). }
  assert (display_attrs (tool (snd st1)) = display_attrs (tool w)) as Da
    by (destruct F1 as [_ F]; apply F).
  set (st2 := capture_display panel (display_attrs (tool (snd st1))) st1).
  assert (status_only w (snd st2)) as F2.
  { eapply status_only_trans; [exact F1 | apply capture_display_frame]. }
  set (st3 := capture_background st2).
  assert (status_only w (snd st3)) as F3.
  { eapply status_only_trans; [exact F2|]. apply try_assign_warn_frame. }
  destruct (ensure_globals (snd st3)) as [[u|e] w4] eqn:G.
  - apply ensure_globals_frame in G. intros H. inversion H; subst.
    eapply status_only_trans; [exact F3|].
    eapply status_only_trans; [exact G|].
    apply (capture_hw2_frame _ (fst st3, w4)).
  - apply ensure_globals_frame in G. intros H. inversion H; subst.
    eapply status_only_trans; [exact F3 | exact G].
Qed.

(** capture_viewport leaves the current snapshot alone or replaces it by
    what capture_settings returned for a panel that is not None and not
    empty. *)
Lemma capture_viewport_stores (w w' : world) (r : result unit) :
  capture_viewport w = (r, w') ->
  last_captured_settings (tool w') = last_captured_settings (tool w)
  \/ exists panel wa wb,
       py_bool panel = true
       /\ capture_settings panel wa = (Ok (last_captured_settings (tool w')), wb).
Proof.
  unfold capture_viewport, bindM.
  destruct (get_active_viewport w) as [[panel|e] w1] eqn:V.
  2:{ intros H. inversion H; subst. left.
      unfold get_active_viewport in V. inversion V. reflexivity. }
  assert (w1 = w) as -> by (unfold get_active_viewport in V; inversion V; reflexivity).
  destruct (py_bool panel) eqn:Hp; cbv beta iota delta [negb].
  2:{ intros H. inversion H. left. reflexivity. }
  destruct (ensure_viewport_20 panel w) as [[u|e] w2] eqn:EV.
  2:{ intros H. inversion H; subst. left.
      unfold ensure_viewport_20, bindM, try_except, edit_scene, set_status, modify, ret in EV.
      destruct (cmds_modelEditor_query _ _ _); [|inversion EV; reflexivity].
      destruct (is_str _ _); [inversion EV|].
      destruct (cmds_modelEditor_rendererName _ _ _); inversion EV. }
  assert (last_captured_settings (tool w2) = last_captured_settings (tool w)) as L2.
  { unfold ensure_viewport_20, bindM, try_except, edit_scene, set_status, modify, ret in EV.
    destruct (cmds_modelEditor_query _ _ _); [|discriminate].
    destruct (is_str _ _); [inversion EV; reflexivity|].
    destruct (cmds_modelEditor_rendererName _ _ _); inversion EV; reflexivity. }
  destruct (capture_settings panel w2) as [[s|e] w3] eqn:CS.
  2:{ intros H. inversion H; subst. left.
      apply capture_settings_frame in CS. destruct CS as [_ F].
      rewrite <- L2. apply F. }
  destruct (capture_settings_shape _ _ _ _ Hp CS) as (d & -> & K & _).
  assert (py_bool (VDict d) = true) as -> by (destruct d; [discriminate|reflexivity]).
  unfold modify, set_status.
  destruct (settings_to_mel _ (VDict d)) as [mel|e]; intros H; inversion H; subst;
    right; exists panel, w2, w3; (split; [exact Hp|]); exact CS.
Qed.

End Capture.

Section CaptureTheorems.

Context {PR : PyRuntime} {OS : OSLayer} {MH : MayaHost}.

(** C10, as amended.  For a panel argument that is neither None nor empty,
    the snapshot capture_settings returns is a dict with the key panel,
    holding the panel given, the section plugin_display, holding the GPU
    cache flag of the instance under gpuCache, and a dict under each of
    display, background, hardware2, camera_gate, camera_mask and
    camera_filmfit; and a preset file saved while such a snapshot is the
    current one holds the members panel and plugin_display with its
    gpuCache. *)
Theorem captured_snapshot_entries (w0 w0' : world) (panel s : value) :
  py_bool panel = true ->
  capture_settings panel w0 = (Ok s, w0') ->
  (exists d, s = VDict d
             /\ captured_shape panel (gpu_cache_enabled (tool w0)) d)
  /\ (forall (w : world) (name confirm : string),
        last_captured_settings (tool w) = s ->
        name <> EmptyString ->
        (os_path_exists (disk_with_preset_dir w) (preset_path_of w name)
         && String.eqb confirm "No")%bool = false ->
        disk_with_preset_dir w !! preset_path_of w name <> Some Dir ->
        exists w' members,
          save_preset "Save" name confirm w = (Ok tt, w')
          /\ disk w' !! preset_path_of w name = Some (File (Some (JObject members)))
          /\ json_member "panel" members = Some (json_dump panel)
          /\ json_member "plugin_display" members
             = Some (JObject [("gpuCache", json_dump (gpu_cache_enabled (tool w0)))])).
Proof.
  intros Hp Hc.
  destruct (capture_settings_shape _ _ _ _ Hp Hc) as (d & -> & Sh).
  split; [exists d; auto|].
  intros w name confirm Hl Hn He Hd.
  assert (py_bool (last_captured_settings (tool w)) = true) as Hb.
  { rewrite Hl. destruct Sh as (K & _). destruct d; [discriminate|reflexivity]. }
  destruct (save_preset_writes w name confirm Hb Hn He Hd) as (w' & E & D & _).
  eexists w', _. split; [exact E|]. rewrite D, lookup_insert_eq, Hl. simpl.
  split; [reflexivity|].
  destruct Sh as (_ & P & G & _).
  rewrite !json_member_dump, P, G. split; reflexivity.
Qed.

End CaptureTheorems.

Lemma captured_snapshot_entries_witness :
  py_bool Sample.panel4 = true
  /\ exists s w',
       capture_settings Sample.panel4 Sample.fresh_world = (Ok s, w')
       /\ exists d,
            s = VDict d
            /\ dict_get "panel" d = Some Sample.panel4
            /\ dict_get "plugin_display" d
               = Some (VDict [("gpuCache", VBool false)]).
Proof.
  split; [reflexivity|].
  destruct (capture_settings_returns Sample.fresh_world
              Sample.panel4 (VStr "persp") eq_refl eq_refl)
    as (s & w' & C); [discriminate|].
  exists s, w'. split; [exact C|].
  destruct (captured_snapshot_entries (OS := Sample.os) Sample.fresh_world w'
              Sample.panel4 s eq_refl C)
    as ((d & E & _ & P & G & _) & _).
  exists d. split; [exact E|]. split; [exact P | exact G].
Defined.

(** C10, the claim as stated fails.  The empty string is a panel argument
    that is not None, and capture_settings returns None for it, which
    holds no panel key.  And a preset file need not hold the key: loading
    the preset studio of the sample disk, whose file has no panel member,
    and saving the loaded snapshot under the name copy writes a file with
    no panel member. *)
Lemma capture_entries_counterexample :
  Sample.no_panel <> VNone
  /\ capture_settings Sample.no_panel Sample.fresh_world
     = (Ok VNone, Sample.fresh_world)
  /\ exists w1 w2 members,
       load_preset (OS := Sample.os) (Some ["studio"]) Sample.world0 = (Ok tt, w1)
       /\ save_preset (OS := Sample.os) "Save" "copy" "No" w1 = (Ok tt, w2)
       /\ disk w2 !! preset_path_of (OS := Sample.os) w1 "copy"
          = Some (File (Some (JObject members)))
       /\ json_member "panel" members = None.
Proof.
  split; [discriminate|]. split; [reflexivity|].
  destruct (load_preset_reads (OS := Sample.os) Sample.world0 "studio" []
              (json_dump Sample.flat_snapshot))
    as (w1 & E1 & L1 & D1 & C1).
  { vm_compute. reflexivity. }
  assert (disk_with_preset_dir (OS := Sample.os) Sample.world0
          = disk Sample.world0) as A.
  { apply disk_with_preset_dir_id. vm_compute. reflexivity. }
  assert (preset_dir_of (OS := Sample.os) w1
          = preset_dir_of (OS := Sample.os) Sample.world0) as Hdir.
  { unfold preset_dir_of. rewrite C1, D1, A. reflexivity. }
  assert (preset_path_of (OS := Sample.os) w1 "copy"
          = preset_path_of (OS := Sample.os) Sample.world0 "copy") as Hp.
  { unfold preset_path_of. rewrite Hdir. reflexivity. }
  assert (disk_with_preset_dir (OS := Sample.os) w1 = disk Sample.world0) as Hd.
  { rewrite disk_with_preset_dir_id; rewrite ?Hdir, D1, A;
      [reflexivity | vm_compute; reflexivity]. }
  destruct (save_preset_writes (OS := Sample.os) w1 "copy" "No")
    as (w2 & E2 & D2 & _).
  - rewrite L1. reflexivity.
  - discriminate.
  - rewrite Hp, Hd. vm_compute. reflexivity.
  - rewrite Hp, Hd. vm_compute. discriminate.
  - exists w1, w2. eexists. split; [exact E1|]. split; [exact E2|].
    rewrite D2, lookup_insert_eq, L1. split; reflexivity.
Qed.

(** ** The emitter: when it returns, and what it reads *)

Lemma str_join_cons (sep a b : string) (rest : list string) :
  str_join sep (a :: b :: rest) = a +:+ sep +:+ str_join sep (b :: rest).
Proof. reflexivity. Qed.

Section EmitterCoverage.

Context {PR : PyRuntime}.

Lemma rgb_line_checked name v l : rgb_line name v = Ok l -> triple_ok v = true.
Proof.
  unfold rgb_line, triple_ok. intros H.
  apply bind_ok in H. destruct H as (c0 & H0 & H).
  apply bind_ok in H. destruct H as (c1 & H1 & H).
  apply bind_ok in H. destruct H as (c2 & H2 & H).
  rewrite H0, H1, H2. reflexivity.
Qed.

Lemma emit_display_items_checked items : forall acc a,
  emit_display_items items acc = Ok a -> forallb display_item_ok items = true.
Proof.
  induction items as [|[attr v] rest IH]; intros acc a H; simpl in *;
    [reflexivity|].
  apply bind_ok in H. destruct H as (acc' & Hitem & H).
  apply IH in H. rewrite H, andb_true_r.
  unfold display_item_ok. simpl. unfold emit_display_item in Hitem.
  destruct (String.eqb attr "hwFog"); [|reflexivity].
  apply bind_ok in Hitem. destruct Hitem as (n & Hn & _). rewrite Hn. reflexivity.
Qed.

Lemma emit_hardware_items_checked items : forall acc a,
  emit_hardware_items items acc = Ok a -> forallb hardware_item_ok items = true.
Proof.
  induction items as [|[attr v] rest IH]; intros acc a H; simpl in *;
    [reflexivity|].
  apply bind_ok in H. destruct H as (acc' & Hitem & H).
  apply IH in H. rewrite H, andb_true_r.
  unfold hardware_item_ok. simpl. unfold emit_hardware_item in Hitem.
  destruct (is_sequence v) eqn:S; [|reflexivity].
  assert (is_bool v = false) as B by (destruct v; try discriminate; reflexivity).
  rewrite B in Hitem. simpl in Hitem. rewrite S in Hitem.
  unfold triple_ok.
  apply bind_ok in Hitem. destruct Hitem as (c0 & H0 & Hitem).
  apply bind_ok in Hitem. destruct Hitem as (c1 & H1 & Hitem).
  apply bind_ok in Hitem. destruct Hitem as (c2 & H2 & Hitem).
  rewrite H0, H1, H2. reflexivity.
Qed.

Lemma emit_background_checked (d bg : dict) a :
  dict_get "background" d = Some (VDict bg) ->
  emit_background (VDict d) [] = Ok a ->
  background_ok bg = true.
Proof.
  intros Hd H.
  destruct (background_block _ _ _ Hd H) as (g & t & c & b & _ & _ & Ht & Hc & Hb).
  unfold background_ok, opt_key.
  destruct (dict_get "topColor" bg) as [v|].
  { destruct Ht as (l & Hl & _). rewrite (rgb_line_checked _ _ _ Hl). simpl.
    destruct (dict_get "color" bg) as [v'|].
    - destruct Hc as (l' & Hl' & _). rewrite (rgb_line_checked _ _ _ Hl'). simpl.
      destruct (py_bool _); [|reflexivity].
      destruct (dict_get "bottomColor" bg) as [v''|]; [|reflexivity].
      destruct Hb as (l'' & Hl'' & _). exact (rgb_line_checked _ _ _ Hl'').
    - simpl. destruct (py_bool _); [|reflexivity].
      destruct (dict_get "bottomColor" bg) as [v''|]; [|reflexivity].
      destruct Hb as (l'' & Hl'' & _). exact (rgb_line_checked _ _ _ Hl''). }
  simpl. destruct (dict_get "color" bg) as [v'|].
  - destruct Hc as (l' & Hl' & _). rewrite (rgb_line_checked _ _ _ Hl'). simpl.
    destruct (py_bool _); [|reflexivity].
    destruct (dict_get "bottomColor" bg) as [v''|]; [|reflexivity].
    destruct Hb as (l'' & Hl'' & _). exact (rgb_line_checked _ _ _ Hl'').
  - simpl. destruct (py_bool _); [|reflexivity].
    destruct (dict_get "bottomColor" bg) as [v''|]; [|reflexivity].
    destruct Hb as (l'' & Hl'' & _). exact (rgb_line_checked _ _ _ Hl'').
Qed.

(** A script that returned for a snapshot whose sections are dicts: the
    snapshot is renderable. *)
Lemma emitted_renderable (d : dict) (l : list string) :
  dict_sections d = true ->
  mel_commands_of (VDict d) = Ok l ->
  renderable (VDict d) = true.
Proof.
  intros Hs Hl. apply emitted_lines in Hl.
  destruct Hl as (cg & cm & cf & gp & dp & bgl & hwl
                  & _ & _ & _ & _ & Hdp & Hbg & Hhw & _).
  unfold dict_sections, section_names in Hs. simpl in Hs.
  apply andb_prop in Hs. destruct Hs as [S1 Hs].
  apply andb_prop in Hs. destruct Hs as [S2 Hs].
  apply andb_prop in Hs. destruct Hs as [S3 Hs].
  apply andb_prop in Hs. destruct Hs as [S4 Hs].
  apply andb_prop in Hs. destruct Hs as [S5 Hs].
  apply andb_prop in Hs. destruct Hs as [S6 Hs].
  apply andb_prop in Hs. destruct Hs as [S7 _].
  unfold renderable. rewrite S1, S2, S3, S4.
  assert (match dict_get "display" d with
          | Some (VDict display) => forallb display_item_ok display
          | _ => false
          end = true) as ->.
  { unfold emit_display in Hdp. simpl in Hdp.
    destruct (dict_get "display" d) as [dv|]; [|discriminate].
    destruct dv; try discriminate. simpl in Hdp.
    eapply emit_display_items_checked. exact Hdp. }
  assert (opt_section d "background" background_ok = true) as ->.
  { unfold opt_section in *.
    destruct (dict_get "background" d) as [bv|] eqn:E; [|reflexivity].
    destruct bv; try discriminate.
    eapply emit_background_checked; eassumption. }
  assert (opt_section d "hardware2" (forallb hardware_item_ok) = true) as ->.
  { unfold opt_section in *.
    destruct (dict_get "hardware2" d) as [hv|] eqn:E; [|reflexivity].
    destruct hv; try discriminate.
    destruct (hardware_block _ _ _ E Hhw) as (stmts & _ & Hi).
    eapply emit_hardware_items_checked. exact Hi. }
  reflexivity.
Qed.

(** X1.  For a snapshot that is a dict, is not empty and holds a dict
    under each section it has, settings_to_mel returns a script exactly
    when the snapshot is renderable: it has a display section, the value
    under hwFog converts to an int, every colour of the background block
    that is written and every list or tuple of the hardware2 section has
    its first three components.  In every other case it raises. *)
Theorem settings_to_mel_returns_iff_renderable
    (self : ViewportCapture) (d : dict) :
  d <> [] ->
  dict_sections d = true ->
  (is_ok (settings_to_mel self (VDict d)) = true <-> renderable (VDict d) = true).
Proof.
  intros Hne Hs. split.
  - unfold settings_to_mel.
    assert (py_bool (VDict d) = true) as ->
      by (destruct d; [contradiction | reflexivity]).
    simpl negb. cbv iota.
    destruct (mel_commands_of (VDict d)) as [l|e] eqn:Hl; [|discriminate].
    intros _. exact (emitted_renderable d l Hs Hl).
  - intros R. destruct (renderable_emits self _ R) as (l & _ & ->). reflexivity.
Qed.

(** X2.  settings_to_mel returns the placeholder text exactly for the
    snapshots that test false (None, an empty dict and the like): a script
    written for any other snapshot is never the placeholder. *)
Theorem settings_to_mel_placeholder_iff
    (self : ViewportCapture) (settings : value) :
  settings_to_mel self settings = Ok no_settings_text
  <-> py_bool settings = false.
Proof.
  split.
  - destruct (py_bool settings) eqn:B; [|reflexivity].
    intros H. exfalso.
    destruct (settings_to_mel_inv _ _ _ B H) as (l & Hl & E).
    rewrite mel_commands_of_stages in Hl.
    repeat (apply bind_ok in Hl; destruct Hl as (? & _ & Hl)).
    inversion Hl; subst l; clear Hl.
    unfold mel_header in E. simpl app in E.
    rewrite str_join_cons in E. discriminate E.
  - intros B. unfold settings_to_mel. rewrite B. reflexivity.
Qed.

(** Two dicts that agree on the sections get the same list of lines. *)
Lemma mel_commands_of_sections (d d' : dict) :
  (forall k, In k section_names -> dict_get k d = dict_get k d') ->
  mel_commands_of (VDict d) = mel_commands_of (VDict d').
Proof.
  intros H. rewrite !mel_commands_of_stages.
  assert (emit_camera_gate (VDict d) [] = emit_camera_gate (VDict d') []) as ->.
  { unfold emit_camera_gate, py_contains, py_getitem, dict_has.
    rewrite (H "camera_gate") by (simpl; tauto). reflexivity. }
  assert (emit_camera_mask (VDict d) [] = emit_camera_mask (VDict d') []) as ->.
  { unfold emit_camera_mask, py_contains, py_getitem, dict_has.
    rewrite (H "camera_mask") by (simpl; tauto). reflexivity. }
  assert (emit_camera_filmfit (VDict d) [] = emit_camera_filmfit (VDict d') []) as ->.
  { unfold emit_camera_filmfit, py_contains, py_getitem, dict_has.
    rewrite (H "camera_filmfit") by (simpl; tauto). reflexivity. }
  assert (emit_gpu_cache (VDict d) [] = emit_gpu_cache (VDict d') []) as ->.
  { unfold emit_gpu_cache, py_get.
    rewrite (H "plugin_display") by (simpl; tauto). reflexivity. }
  assert (emit_display (VDict d) [] = emit_display (VDict d') []) as ->.
  { unfold emit_display, py_getitem.
    rewrite (H "display") by (simpl; tauto). reflexivity. }
  assert (emit_background (VDict d) [] = emit_background (VDict d') []) as ->.
  { unfold emit_background, py_contains, py_getitem, dict_has.
    rewrite (H "background") by (simpl; tauto). reflexivity. }
  assert (emit_hardware (VDict d) [] = emit_hardware (VDict d') []) as ->.
  { unfold emit_hardware, py_contains, py_getitem, dict_has.
    rewrite (H "hardware2") by (simpl; tauto). reflexivity. }
  reflexivity.
Qed.

(** X3.  The outcome of settings_to_mel depends on the seven sections of
    the snapshot and on nothing else: two snapshots that are not empty and
    hold the same values under camera_gate, camera_mask, camera_filmfit,
    plugin_display, display, background and hardware2 get the same script
    or the same exception, whatever else they hold (the panel entry, say)
    and whatever the instance holds. *)
Theorem settings_to_mel_reads_sections
    (self self' : ViewportCapture) (d d' : dict) :
  d <> [] -> d' <> [] ->
  (forall k, In k section_names -> dict_get k d = dict_get k d') ->
  settings_to_mel self (VDict d) = settings_to_mel self' (VDict d').
Proof.
  intros Hd Hd' H. unfold settings_to_mel.
  assert (py_bool (VDict d) = true) as ->
    by (destruct d; [contradiction | reflexivity]).
  assert (py_bool (VDict d') = true) as ->
    by (destruct d'; [contradiction | reflexivity]).
  rewrite (mel_commands_of_sections d d' H). reflexivity.
Qed.

Lemma emit_display_item_special attr v a :
  emit_display_item attr v [] = Ok a ->
  (attr = "displayLights" \/ attr = "displayAppearance" ->
   a = [model_editor_line attr (q (py_str v))])
  /\ (attr = "hwFog" ->
      exists n, py_int v = Ok n
                /\ a = model_editor_line "hwFog" (lower_str v)
                         :: objexists_guard ++ [fog_enable_line (z_str n)]).
Proof.
  intros H. split.
  - intros [-> | ->]; simpl in H; inversion H; reflexivity.
  - intros ->. simpl in H.
    apply bind_ok in H. destruct H as (n & Hn & H). inversion H.
    exists n. split; [exact Hn | reflexivity].
Qed.

Lemma emit_display_items_special items : forall a,
  emit_display_items items [] = Ok a ->
  (forall attr v, In (attr, v) items ->
     attr = "displayLights" \/ attr = "displayAppearance" ->
     In (model_editor_line attr (q (py_str v))) a)
  /\ (forall v, In ("hwFog", v) items ->
        exists n pre post,
          py_int v = Ok n
          /\ a = pre ++ (model_editor_line "hwFog" (lower_str v)
                           :: objexists_guard ++ [fog_enable_line (z_str n)])
                     ++ post).
Proof.
  induction items as [|[attr v] rest IH]; intros a H; simpl in H.
  - inversion H. split; [intros ? ? [] | intros ? []].
  - apply bind_ok in H. destruct H as (a1 & H1 & H).
    rewrite emit_display_items_acc in H.
    apply bind_ok in H. destruct H as (a2 & H2 & H).
    inversion H; subst a; clear H.
    destruct (emit_display_item_special _ _ _ H1) as [Q1 F1].
    destruct (IH _ H2) as [Q2 F2]. split.
    + intros attr' v' [E|E] K; apply in_or_app.
      * inversion E; subst. left. rewrite (Q1 K). left. reflexivity.
      * right. eauto.
    + intros v' [E|E].
      * inversion E; subst. destruct (F1 eq_refl) as (n & Hn & ->).
        exists n, [], a2. split; [exact Hn | reflexivity].
      * destruct (F2 v' E) as (n & pre & post & Hn & ->).
        exists n, (a1 ++ pre), post. split; [exact Hn|].
        rewrite <- !app_assoc. reflexivity.
Qed.

(** X4.  In the script settings_to_mel returns, the value under
    displayLights or displayAppearance is written between double quotes as
    str gives it, not lowered; and the statement for hwFog is followed at
    once by the guard that creates hardwareRenderingGlobals and by the
    statement that sets hwFogEnable to int of the value. *)
Theorem settings_to_mel_display_special
    (self : ViewportCapture) (d display : dict) (out : string) :
  dict_get "display" d = Some (VDict display) ->
  settings_to_mel self (VDict d) = Ok out ->
  exists l,
    out = str_join nl l
    /\ (forall attr v, In (attr, v) display ->
          attr = "displayLights" \/ attr = "displayAppearance" ->
          In (model_editor_line attr (q (py_str v))) l)
    /\ (forall v, In ("hwFog", v) display ->
          exists n pre post,
            py_int v = Ok n
            /\ l = pre ++ (model_editor_line "hwFog" (lower_str v)
                             :: objexists_guard ++ [fog_enable_line (z_str n)])
                       ++ post).
Proof.
  intros Hd H.
  destruct (settings_to_mel_inv _ _ _ (dict_get_nonempty _ _ _ Hd) H)
    as (l & Hl & ->).
  exists l. split; [reflexivity|].
  apply emitted_lines in Hl.
  destruct Hl as (cg & cm & cf & gp & dp & bgl & hwl
                  & _ & _ & _ & _ & Hdp & _ & _ & ->).
  unfold emit_display in Hdp. simpl in Hdp. rewrite Hd in Hdp. simpl in Hdp.
  rewrite emit_display_items_acc in Hdp.
  apply bind_ok in Hdp. destruct Hdp as (stmts & Hi & Hdp).
  inversion Hdp; subst dp; clear Hdp.
  destruct (emit_display_items_special _ _ Hi) as [Q F]. split.
  - intros attr v Hin K. specialize (Q attr v Hin K).
    rewrite !in_app_iff. simpl. tauto.
  - intros v Hin. destruct (F v Hin) as (n & pre & post & Hn & ->).
    exists n,
      (mel_header ++ (cg ++ cm ++ cf) ++ ["    }"; EmptyString] ++ gp
         ++ ["    // Display Settings"] ++ pre),
      (post ++ bgl ++ hwl ++ mel_footer).
    split; [exact Hn|]. simpl. rewrite <- !app_assoc. simpl.
    rewrite <- !app_assoc. reflexivity.
Qed.

(** X5.  When the snapshot has no plugin_display section, or a
    plugin_display section without gpuCache, the script switches the GPU
    cache filter off: the flag defaults to False. *)
Theorem settings_to_mel_gpu_default
    (self : ViewportCapture) (d : dict) (out : string) :
  d <> [] ->
  (dict_get "plugin_display" d = None
   \/ exists pd, dict_get "plugin_display" d = Some (VDict pd)
                 /\ dict_get "gpuCache" pd = None) ->
  settings_to_mel self (VDict d) = Ok out ->
  exists l, out = str_join nl l /\ In (gpu_flag_line "false") l.
Proof.
  intros Hne Hp H.
  assert (py_bool (VDict d) = true) as B
    by (destruct d; [contradiction | reflexivity]).
  destruct (settings_to_mel_inv _ _ _ B H) as (l & Hl & ->).
  exists l. split; [reflexivity|].
  apply emitted_lines in Hl.
  destruct Hl as (cg & cm & cf & gp & dp & bgl & hwl
                  & _ & _ & _ & Hgp & _ & _ & _ & ->).
  assert (gp = gpu_block "false") as ->.
  { unfold emit_gpu_cache in Hgp. simpl in Hgp.
    destruct Hp as [Hp | (pd & Hp & Hg)]; rewrite Hp in Hgp; simpl in Hgp;
      [|rewrite Hg in Hgp; simpl in Hgp]; inversion Hgp; reflexivity. }
  rewrite !in_app_iff. simpl. tauto.
Qed.

End EmitterCoverage.

(** ** Capture: what each section of the snapshot holds *)

Section CaptureCoverage.

Context {PR : PyRuntime} {MH : MayaHost}.

Lemma section_set_other sec sec' key v (d : dict) :
  sec <> sec' -> dict_get sec' (section_set sec key v d) = dict_get sec' d.
Proof.
  intros N. unfold section_set.
  destruct (dict_get sec d) as [[]|]; try reflexivity.
  apply dict_get_set_ne. exact N.
Qed.

Lemma section_set_same sec key v (d sd : dict) :
  dict_get sec d = Some (VDict sd) ->
  dict_get sec (section_set sec key v d) = Some (VDict (dict_set key v sd)).
Proof. intros H. unfold section_set. rewrite H. apply dict_get_set_eq. Qed.

Lemma try_assign_other sec sec' reads : forall d : dict,
  sec <> sec' -> dict_get sec' (fst (try_assign sec reads d)) = dict_get sec' d.
Proof.
  induction reads as [|[key [v|e]] rest IH]; intros d N; simpl; try reflexivity.
  rewrite IH by exact N. apply section_set_other. exact N.
Qed.

Lemma try_assign_same sec reads : forall d sd : dict,
  dict_get sec d = Some (VDict sd) ->
  dict_get sec (fst (try_assign sec reads d))
  = Some (VDict (try_store reads sd)).
Proof.
  induction reads as [|[key [v|e]] rest IH]; intros d sd H; simpl;
    try exact H.
  apply IH. apply section_set_same. exact H.
Qed.

Lemma try_assign_warn_fst sec reads warning (st : dict * world) :
  fst (try_assign_warn sec reads warning st) = fst (try_assign sec reads (fst st)).
Proof.
  unfold try_assign_warn.
  destruct (try_assign sec reads (fst st)) as [d [e|]]; reflexivity.
Qed.

Lemma capture_display_attr_other p attr sec' (st : dict * world) :
  sec' <> "display" ->
  dict_get sec' (fst (capture_display_attr p attr st)) = dict_get sec' (fst st).
Proof.
  intros N. assert ("display" <> sec') as N' by congruence.
  unfold capture_display_attr.
  destruct (cmds_modelEditor_query _ p attr) as [val|e]; [|reflexivity].
  destruct (String.eqb attr "hwFog").
  - destruct (bindM _ _ _) as [[u|e] w']; simpl;
      rewrite ?section_set_other by exact N'; reflexivity.
  - simpl. apply section_set_other. exact N'.
Qed.

Lemma capture_display_other p attrs sec' : forall st : dict * world,
  sec' <> "display" ->
  dict_get sec' (fst (capture_display p attrs st)) = dict_get sec' (fst st).
Proof.
  unfold capture_display.
  induction attrs as [|a rest IH]; intros st N; simpl; [reflexivity|].
  rewrite IH by exact N. apply capture_display_attr_other. exact N.
Qed.

Lemma capture_hw2_other attrs sec' : forall st : dict * world,
  sec' <> "hardware2" ->
  dict_get sec' (fst (capture_hw2 attrs st)) = dict_get sec' (fst st).
Proof.
  unfold capture_hw2.
  induction attrs as [|[a ty] rest IH]; intros st N; simpl; [reflexivity|].
  rewrite IH by exact N. unfold capture_hw2_attr.
  rewrite try_assign_warn_fst. apply try_assign_other. congruence.
Qed.

Lemma capture_background_other sec' (st : dict * world) :
  sec' <> "background" ->
  dict_get sec' (fst (capture_background st)) = dict_get sec' (fst st).
Proof.
  intros N. unfold capture_background.
  rewrite try_assign_warn_fst. apply try_assign_other. congruence.
Qed.

Lemma capture_camera_sections cam (st : dict * world) :
  fst (capture_camera cam st)
  = fst (try_assign "camera_filmfit"
           (camera_filmfit_reads (maya (snd st)) cam)
           (fst (try_assign "camera_mask"
                   (camera_mask_reads (maya (snd st)) cam)
                   (fst (try_assign "camera_gate"
                           (camera_gate_reads (maya (snd st)) cam) (fst st)))))).
Proof.
  unfold capture_camera. cbv zeta. rewrite !try_assign_warn_fst. reflexivity.
Qed.

Lemma capture_camera_other cam sec' (st : dict * world) :
  sec' <> "camera_gate" -> sec' <> "camera_mask" -> sec' <> "camera_filmfit" ->
  dict_get sec' (fst (capture_camera cam st)) = dict_get sec' (fst st).
Proof.
  intros N1 N2 N3. rewrite capture_camera_sections.
  rewrite !try_assign_other by congruence. reflexivity.
Qed.

(** The stages of a capture that returned a dict. *)
Lemma capture_settings_stages (w w' : world) (panel : value) (d : dict) :
  capture_settings panel w = (Ok (VDict d), w') ->
  exists cam st1 st2 st3 w4,
    cmds_modelEditor_query (maya w) panel "camera" = Ok cam
    /\ st1 = (if py_bool cam
              then capture_camera cam (initial_settings (tool w) panel, w)
              else (initial_settings (tool w) panel, w))
    /\ st2 = capture_display panel (display_attrs (tool w)) st1
    /\ st3 = capture_background st2
    /\ ensure_globals (snd st3) = (Ok tt, w4)
    /\ d = fst (capture_hw2 (hw2_attrs (tool w)) (fst st3, w4))
    /\ w' = snd (capture_hw2 (hw2_attrs (tool w)) (fst st3, w4)).
Proof.
  unfold capture_settings.
  destruct (negb (py_bool panel)); [discriminate|].
  unfold get_active_camera.
  destruct (cmds_modelEditor_query (maya w) panel "camera") as [cam|e];
    [|discriminate].
  set (st0 := (initial_settings (tool w) panel, w)).
  set (st1 := if py_bool cam then capture_camera cam st0 else st0).
  assert (status_only w (snd st1)) as F1.
  { unfold st1. destruct (py_bool cam); [|apply status_only_refl].
    apply (capture_camera_frame cam st0). }
  assert (display_attrs (tool (snd st1)) = display_attrs (tool w)) as Da
    by (destruct F1 as [_ F]; apply F).
  rewrite Da.
  set (st2 := capture_display panel (display_attrs (tool w)) st1).
  assert (status_only w (snd st2)) as F2.
  { eapply status_only_trans; [exact F1 | apply capture_display_frame]. }
  set (st3 := capture_background st2).
  assert (status_only w (snd st3)) as F3.
  { eapply status_only_trans; [exact F2|]. apply try_assign_warn_frame. }
  destruct (ensure_globals (snd st3)) as [[[]|e] w4] eqn:G; [|discriminate].
  assert (hw2_attrs (tool w4) = hw2_attrs (tool w)) as Ha.
  { apply ensure_globals_frame in G.
    destruct (status_only_trans _ _ _ F3 G) as [_ F]. apply F. }
  rewrite Ha. intros H. inversion H; subst.
  exists cam, st1, st2, st3, w4.
  split; [reflexivity|]. split; [reflexivity|]. split; [reflexivity|].
  split; [reflexivity|]. split; [exact G|]. split; reflexivity.
Qed.

(** X6.  A capture for a panel that is not None and not empty returns a
    snapshot whenever the camera query answers and createNode, where it is
    needed, succeeds.  No other failure of the session stops it: a field
    whose query raises is reported in the status label and left out.  The
    snapshot is a dict with the eight keys of the schema, and the call
    leaves the disk and the instance as they were, the status label
    apart. *)
Theorem capture_settings_survives (w : world) (panel cam : value) :
  py_bool panel = true ->
  cmds_modelEditor_query (maya w) panel "camera" = Ok cam ->
  (forall sc, cmds_objExists sc "hardwareRenderingGlobals" = false ->
              is_ok (cmds_createNode sc "hardwareRenderingGlobals") = true) ->
  exists d w',
    capture_settings panel w = (Ok (VDict d), w')
    /\ map fst d = captured_keys
    /\ status_only w w'.
Proof.
  intros Hp Hc Hn.
  destruct (capture_settings_returns w panel cam Hp Hc Hn) as (s & w' & E).
  destruct (capture_settings_shape _ _ _ _ Hp E) as (d & -> & K & _).
  exists d, w'. split; [exact E|]. split; [exact K|].
  exact (capture_settings_frame _ _ _ _ E).
Qed.

(** X7.  The camera sections of a captured snapshot hold what the camera
    queries answer in the scene the capture starts in.  Each try block
    stores its values in order up to the first query that raises:
    camera_gate holds displayFilmGate, displayResolution and overscan up
    to there, camera_mask displayGateMask, camera_filmfit filmFit.  When
    the panel has no camera the three sections are empty. *)
Theorem captured_camera_sections (w w' : world) (panel cam : value) (d : dict) :
  capture_settings panel w = (Ok (VDict d), w') ->
  cmds_modelEditor_query (maya w) panel "camera" = Ok cam ->
  dict_get "camera_gate" d
  = Some (VDict (if py_bool cam
                 then try_store (camera_gate_reads (maya w) cam) []
                 else []))
  /\ dict_get "camera_mask" d
     = Some (VDict (if py_bool cam
                    then try_store (camera_mask_reads (maya w) cam) []
                    else []))
  /\ dict_get "camera_filmfit" d
     = Some (VDict (if py_bool cam
                    then try_store (camera_filmfit_reads (maya w) cam) []
                    else [])).
Proof.
  intros H Hc.
  destruct (capture_settings_stages _ _ _ _ H)
    as (cam' & st1 & st2 & st3 & w4 & Hc' & E1 & E2 & E3 & _ & -> & _).
  rewrite Hc in Hc'. inversion Hc'; subst cam'; clear Hc'.
  assert (forall sec, sec <> "display" -> sec <> "background" ->
                      sec <> "hardware2" ->
                      dict_get sec (fst (capture_hw2 (hw2_attrs (tool w)) (fst st3, w4)))
                      = dict_get sec (fst st1)) as Back.
  { intros sec N1 N2 N3. rewrite capture_hw2_other by exact N3. simpl.
    rewrite E3, capture_background_other by exact N2.
    rewrite E2. apply capture_display_other. exact N1. }
  rewrite !Back by discriminate. rewrite E1.
  destruct (py_bool cam); [|repeat split; reflexivity].
  rewrite capture_camera_sections.
  split; [|split].
  - rewrite !try_assign_other by discriminate.
    apply try_assign_same. reflexivity.
  - rewrite try_assign_other by discriminate.
    apply try_assign_same.
    rewrite try_assign_other by discriminate. reflexivity.
  - apply try_assign_same.
    rewrite !try_assign_other by discriminate. reflexivity.
Qed.

(** X8.  The background section of a captured snapshot holds gradient,
    color, topColor and bottomColor, in this order, as the session
    answers them in one scene, up to the first of the four queries that
    raises: a failure of one leaves the later ones out and keeps the
    earlier ones. *)
Theorem captured_background_section (w w' : world) (panel : value) (d : dict) :
  capture_settings panel w = (Ok (VDict d), w') ->
  exists sc n,
    dict_get "background" d = Some (VDict (try_store (background_reads sc) []))
    /\ map fst (try_store (background_reads sc) [])
       = firstn n ["gradient"; "color"; "topColor"; "bottomColor"].
Proof.
  intros H.
  destruct (capture_settings_stages _ _ _ _ H)
    as (cam & st1 & st2 & st3 & w4 & Hc & E1 & E2 & E3 & _ & -> & _).
  exists (maya (snd st2)).
  assert (dict_get "background" (fst st2) = Some (VDict [])) as B2.
  { rewrite E2, capture_display_other by discriminate. rewrite E1.
    destruct (py_bool cam); [|reflexivity].
    rewrite capture_camera_other by discriminate. reflexivity. }
  assert (exists n, map fst (try_store (background_reads (maya (snd st2))) [])
                    = firstn n ["gradient"; "color"; "topColor"; "bottomColor"])
    as [n Hn].
  { unfold background_reads.
    destruct (cmds_displayPref_query _ _); [|exists 0%nat; reflexivity].
    destruct (cmds_displayRGBColor_query _ "background");
      [|exists 1%nat; reflexivity].
    destruct (cmds_displayRGBColor_query _ "backgroundTop");
      [|exists 2%nat; reflexivity].
    destruct (cmds_displayRGBColor_query _ "backgroundBottom");
      [exists 4%nat | exists 3%nat]; reflexivity. }
  exists n. split; [|exact Hn].
  rewrite capture_hw2_other by discriminate. simpl fst.
  rewrite E3. unfold capture_background. rewrite try_assign_warn_fst.
  apply try_assign_same. exact B2.
Qed.

Lemma dict_set_keys_incl (k : string) (v : value) (d : dict) :
  incl (map fst (dict_set k v d)) (k :: map fst d).
Proof.
  induction d as [|[k' v'] d IH]; simpl.
  - apply incl_refl.
  - destruct (String.eqb k k'); simpl.
    + apply incl_tl. apply incl_refl.
    + intros x [<-|Hx]; [right; left; reflexivity|].
      destruct (IH x Hx) as [<-|Hx']; [left; reflexivity | right; right; exact Hx'].
Qed.

Lemma capture_display_keys p attrs : forall (st : dict * world) (sd : dict) (allowed : list string),
  dict_get "display" (fst st) = Some (VDict sd) ->
  incl (map fst sd) allowed ->
  incl attrs allowed ->
  exists sd', dict_get "display" (fst (capture_display p attrs st)) = Some (VDict sd')
              /\ incl (map fst sd') allowed.
Proof.
  unfold capture_display.
  induction attrs as [|a rest IH]; intros st sd allowed Hd Hs Ha; simpl.
  - eauto.
  - assert (In a allowed) as Hin by (apply Ha; left; reflexivity).
    assert (incl rest allowed) as Hr by (intros x Hx; apply Ha; right; exact Hx).
    assert (forall v, incl (map fst (dict_set a v sd)) allowed) as Hset.
    { intros v x Hx. destruct (dict_set_keys_incl a v sd x Hx) as [<-|Hx'];
        [exact Hin | exact (Hs x Hx')]. }
    assert (forall v v', incl (map fst (dict_set a v' (dict_set a v sd))) allowed)
      as Hset2.
    { intros v v' x Hx. destruct (dict_set_keys_incl a v' _ x Hx) as [<-|Hx'];
        [exact Hin | exact (Hset v x Hx')]. }
    unfold capture_display_attr at 2.
    destruct (cmds_modelEditor_query _ p a) as [val|e].
    + destruct (String.eqb a "hwFog").
      * destruct (bindM _ _ _) as [[u|e] w1].
        -- eapply IH; [|apply (Hset2 val val)|exact Hr]. simpl.
           apply section_set_same. apply section_set_same. exact Hd.
        -- eapply IH; [|apply (Hset val)|exact Hr]. simpl.
           apply section_set_same. exact Hd.
      * eapply IH; [|apply (Hset val)|exact Hr]. simpl.
        apply section_set_same. exact Hd.
    + eapply IH; [|exact Hs|exact Hr]. simpl. exact Hd.
Qed.

(** What the loop over hw2_attrs leaves in the hardware2 section, for
    attribute names that are all different. *)
Lemma capture_hw2_content attrs : forall (st : dict * world) (hw0 : dict),
  dict_get "hardware2" (fst st) = Some (VDict hw0) ->
  List.NoDup (map fst attrs) ->
  maya (snd (capture_hw2 attrs st)) = maya (snd st)
  /\ exists hw,
       dict_get "hardware2" (fst (capture_hw2 attrs st)) = Some (VDict hw)
       /\ (forall a ty, In (a, ty) attrs ->
             dict_get a hw = match hw2_read (maya (snd st)) a ty with
                             | Ok v => Some v
                             | Raise _ => dict_get a hw0
                             end)
       /\ (forall a, ~ In a (map fst attrs) -> dict_get a hw = dict_get a hw0).
Proof.
  unfold capture_hw2.
  induction attrs as [|[a ty] rest IH]; intros st hw0 Hd ND; simpl.
  - split; [reflexivity|]. exists hw0. split; [exact Hd|].
    split; [intros ? ? [] | reflexivity].
  - inversion ND as [|? ? Hnot ND']; subst.
    set (st1 := capture_hw2_attr a ty st).
    assert (maya (snd st1) = maya (snd st)) as M1
      by (apply try_assign_warn_frame).
    assert (dict_get "hardware2" (fst st1)
            = Some (VDict (match hw2_read (maya (snd st)) a ty with
                           | Ok v => dict_set a v hw0
                           | Raise _ => hw0
                           end))) as D1.
    { unfold st1, capture_hw2_attr. rewrite try_assign_warn_fst.
      rewrite (try_assign_same "hardware2" _ _ hw0 Hd). unfold hw2_read.
      simpl. destruct (if is_float3 ty then _ else _); reflexivity. }
    destruct (IH st1 _ D1 ND') as (M & hw & Hhw & Hin & Hout).
    split; [rewrite M; exact M1|].
    exists hw. split; [exact Hhw|]. split.
    + intros a' ty' [E|E].
      * inversion E; subst a' ty'. rewrite (Hout a Hnot).
        destruct (hw2_read (maya (snd st)) a ty);
          [apply dict_get_set_eq | reflexivity].
      * assert (a <> a') as Ne.
        { intros ->. apply Hnot. apply (in_map fst) in E. exact E. }
        rewrite (Hin a' ty' E), M1.
        destruct (hw2_read (maya (snd st)) a' ty'); [reflexivity|].
        destruct (hw2_read (maya (snd st)) a ty); [|reflexivity].
        apply dict_get_set_ne. exact Ne.
    + intros a' Hn.
      assert (a <> a') as Ne by (intros ->; apply Hn; left; reflexivity).
      rewrite Hout by (intros Hx; apply Hn; right; exact Hx).
      destruct (hw2_read (maya (snd st)) a ty); [|reflexivity].
      apply dict_get_set_ne. exact Ne.
Qed.

(** X9.  The hardware2 section of a captured snapshot holds, for each
    attribute of hw2_attrs, what getAttr answers for it in the scene the
    capture leaves (for a float3 attribute, the first element of the
    answer), and it holds no entry for an attribute whose read raises and
    no key outside hw2_attrs.  The attribute names are all different, as
    the keys of a dict are. *)
Theorem captured_hardware_section (w w' : world) (panel : value) (d : dict) :
  capture_settings panel w = (Ok (VDict d), w') ->
  List.NoDup (map fst (hw2_attrs (tool w))) ->
  exists hw,
    dict_get "hardware2" d = Some (VDict hw)
    /\ (forall attr ty, In (attr, ty) (hw2_attrs (tool w)) ->
          dict_get attr hw = match hw2_read (maya w') attr ty with
                             | Ok v => Some v
                             | Raise _ => None
                             end)
    /\ (forall attr, ~ In attr (map fst (hw2_attrs (tool w))) ->
          dict_get attr hw = None).
Proof.
  intros H ND.
  destruct (capture_settings_stages _ _ _ _ H)
    as (cam & st1 & st2 & st3 & w4 & Hc & E1 & E2 & E3 & _ & -> & ->).
  assert (dict_get "hardware2" (fst st3) = Some (VDict [])) as B3.
  { rewrite E3, capture_background_other by discriminate.
    rewrite E2, capture_display_other by discriminate. rewrite E1.
    destruct (py_bool cam); [|reflexivity].
    rewrite capture_camera_other by discriminate. reflexivity. }
  destruct (capture_hw2_content (hw2_attrs (tool w)) (fst st3, w4) [] B3 ND)
    as (M & hw & Hhw & Hin & Hout).
  exists hw. split; [exact Hhw|]. rewrite M. simpl snd. split.
  - intros attr ty Hi. rewrite (Hin attr ty Hi). reflexivity.
  - intros attr Hn. rewrite (Hout attr Hn). reflexivity.
Qed.

(** X10.  Every key of the display section of a captured snapshot is one
    of the display attributes of the instance: capture stores nothing
    under a name outside the list. *)
Theorem captured_display_keys (w w' : world) (panel : value) (d : dict) :
  capture_settings panel w = (Ok (VDict d), w') ->
  exists display,
    dict_get "display" d = Some (VDict display)
    /\ incl (map fst display) (display_attrs (tool w)).
Proof.
  intros H.
  destruct (capture_settings_stages _ _ _ _ H)
    as (cam & st1 & st2 & st3 & w4 & Hc & E1 & E2 & E3 & _ & -> & _).
  assert (dict_get "display" (fst st1) = Some (VDict [])) as B1.
  { rewrite E1. destruct (py_bool cam); [|reflexivity].
    unfold capture_camera. cbv zeta. rewrite !try_assign_warn_fst.
    rewrite !try_assign_other by discriminate. reflexivity. }
  destruct (capture_display_keys panel (display_attrs (tool w)) st1 []
              (display_attrs (tool w)) B1)
    as (sd & Hsd & Hincl).
  { intros x []. }
  { apply incl_refl. }
  exists sd. split; [|exact Hincl].
  rewrite capture_hw2_other by discriminate. simpl fst.
  rewrite E3, capture_background_other by discriminate.
  rewrite E2. exact Hsd.
Qed.

End CaptureCoverage.

(** ** The active viewport and capture_viewport *)

Section ViewportCoverage.

Context {PR : PyRuntime} {MH : MayaHost}.

Lemma first_visible_spec (sc : scene) (panels : list value) (p : value) :
  first_visible sc panels = Ok p ->
  (exists pre post v,
      panels = pre ++ p :: post
      /\ Forall (not_visible sc) pre
      /\ cmds_modelEditor_query sc p "visible" = Ok v /\ py_bool v = true)
  \/ (p = VNone /\ Forall (not_visible sc) panels).
Proof.
  revert p. induction panels as [|x rest IH]; intros p H; simpl in H.
  - inversion H. right. split; [reflexivity | constructor].
  - apply bind_ok in H. destruct H as (v & Hv & H).
    destruct (py_bool v) eqn:B.
    + inversion H; subst x. left. exists [], rest, v.
      split; [reflexivity|]. split; [constructor|]. split; assumption.
    + assert (not_visible sc x) as Nx by (exists v; split; assumption).
      destruct (IH p H) as [(pre & post & v' & -> & F & Q & T)|[-> F]].
      * left. exists (x :: pre), post, v'. split; [reflexivity|].
        split; [constructor; assumption|]. split; assumption.
      * right. split; [reflexivity | constructor; assumption].
Qed.

(** X11.  get_active_viewport returns the panel with focus when there is
    one and it is a model panel.  Whenever it returns, what it returns is
    that panel; or else, the panel with focus being empty or of another
    type, it is the first panel of the model panel list whose visible
    flag is true, every panel before it having been asked and found not
    visible, and None when no panel of the list is visible. *)
Theorem get_active_viewport_choice (w : world) :
  (py_bool (cmds_getPanel_withFocus (maya w)) = true ->
   cmds_getPanel_typeOf (maya w) (cmds_getPanel_withFocus (maya w))
   = Ok (VStr "modelPanel") ->
   fst (get_active_viewport w) = Ok (cmds_getPanel_withFocus (maya w)))
  /\ (forall p : value,
        fst (get_active_viewport w) = Ok p ->
        (py_bool (cmds_getPanel_withFocus (maya w)) = true
         /\ cmds_getPanel_typeOf (maya w) (cmds_getPanel_withFocus (maya w))
            = Ok (VStr "modelPanel")
         /\ p = cmds_getPanel_withFocus (maya w))
        \/ ((py_bool (cmds_getPanel_withFocus (maya w)) = false
             \/ exists t,
                  cmds_getPanel_typeOf (maya w)
                    (cmds_getPanel_withFocus (maya w)) = Ok t
                  /\ t <> VStr "modelPanel")
            /\ exists panels,
                 cmds_getPanel_modelPanels (maya w) = Ok panels
                 /\ ((exists pre post v,
                         panels = pre ++ p :: post
                         /\ Forall (not_visible (maya w)) pre
                         /\ cmds_modelEditor_query (maya w) p "visible" = Ok v
                         /\ py_bool v = true)
                     \/ (p = VNone
                         /\ Forall (not_visible (maya w)) panels)))).
Proof.
  unfold get_active_viewport. cbv zeta. simpl fst. split.
  - intros B T. rewrite B, T. reflexivity.
  - intros p H.
    apply bind_ok in H. destruct H as (ok & Hok & H).
    destruct (py_bool (cmds_getPanel_withFocus (maya w))) eqn:B.
    + apply bind_ok in Hok. destruct Hok as (t & Ht & Hok).
      inversion Hok as [Hs]. destruct ok.
      * inversion H; subst p. left.
        destruct t; try discriminate. simpl in Hs.
        apply String.eqb_eq in Hs. subst. auto.
      * right. split.
        { right. exists t. split; [exact Ht|]. intros ->.
          simpl in Hs. discriminate. }
        apply bind_ok in H. destruct H as (panels & Hp & H).
        exists panels. split; [exact Hp|]. apply first_visible_spec. exact H.
    + inversion Hok; subst ok. right. split; [left; reflexivity|].
      apply bind_ok in H. destruct H as (panels & Hp & H).
      exists panels. split; [exact Hp|]. apply first_visible_spec. exact H.
Qed.

(** X12.  ensure_viewport_20 raises only what the query of the renderer
    name raises, and then changes nothing.  Otherwise it returns: when the
    panel already renders with vp2Renderer it does no edit and only
    refreshes; a switch that fails is reported in the status label and not
    raised.  In every case the disk and the rest of the instance stay as
    they were. *)
Theorem ensure_viewport_20_outcome (panel : value) (w : world) :
  match cmds_modelEditor_query (maya w) panel "rendererName" with
  | Raise e => ensure_viewport_20 panel w = (Raise e, w)
  | Ok current =>
      exists w',
        ensure_viewport_20 panel w = (Ok tt, w')
        /\ status_only w w'
        /\ (is_str "vp2Renderer" current = true ->
            w' = with_maya w (cmds_refresh (maya w)))
        /\ (is_str "vp2Renderer" current = false ->
            match cmds_modelEditor_rendererName (maya w) panel "vp2Renderer" with
            | Ok sc => w' = with_maya w (cmds_refresh sc)
            | Raise _ =>
                maya w' = cmds_refresh (maya w)
                /\ status_label (tool w')
                   = "Status: Warning: Could not set Viewport 2.0 renderer"
            end)
  end.
Proof.
  unfold ensure_viewport_20, bindM, try_except, edit_scene, set_status, modify, ret.
  destruct (cmds_modelEditor_query (maya w) panel "rendererName") as [cur|e];
    [|reflexivity].
  destruct (is_str "vp2Renderer" cur) eqn:S.
  - eexists. split; [reflexivity|]. split.
    + split; [reflexivity | apply same_but_status_refl].
    + split; [reflexivity | discriminate].
  - destruct (cmds_modelEditor_rendererName (maya w) panel "vp2Renderer")
      as [sc|e] eqn:R.
    + eexists. split; [reflexivity|]. split.
      * split; [reflexivity | apply same_but_status_refl].
      * split; [discriminate | reflexivity].
    + eexists. split; [reflexivity|]. split.
      * split; [reflexivity | repeat split].
      * split; [discriminate|]. intros _. split; reflexivity.
Qed.

Lemma ensure_viewport_20_frame (panel : value) (w w' : world) (r : result unit) :
  ensure_viewport_20 panel w = (r, w') -> status_only w w'.
Proof.
  unfold ensure_viewport_20, bindM, try_except, edit_scene, set_status, modify, ret.
  destruct (cmds_modelEditor_query _ _ _);
    [|intros H; inversion H; apply status_only_refl].
  destruct (is_str _ _).
  - intros H; inversion H. split; [reflexivity | apply same_but_status_refl].
  - destruct (cmds_modelEditor_rendererName _ _ _); intros H; inversion H;
      (split; [reflexivity | repeat split]).
Qed.

(** X13.  A capture_viewport that returns has done one of two things.
    When no viewport is active it has set the status label to the message
    saying so and nothing else.  Otherwise it has stored the snapshot
    capture_settings returned for the active panel, put the script
    settings_to_mel writes for that snapshot into the script field and
    named the panel in the status label.  It never reports a failed
    capture, and it never touches the disk. *)
Theorem capture_viewport_outcome (w w' : world) :
  capture_viewport w = (Ok tt, w') ->
  disk w' = disk w
  /\ ((tool w' = update_status (tool w) "No active viewport found"
       /\ maya w' = maya w)
      \/ exists panel wa wb,
           py_bool panel = true
           /\ fst (get_active_viewport w) = Ok panel
           /\ capture_settings panel wa
              = (Ok (last_captured_settings (tool w')), wb)
           /\ settings_to_mel (tool w') (last_captured_settings (tool w'))
              = Ok (result_field (tool w'))
           /\ status_label (tool w')
              = "Status: Settings captured from " +:+ py_str panel).
Proof.
  unfold capture_viewport, bindM.
  destruct (get_active_viewport w) as [[panel|e] w1] eqn:V; [|discriminate].
  assert (w1 = w) as ->
    by (unfold get_active_viewport in V; inversion V; reflexivity).
  destruct (py_bool panel) eqn:Hp; cbv beta iota delta [negb].
  2:{ unfold set_status, modify. intros H. inversion H; subst w'.
      split; [reflexivity|]. left. split; reflexivity. }
  destruct (ensure_viewport_20 panel w) as [[u|e] w2] eqn:EV; [|discriminate].
  apply ensure_viewport_20_frame in EV.
  destruct (capture_settings panel w2) as [[s|e] w3] eqn:CS; [|discriminate].
  pose proof (capture_settings_frame _ _ _ _ CS) as F3.
  destruct (capture_settings_shape _ _ _ _ Hp CS) as (d & -> & K & _).
  assert (py_bool (VDict d) = true) as ->
    by (destruct d; [discriminate | reflexivity]).
  unfold modify, set_status.
  destruct (settings_to_mel _ (VDict d)) as [mel|e] eqn:Hm; [|discriminate].
  intros H. inversion H; subst w'. simpl.
  split.
  { destruct EV as [D2 _]. destruct F3 as [D3 _]. congruence. }
  right. exists panel, w2, w3.
  split; [exact Hp|]. split; [reflexivity|]. split; [exact CS|].
  split; [exact Hm | reflexivity].
Qed.

End ViewportCoverage.

(** ** The preset store: what a call can change *)

Section PresetCoverage.

Context {PR : PyRuntime} {OS : OSLayer} {MH : MayaHost}.

Lemma get_preset_dir_world (w : world) :
  get_preset_dir w = (Ok (preset_dir_of w), with_disk w (disk_with_preset_dir w)).
Proof.
  destruct (get_preset_dir_spec w) as (w' & E & Ht & Hm & Hd).
  rewrite E. destruct w' as [t d m]. simpl in *. subst. reflexivity.
Qed.

Lemma disk_with_preset_dir_other (w : world) (p : string) :
  p <> preset_dir_of w -> disk_with_preset_dir w !! p = disk w !! p.
Proof.
  intros N. unfold disk_with_preset_dir.
  destruct (os_path_exists (disk w) (preset_dir_of w)); [reflexivity|].
  apply lookup_insert_ne. congruence.
Qed.

(** refresh_preset_list leaves the world as get_preset_dir left it, the
    items of the list apart. *)
Lemma refresh_preset_list_world (w : world) :
  exists r items,
    refresh_preset_list w
    = (r, with_tool (with_disk w (disk_with_preset_dir w))
            (set_preset_list (tool w) items)).
Proof.
  unfold refresh_preset_list, bindM, modify, read, ret.
  set (w1 := with_tool w (set_preset_list (tool w) [])).
  rewrite (get_preset_dir_world w1).
  assert (preset_dir_of w1 = preset_dir_of w) as Hp by reflexivity.
  assert (disk_with_preset_dir w1 = disk_with_preset_dir w) as Hq by reflexivity.
  cbv beta iota.
  change (disk (with_disk w1 (disk_with_preset_dir w1)))
    with (disk_with_preset_dir w1).
  rewrite Hq, Hp, preset_dir_exists. unfold with_disk, with_tool. simpl.
  destruct (os_listdir (disk_with_preset_dir w) (preset_dir_of w)) as [entries|e].
  - destruct (preset_names entries) as [|n0 rest].
    + exists (Ok tt), []. reflexivity.
    + eexists (Ok tt), _. reflexivity.
  - exists (Raise e), []. reflexivity.
Qed.


(** What save_preset leaves, whatever the user answers. *)
Lemma save_preset_effect (button name confirm : string) (w : world) :
  exists w',
    save_preset button name confirm w = (Ok tt, w')
    /\ last_captured_settings (tool w') = last_captured_settings (tool w)
    /\ maya w' = maya w
    /\ result_field (tool w') = result_field (tool w)
    /\ gpu_cache_enabled (tool w') = gpu_cache_enabled (tool w)
    /\ gpu_checkbox (tool w') = gpu_checkbox (tool w)
    /\ custom_preset_path (tool w') = custom_preset_path (tool w)
    /\ (forall p, p <> preset_dir_of w -> p <> preset_path_of w name ->
                  disk w' !! p = disk w !! p)
    /\ (py_bool (last_captured_settings (tool w)) = false
        \/ button <> "Save" \/ name = EmptyString ->
        disk w' = disk w /\ preset_list (tool w') = preset_list (tool w)).
Proof.
  unfold save_preset, bindM, read, set_status, modify, ret. cbv beta iota.
  destruct (py_bool (last_captured_settings (tool w))) eqn:Hs;
    cbv beta iota delta [negb].
  2:{ eexists. split; [reflexivity|]. simpl. repeat split; reflexivity. }
  destruct (String.eqb button "Save") eqn:Hb.
  2:{ eexists. split; [reflexivity|]. repeat split; reflexivity. }
  destruct (String.eqb name EmptyString) eqn:Hn; cbv beta iota delta [negb].
  { eexists. split; [reflexivity|]. repeat split; reflexivity. }
  assert (~ (true = false \/ button <> "Save" \/ name = EmptyString)) as No.
  { apply String.eqb_eq in Hb. apply String.eqb_neq in Hn.
    intros [H|[H|H]]; [discriminate | contradiction | contradiction]. }
  rewrite (get_preset_dir_world w). cbv beta iota. fold (preset_path_of w name).
  change (disk (with_disk w (disk_with_preset_dir w)))
    with (disk_with_preset_dir w).
  destruct (os_path_exists (disk_with_preset_dir w) (preset_path_of w name)
            && String.eqb confirm "No")%bool.
  { eexists. split; [reflexivity|]. simpl.
    repeat split; try reflexivity; try contradiction.
    intros p N _. apply disk_with_preset_dir_other. exact N. }
  unfold try_except, bindM, read, edit_disk, write_json, set_status, modify.
  cbv beta iota.
  change (disk (with_disk w (disk_with_preset_dir w)))
    with (disk_with_preset_dir w).
  assert (forall (x : option node) (p : string),
            p <> preset_dir_of w -> p <> preset_path_of w name ->
            <[preset_path_of w name := File (Some (json_dump (last_captured_settings (tool w))))]>
              (disk_with_preset_dir w) !! p = disk w !! p) as Other.
  { intros _ p N1 N2. rewrite lookup_insert_ne by congruence.
    apply disk_with_preset_dir_other. exact N1. }
  destruct (disk_with_preset_dir w !! preset_path_of w name) as [[|data]|] eqn:L.
  - eexists. split; [reflexivity|]. simpl.
    repeat split; try reflexivity; try contradiction.
    intros p N _. apply disk_with_preset_dir_other. exact N.
  - match goal with
    | |- context [refresh_preset_list ?x] =>
        destruct (refresh_preset_list_world x) as (r & items & R);
        pose proof (disk_with_preset_dir_other x) as DO;
        assert (preset_dir_of x = preset_dir_of w) as PD
    end.
    { unfold preset_dir_of. simpl.
      rewrite resolve_dir_insert_file by (rewrite L; discriminate).
      apply resolve_dir_made. }
    rewrite R.
    destruct r as [[]|e]; (eexists; split; [reflexivity|]); simpl;
      (repeat split; try reflexivity; try contradiction);
      intros p N1 N2; (rewrite DO by (rewrite PD; exact N1)); simpl;
      apply (Other None); assumption.
  - match goal with
    | |- context [refresh_preset_list ?x] =>
        destruct (refresh_preset_list_world x) as (r & items & R);
        pose proof (disk_with_preset_dir_other x) as DO;
        assert (preset_dir_of x = preset_dir_of w) as PD
    end.
    { unfold preset_dir_of. simpl.
      rewrite resolve_dir_insert_file by (rewrite L; discriminate).
      apply resolve_dir_made. }
    rewrite R.
    destruct r as [[]|e]; (eexists; split; [reflexivity|]); simpl;
      (repeat split; try reflexivity; try contradiction);
      intros p N1 N2; (rewrite DO by (rewrite PD; exact N1)); simpl;
      apply (Other None); assumption.
Qed.

(** The disk save_preset leaves: the one it found, the same with the
    preset directory made, or that with the dump of the current snapshot
    in the file of the name. *)
Lemma save_preset_disk (button name confirm : string) (w : world) :
  disk (snd (save_preset button name confirm w)) = disk w
  \/ disk (snd (save_preset button name confirm w)) = disk_with_preset_dir w
  \/ disk (snd (save_preset button name confirm w))
     = <[preset_path_of w name :=
           File (Some (json_dump (last_captured_settings (tool w))))]>
         (disk_with_preset_dir w).
Proof.
  unfold save_preset, bindM, read, set_status, modify, ret. cbv beta iota.
  destruct (py_bool (last_captured_settings (tool w)));
    cbv beta iota delta [negb]; [|left; reflexivity].
  destruct (String.eqb button "Save"); [|left; reflexivity].
  destruct (String.eqb name EmptyString); cbv beta iota delta [negb];
    [left; reflexivity|].
  rewrite (get_preset_dir_world w). cbv beta iota. fold (preset_path_of w name).
  change (disk (with_disk w (disk_with_preset_dir w)))
    with (disk_with_preset_dir w).
  destruct (os_path_exists (disk_with_preset_dir w) (preset_path_of w name)
            && String.eqb confirm "No")%bool; [right; left; reflexivity|].
  unfold try_except, bindM, read, edit_disk, write_json, set_status, modify.
  cbv beta iota.
  change (disk (with_disk w (disk_with_preset_dir w)))
    with (disk_with_preset_dir w).
  destruct (disk_with_preset_dir w !! preset_path_of w name) as [[|data]|] eqn:L;
    [right; left; reflexivity | |];
    right; right;
    match goal with
    | |- context [refresh_preset_list ?x] =>
        destruct (refresh_preset_list_world x) as (r & items & R);
        assert (disk_with_preset_dir x = disk x) as Hid
    end;
    try (apply disk_with_preset_dir_id; unfold preset_dir_of; simpl;
         rewrite resolve_dir_insert_file by (rewrite L; discriminate);
         rewrite resolve_dir_made;
         apply exists_insert; apply preset_dir_exists);
    rewrite R; destruct r as [[]|e]; simpl; exact Hid.
Qed.

(** X15.  With the preset directory in place, save_preset never raises: a
    write that fails is reported in the status label.  Whatever the user
    answers, it leaves the current snapshot, the session, the script
    field, the GPU cache flag and the check box as they were, and the disk
    either as it was or with the dump of the current snapshot in the file
    of the name given and nothing else changed.  When there is no
    snapshot, the prompt is not answered with Save or the name is empty,
    the disk and the list of presets stay as they were. *)
Theorem save_preset_keeps_snapshot (button name confirm : string) (w : world) :
  os_path_exists (disk w) (preset_dir_of w) = true ->
  exists w',
    save_preset button name confirm w = (Ok tt, w')
    /\ last_captured_settings (tool w') = last_captured_settings (tool w)
    /\ maya w' = maya w
    /\ result_field (tool w') = result_field (tool w)
    /\ gpu_cache_enabled (tool w') = gpu_cache_enabled (tool w)
    /\ gpu_checkbox (tool w') = gpu_checkbox (tool w)
    /\ custom_preset_path (tool w') = custom_preset_path (tool w)
    /\ (disk w' = disk w
        \/ disk w'
           = <[preset_path_of w name :=
                 File (Some (json_dump (last_captured_settings (tool w))))]>
               (disk w))
    /\ (py_bool (last_captured_settings (tool w)) = false
        \/ button <> "Save" \/ name = EmptyString ->
        disk w' = disk w /\ preset_list (tool w') = preset_list (tool w)).
Proof.
  intros Hdir.
  destruct (save_preset_effect button name confirm w)
    as (w' & E & H1 & H2 & H3 & H4 & H5 & H6 & _ & H8).
  pose proof (save_preset_disk button name confirm w) as D.
  rewrite E in D. simpl in D.
  rewrite (disk_with_preset_dir_id w Hdir) in D.
  exists w'. repeat (split; [assumption|]).
  split; [|exact H8].
  destruct D as [D|[D|D]]; [left | left | right]; exact D.
Qed.

End PresetCoverage.

(** ** Loading: failures, the GPU cache flag, and saving again *)

Section LoadCoverage.

Context {PR : PyRuntime} {OS : OSLayer} {MH : MayaHost}.

(** What a load leaves, by what it reads: the snapshot, the flag it
    holds, and what the check box makes of the flag. *)
Lemma load_preset_cases (w : world) (name : string) (rest : list string) :
  match read_json (disk_with_preset_dir w) (preset_path_of w name) with
  | Raise e =>
      load_preset (Some (name :: rest)) w
      = (Ok tt,
         with_tool (with_disk w (disk_with_preset_dir w))
           (update_status (tool w) ("Error loading preset: " +:+ exn_str e)))
  | Ok s =>
      exists w',
        load_preset (Some (name :: rest)) w = (Ok tt, w')
        /\ last_captured_settings (tool w') = s
        /\ disk w' = disk_with_preset_dir w
        /\ preset_list (tool w') = preset_list (tool w)
        /\ custom_preset_path (tool w') = custom_preset_path (tool w)
        /\ match stored_gpu_flag s with
           | Ok g =>
               gpu_cache_enabled (tool w') = g
               /\ match checkbox_shows g with
                  | Ok b => gpu_checkbox (tool w') = VBool b
                  | Raise e =>
                      gpu_checkbox (tool w') = gpu_checkbox (tool w)
                      /\ result_field (tool w') = result_field (tool w)
                      /\ maya w' = maya w
                      /\ status_label (tool w')
                         = "Status: Error loading preset: " +:+ exn_str e
                  end
           | Raise _ =>
               gpu_cache_enabled (tool w') = gpu_cache_enabled (tool w)
               /\ gpu_checkbox (tool w') = gpu_checkbox (tool w)
               /\ result_field (tool w') = result_field (tool w)
               /\ maya w' = maya w
           end
  end.
Proof.
  unfold load_preset, bindM. rewrite (get_preset_dir_world w).
  cbv beta iota. fold (preset_path_of w name).
  unfold try_except, bindM, modify, lift, set_status, edit_scene, read.
  cbv beta iota.
  change (disk (with_disk w (disk_with_preset_dir w)))
    with (disk_with_preset_dir w).
  destruct (read_json (disk_with_preset_dir w) (preset_path_of w name))
    as [s|e]; [|reflexivity].
  unfold stored_gpu_flag.
  destruct (let* pd := py_get s "plugin_display" (VDict []) in
            py_get pd "gpuCache" (VBool false)) as [gpu|e].
  2:{ eexists. split; [reflexivity|]. simpl. repeat split; reflexivity. }
  cbv beta iota. unfold checkbox_edit.
  match goal with |- context [checkbox_shows ?x] => change x with gpu end.
  destruct (checkbox_shows gpu) as [b|e].
  2:{ eexists. split; [reflexivity|]. simpl. repeat split; reflexivity. }
  cbv beta iota.
  destruct (settings_to_mel _ s) as [mel_code|e].
  2:{ eexists. split; [reflexivity|]. simpl. repeat split; reflexivity. }
  cbv beta iota.
  destruct (mel_eval _ mel_code) as [sc|e];
    (eexists; split; [reflexivity|]; simpl; repeat split; reflexivity).
Qed.

(** X16.  With the preset directory in place, load_preset never raises:
    whatever goes wrong, a check box edit the host refuses included, is
    reported in the status label.  It leaves the disk and the list of
    presets as they were. *)
Theorem load_preset_never_raises (selected : option (list string)) (w : world) :
  os_path_exists (disk w) (preset_dir_of w) = true ->
  exists w',
    load_preset selected w = (Ok tt, w')
    /\ disk w' = disk w
    /\ preset_list (tool w') = preset_list (tool w)
    /\ custom_preset_path (tool w') = custom_preset_path (tool w).
Proof.
  intros Hdir. pose proof (disk_with_preset_dir_id w Hdir) as Hid.
  destruct selected as [[|name rest]|].
  - eexists. split; [reflexivity|]. repeat split; reflexivity.
  - pose proof (load_preset_cases w name rest) as C.
    destruct (read_json _ _) as [s|e].
    + destruct C as (w' & E & _ & D & P & K & _).
      exists w'. split; [exact E|]. split; [congruence|].
      split; [exact P | exact K].
    + eexists. split; [exact C|]. simpl. split; [exact Hid|].
      split; reflexivity.
  - eexists. split; [reflexivity|]. repeat split; reflexivity.
Qed.

(** X17.  With the preset directory in place, loading a preset whose file
    is missing, is a directory or does not hold a JSON document changes
    nothing but the status label, which reports the error: the disk, the
    current snapshot, the GPU cache flag, the check box, the script field
    and the session stay as they were, and no MEL is evaluated. *)
Theorem load_preset_unreadable (w : world) (name : string) (rest : list string) :
  os_path_exists (disk w) (preset_dir_of w) = true ->
  (forall j, disk w !! preset_path_of w name <> Some (File (Some j))) ->
  exists e,
    read_json (disk w) (preset_path_of w name) = Raise e
    /\ load_preset (Some (name :: rest)) w
       = (Ok tt,
          with_tool w
            (update_status (tool w) ("Error loading preset: " +:+ exn_str e))).
Proof.
  intros Hdir H. pose proof (load_preset_cases w name rest) as C.
  rewrite (disk_with_preset_dir_id w Hdir) in C.
  destruct (read_json _ _) as [s|e] eqn:R.
  - exfalso. unfold read_json in R.
    destruct (disk w !! preset_path_of w name) as [[|[j|]]|] eqn:L;
      try discriminate.
    exact (H j eq_refl).
  - exists e. split; [reflexivity|]. rewrite C. reflexivity.
Qed.

(** X18.  A load that reads a document makes the document the current
    snapshot, and the GPU cache flag takes the value the snapshot holds
    under plugin_display and gpuCache, False when the section or the key
    is absent.  The check box then shows that value when it is a bool,
    and what the host makes of it otherwise; when the host refuses the
    value the check box, the script field and the session stay as they
    were and the status label reports the error, the flag having changed
    already.  When the snapshot has no get method (it is not a dict, or
    plugin_display is not one) the flag, the check box, the script field
    and the session stay as they were. *)
Theorem load_preset_sets_gpu_flag
    (w : world) (name : string) (rest : list string) (j : json) :
  disk_with_preset_dir w !! preset_path_of w name = Some (File (Some j)) ->
  exists w',
    load_preset (Some (name :: rest)) w = (Ok tt, w')
    /\ last_captured_settings (tool w') = json_load j
    /\ match stored_gpu_flag (json_load j) with
       | Ok g =>
           gpu_cache_enabled (tool w') = g
           /\ match checkbox_shows g with
              | Ok b => gpu_checkbox (tool w') = VBool b
              | Raise e =>
                  gpu_checkbox (tool w') = gpu_checkbox (tool w)
                  /\ result_field (tool w') = result_field (tool w)
                  /\ maya w' = maya w
                  /\ status_label (tool w')
                     = "Status: Error loading preset: " +:+ exn_str e
              end
       | Raise _ =>
           gpu_cache_enabled (tool w') = gpu_cache_enabled (tool w)
           /\ gpu_checkbox (tool w') = gpu_checkbox (tool w)
           /\ result_field (tool w') = result_field (tool w)
           /\ maya w' = maya w
       end
    /\ (forall b, stored_gpu_flag (json_load j) = Ok (VBool b) ->
          gpu_cache_enabled (tool w') = VBool b
          /\ gpu_checkbox (tool w') = VBool b)
    /\ (forall d, json_load j = VDict d ->
          dict_get "plugin_display" d = None ->
          gpu_cache_enabled (tool w') = VBool false
          /\ gpu_checkbox (tool w') = VBool false).
Proof.
  intros Hf. pose proof (load_preset_cases w name rest) as C.
  unfold read_json in C. rewrite Hf in C.
  destruct C as (w' & E & L & _ & _ & _ & G).
  exists w'. split; [exact E|]. split; [exact L|]. split; [exact G|]. split.
  - intros b Hb. rewrite Hb in G. exact G.
  - intros d Hd Hp. rewrite Hd in G. unfold stored_gpu_flag in G. simpl in G.
    rewrite Hp in G. simpl in G. exact G.
Qed.

Lemma json_dump_listify (v : value) : json_dump (listify v) = json_dump v.
Proof.
  induction v as [| | | | |l IH|l IH|d IH] using value_nested_ind;
    try reflexivity; simpl; f_equal.
  - rewrite map_map. induction IH as [|x l Hx _ IHl]; simpl; [reflexivity|].
    rewrite Hx, IHl. reflexivity.
  - rewrite map_map. induction IH as [|x l Hx _ IHl]; simpl; [reflexivity|].
    rewrite Hx, IHl. reflexivity.
  - rewrite map_map. induction IH as [|[k x] d Hx _ IHd]; simpl; [reflexivity|].
    simpl in Hx. rewrite Hx, IHd. reflexivity.
Qed.

Lemma py_bool_listify (v : value) : py_bool (listify v) = py_bool v.
Proof. destruct v as [| | | | |[|]|[|]|[|[]]]; reflexivity. Qed.

(** X19.  Saving a loaded preset again writes the document that was read:
    when the file read holds the dump of a snapshot x, the snapshot the
    load leaves, saved under another name, gives a file with the same
    document, tuples of x having become lists on the way without changing
    what is written. *)
Theorem load_then_save_copies
    (w w1 : world) (a b confirm : string) (rest : list string) (x : value) :
  wf_value x ->
  py_bool x = true ->
  disk_with_preset_dir w !! preset_path_of w a
  = Some (File (Some (json_dump x))) ->
  load_preset (Some (a :: rest)) w = (Ok tt, w1) ->
  b <> EmptyString ->
  (os_path_exists (disk_with_preset_dir w1) (preset_path_of w1 b)
   && String.eqb confirm "No")%bool = false ->
  disk_with_preset_dir w1 !! preset_path_of w1 b <> Some Dir ->
  exists w2,
    save_preset "Save" b confirm w1 = (Ok tt, w2)
    /\ last_captured_settings (tool w1) = listify x
    /\ disk w2 !! preset_path_of w1 b = Some (File (Some (json_dump x))).
Proof.
  intros Hw Hx Hf Hl Hb Hc Hd.
  destruct (load_preset_reads w a rest _ Hf) as (w1' & E & L & _).
  rewrite Hl in E. inversion E; subst w1'; clear E.
  rewrite (json_load_dump _ Hw) in L.
  destruct (save_preset_writes w1 b confirm) as (w2 & E2 & D2 & _);
    try assumption.
  { rewrite L, py_bool_listify. exact Hx. }
  exists w2. split; [exact E2|]. split; [exact L|].
  rewrite D2, lookup_insert_eq, L, json_dump_listify. reflexivity.
Qed.

(** X20.  When os.listdir raises for the preset directory,
    refresh_preset_list raises what it raised, and the list of presets is
    left empty: the list is cleared before the directory is read. *)
Theorem refresh_preset_list_listdir_raises (w : world) (e : exn) :
  os_listdir (disk_with_preset_dir w) (preset_dir_of w) = Raise e ->
  refresh_preset_list w
  = (Raise e,
     with_tool (with_disk w (disk_with_preset_dir w))
       (set_preset_list (tool w) [])).
Proof.
  intros Hl. unfold refresh_preset_list, bindM, modify, read, ret.
  set (w1 := with_tool w (set_preset_list (tool w) [])).
  rewrite (get_preset_dir_world w1).
  assert (preset_dir_of w1 = preset_dir_of w) as Hp by reflexivity.
  assert (disk_with_preset_dir w1 = disk_with_preset_dir w) as Hq by reflexivity.
  cbv beta iota.
  change (disk (with_disk w1 (disk_with_preset_dir w1)))
    with (disk_with_preset_dir w1).
  rewrite Hq, Hp, preset_dir_exists. cbv beta iota.
  unfold with_disk. cbn [disk tool maya]. rewrite Hl. reflexivity.
Qed.

End LoadCoverage.

(** ** Deleting a preset *)

Section DeleteCoverage.

Context {PR : PyRuntime} {OS : OSLayer} {MH : MayaHost}.

Lemma isdir_delete_file (fs : gmap string node) (p c : string) (data : option json) :
  fs !! p = Some (File data) ->
  os_path_isdir (delete p fs) c = os_path_isdir fs c.
Proof.
  intros Hp. unfold os_path_isdir. destruct (decide (p = c)) as [->|N].
  - rewrite lookup_delete_eq, Hp. reflexivity.
  - rewrite lookup_delete_ne by exact N. reflexivity.
Qed.

Lemma resolve_dir_delete_file custom app (fs : gmap string node) p data :
  fs !! p = Some (File data) ->
  resolve_dir custom app (delete p fs) = resolve_dir custom app fs.
Proof.
  intros Hp. unfold resolve_dir. rewrite (isdir_delete_file _ _ _ _ Hp).
  reflexivity.
Qed.

Lemma disk_with_preset_dir_eq (x : world) (dir : string) :
  preset_dir_of x = dir ->
  disk_with_preset_dir x
  = if os_path_exists (disk x) dir then disk x else <[dir := Dir]> (disk x).
Proof. intros <-. reflexivity. Qed.

(** What delete_preset does once the dialog is answered Yes. *)
Lemma delete_preset_cases (w : world) (name : string) (rest : list string) :
  match os_remove (disk_with_preset_dir w) (preset_path_of w name) with
  | Raise e =>
      delete_preset (Some (name :: rest)) "Yes" w
      = (Ok tt,
         with_tool (with_disk w (disk_with_preset_dir w))
           (update_status (tool w) ("Error deleting preset: " +:+ exn_str e)))
  | Ok fs =>
      exists w',
        delete_preset (Some (name :: rest)) "Yes" w = (Ok tt, w')
        /\ disk w' = (if os_path_exists fs (preset_dir_of w) then fs
                      else <[preset_dir_of w := Dir]> fs)
        /\ maya w' = maya w
        /\ last_captured_settings (tool w') = last_captured_settings (tool w)
        /\ result_field (tool w') = result_field (tool w)
        /\ gpu_cache_enabled (tool w') = gpu_cache_enabled (tool w)
        /\ gpu_checkbox (tool w') = gpu_checkbox (tool w)
        /\ custom_preset_path (tool w') = custom_preset_path (tool w)
  end.
Proof.
  unfold delete_preset, bindM. rewrite String.eqb_refl. cbv iota.
  rewrite (get_preset_dir_world w). cbv beta iota.
  fold (preset_path_of w name).
  unfold try_except, bindM, edit_disk, set_status, modify. cbv beta iota.
  change (disk (with_disk w (disk_with_preset_dir w)))
    with (disk_with_preset_dir w).
  destruct (os_remove (disk_with_preset_dir w) (preset_path_of w name))
    as [fs|e] eqn:R; [|reflexivity].
  match goal with
  | |- context [refresh_preset_list ?x] =>
      destruct (refresh_preset_list_world x) as (r & items & E);
      assert (preset_dir_of x = preset_dir_of w) as PD
  end.
  { unfold os_remove in R.
    destruct (disk_with_preset_dir w !! preset_path_of w name)
      as [[|data]|] eqn:L; try discriminate.
    inversion R; subst fs.
    unfold preset_dir_of. simpl.
    rewrite (resolve_dir_delete_file _ _ _ _ _ L). apply resolve_dir_made. }
  match type of PD with
  | preset_dir_of ?x = _ =>
      assert (disk_with_preset_dir x
              = if os_path_exists fs (preset_dir_of w) then fs
                else <[preset_dir_of w := Dir]> fs) as DX
        by (rewrite (disk_with_preset_dir_eq x _ PD); reflexivity)
  end.
  rewrite E.
  destruct r as [[]|e]; (eexists; split; [reflexivity|]);
    (split; [exact DX|]); simpl; repeat split; reflexivity.
Qed.

(** A delete that is confirmed, of a preset whose file is there. *)
Lemma delete_preset_file (w : world) (name : string) (rest : list string)
    (data : option json) :
  disk_with_preset_dir w !! preset_path_of w name = Some (File data) ->
  preset_path_of w name <> preset_dir_of w ->
  exists w',
    delete_preset (Some (name :: rest)) "Yes" w = (Ok tt, w')
    /\ disk w' = delete (preset_path_of w name) (disk_with_preset_dir w)
    /\ maya w' = maya w
    /\ last_captured_settings (tool w') = last_captured_settings (tool w).
Proof.
  intros Hf Hn. pose proof (delete_preset_cases w name rest) as C.
  unfold os_remove in C. rewrite Hf in C.
  destruct C as (w' & E & D & M & L & _).
  exists w'. split; [exact E|]. split; [|split; assumption].
  rewrite D.
  assert (os_path_exists (delete (preset_path_of w name) (disk_with_preset_dir w))
            (preset_dir_of w) = true) as ->; [|reflexivity].
  unfold os_path_exists. rewrite lookup_delete_ne by exact Hn.
  exact (preset_dir_exists w).
Qed.

(** X21.  A delete that the user confirms, of a selected preset whose
    file is there, returns and removes that file and nothing else: the
    path of the preset is free afterwards and every other path of the disk
    is as get_preset_dir left it.  The current snapshot stays. *)
Theorem delete_preset_removes (w : world) (name : string) (rest : list string)
    (data : option json) :
  disk_with_preset_dir w !! preset_path_of w name = Some (File data) ->
  preset_path_of w name <> preset_dir_of w ->
  exists w',
    delete_preset (Some (name :: rest)) "Yes" w = (Ok tt, w')
    /\ disk w' !! preset_path_of w name = None
    /\ (forall p, p <> preset_path_of w name ->
                  disk w' !! p = disk_with_preset_dir w !! p)
    /\ last_captured_settings (tool w') = last_captured_settings (tool w).
Proof.
  intros Hf Hn.
  destruct (delete_preset_file w name rest data Hf Hn) as (w' & E & D & _ & L).
  exists w'. split; [exact E|]. rewrite D.
  split; [apply lookup_delete_eq|]. split; [|exact L].
  intros p N. apply lookup_delete_ne. congruence.
Qed.

(** X22.  With the preset directory in place, delete_preset never raises:
    a removal that fails is reported in the status label.  Whatever is
    selected and answered, it leaves the current snapshot, the session,
    the script field and the GPU cache flag as they were; on the disk it
    changes at most the file of the first selected name; and unless the
    dialog is answered Yes it changes neither the disk nor the list of
    presets. *)
Theorem delete_preset_keeps (selected : option (list string)) (result : string)
    (w : world) :
  os_path_exists (disk w) (preset_dir_of w) = true ->
  exists w',
    delete_preset selected result w = (Ok tt, w')
    /\ last_captured_settings (tool w') = last_captured_settings (tool w)
    /\ maya w' = maya w
    /\ result_field (tool w') = result_field (tool w)
    /\ gpu_cache_enabled (tool w') = gpu_cache_enabled (tool w)
    /\ (forall p,
          (forall name rest, selected = Some (name :: rest) ->
                             p <> preset_path_of w name) ->
          disk w' !! p = disk w !! p)
    /\ (result <> "Yes" ->
        disk w' = disk w /\ preset_list (tool w') = preset_list (tool w)).
Proof.
  intros Hdir. pose proof (disk_with_preset_dir_id w Hdir) as Hid.
  destruct selected as [[|name rest]|];
    try (eexists; split; [reflexivity|]; repeat split; reflexivity).
  destruct (String.eqb result "Yes") eqn:Hy.
  2:{ exists w. unfold delete_preset. rewrite Hy.
      split; [reflexivity|]. repeat split; reflexivity. }
  apply String.eqb_eq in Hy. subst result.
  pose proof (delete_preset_cases w name rest) as C.
  rewrite Hid in C.
  destruct (os_remove _ _) as [fs|e] eqn:R.
  - destruct C as (w' & E & D & M & L & F & G & _).
    exists w'. split; [exact E|]. split; [exact L|]. split; [exact M|].
    split; [exact F|]. split; [exact G|]. split; [|intros N; contradiction].
    intros p N. specialize (N name rest eq_refl).
    unfold os_remove in R.
    destruct (disk w !! preset_path_of w name) as [[|data]|]; try discriminate.
    inversion R; subst fs. rewrite D.
    destruct (os_path_exists (delete (preset_path_of w name) (disk w))
                (preset_dir_of w)) eqn:X.
    + apply lookup_delete_ne. congruence.
    + assert (preset_dir_of w = preset_path_of w name) as Q.
      { destruct (String.eqb (preset_dir_of w) (preset_path_of w name)) eqn:Q;
          [apply String.eqb_eq; exact Q|].
        apply String.eqb_neq in Q. exfalso.
        unfold os_path_exists in X, Hdir.
        rewrite lookup_delete_ne in X by congruence.
        rewrite X in Hdir. discriminate. }
      rewrite lookup_insert_ne by congruence.
      apply lookup_delete_ne. congruence.
  - eexists. split; [exact C|]. simpl.
    repeat split; try reflexivity; try contradiction.
Qed.



End DeleteCoverage.

(** ** The GPU cache plugin and its check box *)

Section GpuCoverage.

Context {PR : PyRuntime} {MH : MayaHost} {ME : MayaEdits}.

(** What ensure_gpu_plugin_loaded returns and leaves. *)
Lemma ensure_gpu_plugin_loaded_cases (w : world) :
  exists w',
    ensure_gpu_plugin_loaded w = (Ok (plugin_available (maya w)), w')
    /\ status_only w w'
    /\ (plugin_available (maya w) = false -> maya w' = maya w)
    /\ (forall loaded,
          cmds_pluginInfo_loaded (maya w) "gpuCache" = Ok loaded ->
          py_bool loaded = true -> w' = w).
Proof.
  unfold ensure_gpu_plugin_loaded, try_except, bindM, edit_scene, set_status,
    modify, ret, plugin_available.
  destruct (cmds_pluginInfo_loaded (maya w) "gpuCache") as [loaded|e].
  - destruct (py_bool loaded) eqn:B; cbv beta iota delta [negb orb].
    + exists w. split; [reflexivity|]. split; [apply status_only_refl|].
      split; [discriminate | reflexivity].
    + destruct (cmds_loadPlugin (maya w) "gpuCache") as [sc|e]; simpl.
      * eexists. split; [reflexivity|].
        split; [split; [reflexivity | repeat split]|].
        split; [discriminate|]. intros l E. inversion E; subst l.
        rewrite B. discriminate.
      * eexists. split; [reflexivity|].
        split; [apply status_only_status|].
        split; [reflexivity|]. intros l E. inversion E; subst l.
        rewrite B. discriminate.
  - eexists. split; [reflexivity|]. split; [apply status_only_status|].
    split; [reflexivity | discriminate].
Qed.

(** X25.  ensure_gpu_plugin_loaded never raises.  It returns True
    exactly when the gpuCache plugin is loaded already or loading it
    succeeds, and False when the query or the load raises, which is
    reported in the status label.  It changes nothing but the status label
    and the session; when it returns False the session is as it was, and
    when the plugin is loaded already nothing changes at all. *)
Theorem ensure_gpu_plugin_loaded_outcome (w : world) :
  exists w',
    ensure_gpu_plugin_loaded w = (Ok (plugin_available (maya w)), w')
    /\ status_only w w'
    /\ (plugin_available (maya w) = false -> maya w' = maya w)
    /\ (forall loaded,
          cmds_pluginInfo_loaded (maya w) "gpuCache" = Ok loaded ->
          py_bool loaded = true -> w' = w).
Proof. exact (ensure_gpu_plugin_loaded_cases w). Qed.

(** What toggle_gpu_cache leaves. *)
Lemma toggle_gpu_cache_cases (w : world) :
  exists w',
    toggle_gpu_cache w = (Ok tt, w')
    /\ gpu_cache_enabled (tool w')
       = (if (py_bool (gpu_checkbox (tool w))
              && negb (plugin_available (maya w)))%bool
          then VBool false else gpu_checkbox (tool w))
    /\ gpu_checkbox (tool w') = gpu_cache_enabled (tool w')
    /\ keeps_store w w'.
Proof.
  unfold toggle_gpu_cache, bindM, read, modify. cbv beta iota.
  change (gpu_cache_enabled
            (tool (with_tool w (set_gpu_cache_enabled (tool w) (gpu_checkbox (tool w))))))
    with (gpu_checkbox (tool w)).
  destruct (py_bool (gpu_checkbox (tool w))) eqn:B; cbv beta iota delta [andb].
  2:{ eexists. split; [reflexivity|]. simpl. split; [reflexivity|].
      split; [reflexivity|]. repeat split. }
  match goal with
  | |- context [ensure_gpu_plugin_loaded ?x] =>
      destruct (ensure_gpu_plugin_loaded_cases x) as (w1 & E & F & _)
  end.
  rewrite E. cbv beta iota.
  change (maya (with_tool w (set_gpu_cache_enabled (tool w) (gpu_checkbox (tool w)))))
    with (maya w).
  destruct F as (Fd & F1 & F2 & F3 & F4 & F5 & F6 & F7 & F8 & F9).
  simpl in Fd, F1, F2, F3, F4, F5, F6, F7, F8, F9.
  destruct (plugin_available (maya w)); cbv beta iota delta [negb];
    unfold set_status, modify; (eexists; split; [reflexivity|]); simpl.
  - split; [exact F5|]. split; [congruence|]. repeat split; assumption.
  - split; [reflexivity|]. split; [reflexivity|]. repeat split; assumption.
Qed.

(** X26.  toggle_gpu_cache never raises.  The GPU cache flag takes the
    state of the check box, unless the box is ticked and the plugin can
    neither be found loaded nor be loaded: then the flag and the box are
    both set to False.  Afterwards the box shows the flag; the disk, the
    current snapshot, the script field and the list of presets are as they
    were. *)
Theorem toggle_gpu_cache_outcome (w : world) :
  exists w',
    toggle_gpu_cache w = (Ok tt, w')
    /\ gpu_cache_enabled (tool w')
       = (if (py_bool (gpu_checkbox (tool w))
              && negb (plugin_available (maya w)))%bool
          then VBool false else gpu_checkbox (tool w))
    /\ gpu_checkbox (tool w') = gpu_cache_enabled (tool w')
    /\ keeps_store w w'.
Proof. exact (toggle_gpu_cache_cases w). Qed.

End GpuCoverage.

(** ** apply_settings *)

(** *** What a method body keeps *)

Section Preservation.

Context {PR : PyRuntime} {MH : MayaHost} {ME : MayaEdits}.

Variable P : world -> Prop.

Hypothesis P_status :
  forall w message, P w -> P (with_tool w (update_status (tool w) message)).

Hypothesis P_scene : forall w sc, P w -> P (with_maya w sc).

(** What P knows of the flag the snapshot stores. *)
Variable G : value -> Prop.

Hypothesis P_stored :
  forall w pd g,
    P w ->
    py_getitem (last_captured_settings (tool w)) "plugin_display" = Ok pd ->
    py_getitem pd "gpuCache" = Ok g ->
    G g.

Hypothesis P_gpu :
  forall w g,
    G g -> P w ->
    P (snd (checkbox_edit g (with_tool w (set_gpu_cache_enabled (tool w) g)))).

Lemma bind_read_at {A B : Type} (f : world -> A) (k : A -> M B) w r w' :
  bindM (read f) k w = (r, w') -> k (f w) w = (r, w').
Proof. intros H. exact H. Qed.

Lemma bind_lift_at {A B : Type} (x : result A) (k : A -> M B) w r w' :
  bindM (lift x) k w = (r, w') ->
  (exists a, x = Ok a /\ k a w = (r, w')) \/ w' = w.
Proof.
  unfold bindM, lift. destruct x as [a|e]; intros H.
  - left. exists a. split; [reflexivity | exact H].
  - right. inversion H. reflexivity.
Qed.

Lemma preserves_ret {A : Type} (a : A) : preserves P (ret a).
Proof. intros w r w' H. inversion H. auto. Qed.

Lemma preserves_lift {A : Type} (x : result A) : preserves P (lift x).
Proof. intros w r w' H. inversion H. auto. Qed.

Lemma preserves_read {A : Type} (f : world -> A) : preserves P (read f).
Proof. intros w r w' H. inversion H. auto. Qed.

Lemma preserves_query {A : Type} (f : world -> result A) :
  preserves P (fun w => (f w, w)).
Proof. intros w r w' H. inversion H. auto. Qed.

Lemma preserves_bind {A B : Type} (m : M A) (k : A -> M B) :
  preserves P m -> (forall a, preserves P (k a)) -> preserves P (bindM m k).
Proof.
  intros Hm Hk w r w' H Pw. unfold bindM in H.
  destruct (m w) as [[a|e] w1] eqn:E.
  - exact (Hk a w1 r w' H (Hm w _ w1 E Pw)).
  - inversion H; subst. exact (Hm w _ w' E Pw).
Qed.

Lemma preserves_try_except {A : Type} (m : M A) (h : exn -> M A) :
  preserves P m -> (forall e, preserves P (h e)) ->
  preserves P (try_except m h).
Proof.
  intros Hm Hh w r w' H Pw. unfold try_except in H.
  destruct (m w) as [[a|e] w1] eqn:E.
  - inversion H; subst. exact (Hm w _ w' E Pw).
  - exact (Hh e w1 r w' H (Hm w _ w1 E Pw)).
Qed.

Lemma preserves_try_finally {A : Type} (m : M A) (f : M unit) :
  preserves P m -> preserves P f -> preserves P (try_finally m f).
Proof.
  intros Hm Hf w r w' H Pw. unfold try_finally in H.
  destruct (m w) as [r1 w1] eqn:E.
  destruct (f w1) as [[u|e] w2] eqn:F; inversion H; subst;
    exact (Hf w1 _ w' F (Hm w _ w1 E Pw)).
Qed.

Lemma preserves_set_status (message : string) : preserves P (set_status message).
Proof. intros w r w' H Pw. inversion H. apply P_status. exact Pw. Qed.

Lemma preserves_edit_scene (f : scene -> result scene) :
  preserves P (edit_scene f).
Proof.
  intros w r w' H Pw. unfold edit_scene in H.
  destruct (f (maya w)); inversion H; subst; [apply P_scene|]; exact Pw.
Qed.

Lemma preserves_get_active_viewport : preserves P get_active_viewport.
Proof. intros w r w' H. unfold get_active_viewport in H. inversion H. auto. Qed.

Lemma preserves_get_active_camera panel : preserves P (get_active_camera panel).
Proof. apply preserves_query. Qed.

Lemma preserves_ensure_globals : preserves P ensure_globals.
Proof.
  intros w r w' H Pw. unfold ensure_globals in H.
  destruct (cmds_objExists _ _).
  - inversion H; subst. exact Pw.
  - exact (preserves_edit_scene _ w r w' H Pw).
Qed.

Lemma preserves_ensure_viewport_20 panel : preserves P (ensure_viewport_20 panel).
Proof.
  unfold ensure_viewport_20.
  apply preserves_bind; [apply preserves_query|]. intros cur.
  apply preserves_bind.
  - apply preserves_try_except.
    + destruct (is_str _ _); [apply preserves_ret | apply preserves_edit_scene].
    + intros _. apply preserves_set_status.
  - intros _ w r w' H Pw. inversion H. apply P_scene. exact Pw.
Qed.

Lemma preserves_ensure_gpu_plugin_loaded : preserves P ensure_gpu_plugin_loaded.
Proof.
  unfold ensure_gpu_plugin_loaded. apply preserves_try_except.
  - apply preserves_bind; [apply preserves_query|]. intros loaded.
    destruct (negb _); [|apply preserves_ret].
    apply preserves_bind; [apply preserves_edit_scene|]. intros _.
    apply preserves_bind; [apply preserves_set_status|]. intros _.
    apply preserves_ret.
  - intros e. apply preserves_bind; [apply preserves_set_status|]. intros _.
    apply preserves_ret.
Qed.

Lemma preserves_apply_if_in section key (command : value -> M unit) :
  (forall v, preserves P (command v)) ->
  preserves P (apply_if_in section key command).
Proof.
  intros H. unfold apply_if_in.
  apply preserves_bind; [apply preserves_lift|]. intros [|]; [|apply preserves_ret].
  apply preserves_bind; [apply preserves_lift|]. exact H.
Qed.

Lemma preserves_camera_edit cam flag v : preserves P (camera_edit cam flag v).
Proof. apply preserves_edit_scene. Qed.

Lemma preserves_warn warning e : preserves P (warn warning e).
Proof. apply preserves_set_status. Qed.

Lemma preserves_apply_camera_gate panel : preserves P (apply_camera_gate panel).
Proof.
  unfold apply_camera_gate, self_settings.
  apply preserves_bind; [apply preserves_read|]. intros s.
  apply preserves_bind; [apply preserves_lift|]. intros g.
  apply preserves_bind; [apply preserves_get_active_camera|]. intros cam.
  apply preserves_bind; [|intros _; apply preserves_ret].
  destruct (_ && _)%bool; [|apply preserves_ret].
  apply preserves_try_except; [|intros e; apply preserves_warn].
  repeat (apply preserves_bind;
          [apply preserves_apply_if_in; intros v; apply preserves_camera_edit
          |intros _]).
  apply preserves_apply_if_in. intros v. apply preserves_camera_edit.
Qed.

Lemma preserves_apply_camera_mask cam : preserves P (apply_camera_mask cam).
Proof.
  unfold apply_camera_mask, self_settings.
  apply preserves_bind; [apply preserves_read|]. intros s.
  apply preserves_bind; [apply preserves_lift|]. intros g.
  destruct (_ && _)%bool; [|apply preserves_ret].
  apply preserves_try_except; [|intros e; apply preserves_warn].
  apply preserves_apply_if_in. intros v. apply preserves_camera_edit.
Qed.

Lemma preserves_apply_camera_filmfit cam : preserves P (apply_camera_filmfit cam).
Proof.
  unfold apply_camera_filmfit, self_settings.
  apply preserves_bind; [apply preserves_read|]. intros s.
  apply preserves_bind; [apply preserves_lift|]. intros g.
  destruct (_ && _)%bool; [|apply preserves_ret].
  apply preserves_try_except; [|intros e; apply preserves_warn].
  apply preserves_apply_if_in. intros v. apply preserves_camera_edit.
Qed.

Lemma preserves_apply_display_item panel attr v :
  preserves P (apply_display_item panel attr v).
Proof.
  unfold apply_display_item.
  apply preserves_try_except; [|intros e; apply preserves_warn].
  destruct (String.eqb attr "hwFog"); [|apply preserves_edit_scene].
  apply preserves_bind; [apply preserves_edit_scene|]. intros _.
  apply preserves_bind; [apply preserves_ensure_globals|]. intros _.
  apply preserves_edit_scene.
Qed.

Lemma preserves_apply_display_items panel items :
  preserves P (apply_display_items panel items).
Proof.
  induction items as [|[attr v] rest IH]; simpl; [apply preserves_ret|].
  apply preserves_bind; [apply preserves_apply_display_item|]. intros _. exact IH.
Qed.

Lemma preserves_apply_display panel : preserves P (apply_display panel).
Proof.
  unfold apply_display, self_settings.
  apply preserves_bind; [apply preserves_read|]. intros s.
  apply preserves_bind; [apply preserves_lift|]. intros d.
  apply preserves_bind; [apply preserves_lift|]. intros items.
  apply preserves_apply_display_items.
Qed.

Lemma preserves_apply_gpu_cache panel : preserves P (apply_gpu_cache panel).
Proof.
  intros w r w' H Pw. unfold apply_gpu_cache, self_settings in H.
  apply bind_read_at in H.
  apply bind_lift_at in H. destruct H as [(present & _ & H)| ->]; [|exact Pw].
  destruct present; [|inversion H; subst; exact Pw].
  apply bind_read_at in H.
  apply bind_lift_at in H. destruct H as [(pd & Hpd & H)| ->]; [|exact Pw].
  apply bind_lift_at in H. destruct H as [(g & Hg & H)| ->]; [|exact Pw].
  pose proof (P_stored w pd g Pw Hpd Hg) as Gg. clear Hpd Hg.
  revert w r w' H Pw.
  change (preserves P
            (let! on := if py_bool g then ensure_gpu_plugin_loaded else ret false in
             let! _ := edit_scene (fun sc =>
                         cmds_modelEditor_pluginObjects sc panel
                           "gpuCacheDisplayFilter" on) in
             let! _ := modify (fun w =>
                         with_tool w (set_gpu_cache_enabled (tool w) g)) in
             let! enabled := read (fun w => gpu_cache_enabled (tool w)) in
             checkbox_edit enabled)).
  apply preserves_bind.
  { destruct (py_bool g);
      [apply preserves_ensure_gpu_plugin_loaded | apply preserves_ret]. }
  intros on.
  apply preserves_bind; [apply preserves_edit_scene|]. intros _.
  intros w r w' H Pw.
  change (checkbox_edit g (with_tool w (set_gpu_cache_enabled (tool w) g))
          = (r, w')) in H.
  pose proof (P_gpu w g Gg Pw) as Q. rewrite H in Q. exact Q.
Qed.

Lemma preserves_rgb_edit name c : preserves P (rgb_edit name c).
Proof.
  unfold rgb_edit. apply preserves_bind; [apply preserves_lift|]. intros l.
  apply preserves_edit_scene.
Qed.

Lemma preserves_apply_background : preserves P apply_background.
Proof.
  unfold apply_background, self_settings.
  apply preserves_bind; [apply preserves_read|]. intros s.
  apply preserves_bind; [apply preserves_lift|]. intros bg.
  apply preserves_try_except; [|intros e; apply preserves_warn].
  apply preserves_bind;
    [apply preserves_apply_if_in; intros v; apply preserves_edit_scene|].
  intros _.
  apply preserves_bind;
    [apply preserves_apply_if_in; intros v; apply preserves_rgb_edit|].
  intros _.
  apply preserves_bind;
    [apply preserves_apply_if_in; intros v; apply preserves_rgb_edit|].
  intros _.
  apply preserves_bind; [apply preserves_lift|]. intros g.
  destruct (py_bool g); [|apply preserves_ret].
  apply preserves_apply_if_in. intros v. apply preserves_rgb_edit.
Qed.

Lemma preserves_apply_hw2_item attr v : preserves P (apply_hw2_item attr v).
Proof.
  unfold apply_hw2_item.
  apply preserves_try_except; [|intros e; apply preserves_warn].
  destruct (is_sequence v); [|apply preserves_edit_scene].
  apply preserves_bind; [apply preserves_lift|]. intros l.
  apply preserves_edit_scene.
Qed.

Lemma preserves_apply_hw2_items items : preserves P (apply_hw2_items items).
Proof.
  induction items as [|[attr v] rest IH]; simpl; [apply preserves_ret|].
  apply preserves_bind; [apply preserves_apply_hw2_item|]. intros _. exact IH.
Qed.

Lemma preserves_apply_hardware : preserves P apply_hardware.
Proof.
  unfold apply_hardware, self_settings.
  apply preserves_bind; [apply preserves_read|]. intros s.
  apply preserves_bind; [apply preserves_lift|]. intros hw.
  destruct (py_bool hw); [|apply preserves_ret].
  apply preserves_bind; [apply preserves_ensure_globals|]. intros _.
  apply preserves_bind; [apply preserves_lift|]. intros items.
  apply preserves_apply_hw2_items.
Qed.

Lemma preserves_apply_sections panel : preserves P (apply_sections panel).
Proof.
  unfold apply_sections.
  apply preserves_bind; [apply preserves_edit_scene|]. intros _.
  apply preserves_bind; [apply preserves_apply_camera_gate|]. intros cam.
  apply preserves_bind; [apply preserves_apply_camera_mask|]. intros _.
  apply preserves_bind; [apply preserves_apply_camera_filmfit|]. intros _.
  apply preserves_bind; [apply preserves_apply_display|]. intros _.
  apply preserves_bind; [apply preserves_apply_gpu_cache|]. intros _.
  apply preserves_bind; [apply preserves_apply_background|]. intros _.
  apply preserves_bind; [apply preserves_apply_hardware|]. intros _.
  apply preserves_set_status.
Qed.

Lemma preserves_apply_settings : preserves P apply_settings.
Proof.
  unfold apply_settings, self_settings.
  apply preserves_bind; [apply preserves_read|]. intros s.
  destruct (negb (py_bool s)); [apply preserves_set_status|].
  apply preserves_bind; [apply preserves_get_active_viewport|]. intros panel.
  destruct (negb (py_bool panel)); [apply preserves_set_status|].
  apply preserves_bind; [apply preserves_ensure_viewport_20|]. intros _.
  apply preserves_try_finally; [|apply preserves_edit_scene].
  apply preserves_try_except; [apply preserves_apply_sections|].
  intros e. apply preserves_set_status.
Qed.

End Preservation.

Section ApplyCoverage.

Context {PR : PyRuntime} {MH : MayaHost} {ME : MayaEdits}.

Lemma keeps_store_refl (w : world) : keeps_store w w.
Proof. repeat split. Qed.

Lemma keeps_store_status (w0 w : world) (message : string) :
  keeps_store w0 w ->
  keeps_store w0 (with_tool w (update_status (tool w) message)).
Proof. intros H. exact H. Qed.

Lemma keeps_store_scene (w0 w : world) (sc : scene) :
  keeps_store w0 w -> keeps_store w0 (with_maya w sc).
Proof. intros H. exact H. Qed.

Lemma keeps_store_gpu (w0 w : world) (g : value) :
  True ->
  keeps_store w0 w ->
  keeps_store w0
    (snd (checkbox_edit g (with_tool w (set_gpu_cache_enabled (tool w) g)))).
Proof.
  intros _ H. unfold checkbox_edit.
  destruct (checkbox_shows g); exact H.
Qed.

Lemma keeps_store_stored (w0 w : world) (pd g : value) :
  keeps_store w0 w ->
  py_getitem (last_captured_settings (tool w)) "plugin_display" = Ok pd ->
  py_getitem pd "gpuCache" = Ok g ->
  True.
Proof. intros _ _ _. exact I. Qed.

(** X27.  apply_settings, however it ends, leaves the disk, the current
    snapshot, the script field and the list of presets as they were: of
    the instance it changes at most the status label, the GPU cache flag
    and the check box. *)
Theorem apply_settings_keeps_store (w : world) :
  keeps_store w (snd (apply_settings w)).
Proof.
  destruct (apply_settings w) as [r w'] eqn:E. simpl.
  exact (preserves_apply_settings (keeps_store w)
           (keeps_store_status w) (keeps_store_scene w) (fun _ => True)
           (keeps_store_stored w) (keeps_store_gpu w)
           w r w' E (keeps_store_refl w)).
Qed.

(** X28.  Once apply_settings has found a viewport and switched it to
    Viewport 2.0, the undo chunk is closed on every path, and nothing but
    closing it can make apply_settings raise: whatever the snapshot holds
    and whichever edit fails, the block between opening and closing the
    chunk ends with a status message, and apply_settings ends as the call
    that closes the chunk ends. *)
Theorem apply_settings_closes_chunk (w w1 : world) (panel : value) :
  py_bool (last_captured_settings (tool w)) = true ->
  fst (get_active_viewport w) = Ok panel ->
  py_bool panel = true ->
  ensure_viewport_20 panel w = (Ok tt, w1) ->
  exists w2,
    keeps_store w w2
    /\ apply_settings w
       = match cmds_undoInfo_closeChunk (maya w2) with
         | Ok sc => (Ok tt, with_maya w2 sc)
         | Raise e => (Raise e, w2)
         end.
Proof.
  intros Hs Hv Hp He.
  assert (get_active_viewport w = (Ok panel, w)) as Hv'.
  { unfold get_active_viewport in *. simpl in Hv. rewrite Hv. reflexivity. }
  set (body := try_except (apply_sections panel)
                 (fun e => set_status ("Error applying settings: " +:+ exn_str e))).
  assert (exists w2, body w1 = (Ok tt, w2)) as [w2 Hb].
  { unfold body, try_except.
    destruct (apply_sections panel w1) as [[[]|e] w2]; [eauto|].
    unfold set_status, modify. eauto. }
  exists w2. split.
  - assert (preserves (keeps_store w) body) as PB.
    { unfold body. apply preserves_try_except.
      - apply (preserves_apply_sections (keeps_store w)
                 (keeps_store_status w) (keeps_store_scene w) (fun _ => True)
                 (keeps_store_stored w) (keeps_store_gpu w)).
      - intros e. apply preserves_set_status. apply keeps_store_status. }
    apply (PB w1 _ w2 Hb).
    exact (preserves_ensure_viewport_20 (keeps_store w)
             (keeps_store_status w) (keeps_store_scene w) panel
             w _ w1 He (keeps_store_refl w)).
  - unfold apply_settings, self_settings, bindM, read. cbv beta iota.
    rewrite Hs. cbv beta iota delta [negb].
    rewrite Hv'. cbv beta iota. rewrite Hp. cbv beta iota delta [negb].
    rewrite He. cbv beta iota. fold body.
    unfold try_finally. rewrite Hb. unfold edit_scene.
    destruct (cmds_undoInfo_closeChunk (maya w2)); reflexivity.
Qed.

End ApplyCoverage.

Section ApplyFailures.

Context {PR : PyRuntime} {OS : OSLayer} {MH : MayaHost} {ME : MayaEdits}.

Lemma preserves_modify (P : world -> Prop) (f : world -> world) :
  (forall w, P w -> P (f w)) -> preserves P (modify f).
Proof. intros H w r w' E Pw. inversion E. auto. Qed.

Lemma try_except_warn_returns (m : M unit) (warning : string) (w : world) :
  exists w', try_except m (warn warning) w = (Ok tt, w').
Proof.
  unfold try_except. destruct (m w) as [[[]|e] w1]; [eauto|].
  unfold warn, set_status, modify. eauto.
Qed.

(** The camera blocks of apply_settings return when the snapshot is a
    dict and the camera query answers. *)
Lemma apply_camera_gate_returns (panel : value) (d : dict) (w : world) :
  last_captured_settings (tool w) = VDict d ->
  is_ok (cmds_modelEditor_query (maya w) panel "camera") = true ->
  exists cam w', apply_camera_gate panel w = (Ok cam, w').
Proof.
  intros Hl Hc. unfold apply_camera_gate, self_settings, bindM, read, lift.
  cbv beta iota. rewrite Hl. simpl py_get.
  destruct (dict_get "camera_gate" d) as [g|]; cbv beta iota;
    unfold get_active_camera;
    (destruct (cmds_modelEditor_query (maya w) panel "camera") as [cam|e];
       [|discriminate]); cbv beta iota.
  - destruct (py_bool cam && py_bool g)%bool.
    + match goal with
      | |- context [try_except ?m (warn ?s) w] =>
          destruct (try_except_warn_returns m s w) as [w' ->]
      end. unfold ret. eauto.
    + unfold ret. eauto.
  - destruct (py_bool cam && py_bool (VDict []))%bool.
    + match goal with
      | |- context [try_except ?m (warn ?s) w] =>
          destruct (try_except_warn_returns m s w) as [w' ->]
      end. unfold ret. eauto.
    + unfold ret. eauto.
Qed.

Lemma apply_camera_mask_returns (cam : value) (d : dict) (w : world) :
  last_captured_settings (tool w) = VDict d ->
  exists w', apply_camera_mask cam w = (Ok tt, w').
Proof.
  intros Hl. unfold apply_camera_mask, self_settings, bindM, read, lift.
  cbv beta iota. rewrite Hl. simpl py_get.
  destruct (dict_get "camera_mask" d) as [g|]; cbv beta iota;
    (destruct (_ && _)%bool; [apply try_except_warn_returns | unfold ret; eauto]).
Qed.

Lemma apply_camera_filmfit_returns (cam : value) (d : dict) (w : world) :
  last_captured_settings (tool w) = VDict d ->
  exists w', apply_camera_filmfit cam w = (Ok tt, w').
Proof.
  intros Hl. unfold apply_camera_filmfit, self_settings, bindM, read, lift.
  cbv beta iota. rewrite Hl. simpl py_get.
  destruct (dict_get "camera_filmfit" d) as [g|]; cbv beta iota;
    (destruct (_ && _)%bool; [apply try_except_warn_returns | unfold ret; eauto]).
Qed.

(** X29.  Applying a snapshot that has no display section stops at the
    display block: when the chunk opens and the camera query answers, the
    status label reports KeyError for display, and the GPU cache flag and
    the check box stay as they were, since the GPU cache block, like the
    background and hardware blocks, comes after the display block.  The
    exception itself is caught. *)
Theorem apply_settings_missing_display
    (w w1 : world) (panel : value) (d : dict) :
  last_captured_settings (tool w) = VDict d ->
  d <> [] ->
  dict_get "display" d = None ->
  fst (get_active_viewport w) = Ok panel ->
  py_bool panel = true ->
  ensure_viewport_20 panel w = (Ok tt, w1) ->
  (forall sc, is_ok (cmds_undoInfo_openChunk sc) = true) ->
  (forall sc, is_ok (cmds_modelEditor_query sc panel "camera") = true) ->
  status_label (tool (snd (apply_settings w)))
  = "Status: Error applying settings: " +:+ exn_str (KeyError "display")
  /\ gpu_cache_enabled (tool (snd (apply_settings w)))
     = gpu_cache_enabled (tool w)
  /\ gpu_checkbox (tool (snd (apply_settings w))) = gpu_checkbox (tool w).
Proof.
  intros Hl Hne Hd Hv Hp He Hopen Hcam.
  assert (get_active_viewport w = (Ok panel, w)) as Hv'.
  { unfold get_active_viewport in *. simpl in Hv. rewrite Hv. reflexivity. }
  set (P := fun x : world =>
              last_captured_settings (tool x) = VDict d
              /\ gpu_cache_enabled (tool x) = gpu_cache_enabled (tool w)
              /\ gpu_checkbox (tool x) = gpu_checkbox (tool w)).
  assert (forall x message, P x -> P (with_tool x (update_status (tool x) message)))
    as P_status by (intros x message H; exact H).
  assert (forall x sc, P x -> P (with_maya x sc)) as P_scene
    by (intros x sc H; exact H).
  assert (P w) as Pw by (unfold P; auto).
  assert (P w1) as P1
    by exact (preserves_ensure_viewport_20 P P_status P_scene panel w _ w1 He Pw).
  destruct (cmds_undoInfo_openChunk (maya w1)) as [sc|e] eqn:Ho.
  2:{ specialize (Hopen (maya w1)). rewrite Ho in Hopen. discriminate. }
  set (xa := with_maya w1 sc).
  assert (P xa) as Pa by (apply P_scene; exact P1).
  destruct (apply_camera_gate_returns panel d xa (proj1 Pa) (Hcam _))
    as (cam & xb & Eb).
  assert (P xb) as Pb
    by exact (preserves_apply_camera_gate P P_status P_scene panel xa _ xb Eb Pa).
  destruct (apply_camera_mask_returns cam d xb (proj1 Pb)) as (xc & Ec).
  assert (P xc) as Pc
    by exact (preserves_apply_camera_mask P P_status P_scene cam xb _ xc Ec Pb).
  destruct (apply_camera_filmfit_returns cam d xc (proj1 Pc)) as (xd & Ed).
  assert (P xd) as Pd
    by exact (preserves_apply_camera_filmfit P P_status P_scene cam xc _ xd Ed Pc).
  assert (apply_display panel xd = (Raise (KeyError "display"), xd)) as Edis.
  { unfold apply_display, self_settings, bindM, read, lift. cbv beta iota.
    rewrite (proj1 Pd). simpl py_getitem. rewrite Hd. reflexivity. }
  assert (apply_sections panel w1 = (Raise (KeyError "display"), xd)) as Esec.
  { unfold apply_sections, bindM. unfold edit_scene at 1. rewrite Ho.
    fold xa. rewrite Eb, Ec, Ed, Edis. reflexivity. }
  assert (tool (snd (apply_settings w))
          = update_status (tool xd)
              ("Error applying settings: " +:+ exn_str (KeyError "display")))
    as ->.
  { unfold apply_settings, self_settings, bindM, read. cbv beta iota.
    rewrite Hl.
    assert (py_bool (VDict d) = true) as ->
      by (destruct d; [contradiction | reflexivity]).
    cbv beta iota delta [negb].
    rewrite Hv'. cbv beta iota. rewrite Hp. cbv beta iota delta [negb].
    rewrite He. cbv beta iota.
    unfold try_finally, try_except. rewrite Esec.
    unfold set_status, modify, edit_scene.
    destruct (cmds_undoInfo_closeChunk _); reflexivity. }
  destruct Pd as (_ & G1 & G2). simpl. auto.
Qed.

End ApplyFailures.

(** ** The check box and the GPU cache flag *)

Section CheckBox.

Context {PR : PyRuntime} {OS : OSLayer} {MH : MayaHost} {ME : MayaEdits}.

Lemma in_sync_status (w : world) (message : string) :
  in_sync w -> in_sync (with_tool w (update_status (tool w) message)).
Proof. intros H. exact H. Qed.

Lemma in_sync_scene (w : world) (sc : scene) :
  in_sync w -> in_sync (with_maya w sc).
Proof. intros H. exact H. Qed.

Lemma stored_gpu_flag_item (s pd g : value) :
  py_getitem s "plugin_display" = Ok pd ->
  py_getitem pd "gpuCache" = Ok g ->
  stored_gpu_flag s = Ok g.
Proof.
  unfold stored_gpu_flag, py_getitem, py_get.
  destruct s; try discriminate.
  destruct (dict_get "plugin_display" _) as [x|]; [|discriminate].
  intros H; inversion H; subst x; clear H. simpl.
  destruct pd; try discriminate.
  destruct (dict_get "gpuCache" _) as [x|]; [|discriminate].
  intros H. exact H.
Qed.

(** apply_settings keeps the check box and the flag together when the
    flag of the current snapshot is a bool. *)
Lemma in_sync_apply_settings (w : world) :
  boolean_flag (last_captured_settings (tool w)) ->
  in_sync w -> in_sync (snd (apply_settings w)).
Proof.
  intros B H.
  destruct (apply_settings w) as [r w'] eqn:E. simpl.
  refine (proj1 (preserves_apply_settings
            (fun x => in_sync x
                      /\ last_captured_settings (tool x)
                         = last_captured_settings (tool w))
            _ _ (fun g => exists b, g = VBool b) _ _
            w r w' E (conj H eq_refl))).
  - intros x message Px. exact Px.
  - intros x sc Px. exact Px.
  - intros x pd g [_ Sx] Hpd Hg. rewrite Sx in Hpd.
    exact (B g (stored_gpu_flag_item _ _ _ Hpd Hg)).
  - intros x g [b ->] [_ Sx]. split; [reflexivity | exact Sx].
Qed.

Lemma in_sync_capture_viewport : preserves in_sync capture_viewport.
Proof.
  unfold capture_viewport.
  apply preserves_bind; [apply preserves_get_active_viewport|]. intros panel.
  destruct (negb (py_bool panel));
    [apply preserves_set_status; exact in_sync_status|].
  apply preserves_bind;
    [apply preserves_ensure_viewport_20; [exact in_sync_status | exact in_sync_scene]|].
  intros _. apply preserves_bind.
  { intros w r w' E H. apply capture_settings_frame in E.
    destruct E as [_ (_ & _ & _ & _ & G1 & G2 & _)].
    unfold in_sync in *. congruence. }
  intros s. destruct (py_bool s);
    [|apply preserves_set_status; exact in_sync_status].
  apply preserves_bind; [apply preserves_modify; intros x H; exact H|]. intros _.
  apply preserves_bind; [apply preserves_query|]. intros mel.
  apply preserves_bind; [apply preserves_modify; intros x H; exact H|]. intros _.
  apply preserves_set_status. exact in_sync_status.
Qed.

(** X30.  The handlers of the window keep the check box and the GPU
    cache flag together.  When the two agree before capture_viewport,
    save_preset, delete_preset or refresh_preset_list, they agree after
    it, however the call ends and whatever the user answers; after
    toggle_gpu_cache they agree.  They agree after load_preset when the
    flag stored in the preset that is read, if it stores one, is a bool,
    and after apply_settings when the same holds of the current
    snapshot. *)
Theorem check_box_shows_flag (w : world) :
  in_sync w ->
  in_sync (snd (capture_viewport w))
  /\ (forall button name confirm,
        in_sync (snd (save_preset button name confirm w)))
  /\ (forall selected result, in_sync (snd (delete_preset selected result w)))
  /\ in_sync (snd (refresh_preset_list w))
  /\ in_sync (snd (toggle_gpu_cache w))
  /\ (forall selected,
        (forall name rest j,
           selected = Some (name :: rest) ->
           disk_with_preset_dir w !! preset_path_of w name
           = Some (File (Some j)) ->
           boolean_flag (json_load j)) ->
        in_sync (snd (load_preset selected w)))
  /\ (boolean_flag (last_captured_settings (tool w)) ->
      in_sync (snd (apply_settings w))).
Proof.
  intros H. pose proof H as H0. unfold in_sync in H.
  split; [|split; [|split; [|split; [|split; [|split]]]]].
  - destruct (capture_viewport w) as [r w'] eqn:E.
    exact (in_sync_capture_viewport w r w' E H).
  - intros button name confirm.
    destruct (save_preset_effect button name confirm w)
      as (w' & -> & _ & _ & _ & G1 & G2 & _).
    unfold in_sync. simpl. congruence.
  - intros [[|name rest]|] result; try exact H.
    destruct (String.eqb result "Yes") eqn:Hy.
    2:{ unfold delete_preset. rewrite Hy. exact H. }
    apply String.eqb_eq in Hy. subst result.
    pose proof (delete_preset_cases w name rest) as C.
    destruct (os_remove _ _) as [fs|e].
    + destruct C as (w' & -> & _ & _ & _ & _ & G1 & G2 & _).
      unfold in_sync. simpl. congruence.
    + rewrite C. exact H.
  - destruct (refresh_preset_list_world w) as (r & items & ->). exact H.
  - destruct (toggle_gpu_cache_cases w) as (w' & -> & _ & G & _). exact G.
  - intros [[|name rest]|] B; try exact H.
    pose proof (load_preset_cases w name rest) as C.
    unfold read_json in C.
    destruct (disk_with_preset_dir w !! preset_path_of w name)
      as [[|[j|]]|] eqn:L; try (rewrite C; exact H).
    destruct C as (w' & -> & _ & _ & _ & _ & G). unfold in_sync. simpl.
    pose proof (B name rest j eq_refl L) as Bj.
    unfold boolean_flag in Bj.
    destruct (stored_gpu_flag (json_load j)) as [g|e].
    + destruct (Bj g eq_refl) as [b ->]. simpl in G.
      destruct G as [-> ->]. reflexivity.
    + destruct G as (-> & -> & _). exact H.
  - intros B. exact (in_sync_apply_settings w B H0).
Qed.

End CheckBox.

(** ** The statements above on the sample session *)

#[local] Existing Instance Sample.runtime.
#[local] Existing Instance Sample.os.
#[local] Existing Instance Sample.host.
#[local] Existing Instance Studio.edits.

Lemma settings_to_mel_returns_iff_renderable_witness :
  Sample.sections <> []
  /\ dict_sections Sample.sections = true
  /\ (is_ok (settings_to_mel init_instance (VDict Sample.sections)) = true
      <-> renderable (VDict Sample.sections) = true).
Proof.
  split; [discriminate|]. split; [reflexivity|].
  apply (settings_to_mel_returns_iff_renderable init_instance Sample.sections);
    [discriminate | reflexivity].
Defined.

Lemma settings_to_mel_reads_sections_witness :
  Sample.sections <> []
  /\ Studio.labelled_sections <> []
  /\ (forall k, In k section_names ->
        dict_get k Sample.sections = dict_get k Studio.labelled_sections)
  /\ settings_to_mel init_instance (VDict Sample.sections)
     = settings_to_mel Sample.instance0 (VDict Studio.labelled_sections).
Proof.
  assert (forall k, In k section_names ->
            dict_get k Sample.sections = dict_get k Studio.labelled_sections)
    as H.
  { intros k Hk. simpl in Hk.
    repeat (destruct Hk as [<-|Hk]; [reflexivity|]). contradiction. }
  split; [discriminate|]. split; [discriminate|]. split; [exact H|].
  apply (settings_to_mel_reads_sections init_instance Sample.instance0
           Sample.sections Studio.labelled_sections);
    [discriminate | discriminate | exact H].
Defined.

Lemma settings_to_mel_display_special_witness :
  dict_get "display" Studio.shaded_sections
  = Some (VDict Studio.shaded_display)
  /\ exists out l,
       settings_to_mel init_instance (VDict Studio.shaded_sections) = Ok out
       /\ out = str_join nl l
       /\ In (model_editor_line "displayAppearance" (q "smoothShaded")) l
       /\ exists pre post,
            l = pre ++ (model_editor_line "hwFog" "true"
                          :: objexists_guard ++ [fog_enable_line "1"]) ++ post.
Proof.
  split; [reflexivity|].
  eexists.
  destruct (settings_to_mel_display_special init_instance
              Studio.shaded_sections Studio.shaded_display _ eq_refl eq_refl)
    as (l & E & Q & F).
  exists l. split; [reflexivity|]. split; [exact E|]. split.
  - apply (Q "displayAppearance" (VStr "smoothShaded"));
      [left; reflexivity | right; reflexivity].
  - destruct (F (VBool true)) as (n & pre & post & Hn & Hl);
      [right; left; reflexivity|].
    inversion Hn; subst n. exists pre, post. exact Hl.
Defined.

Lemma settings_to_mel_gpu_default_witness :
  Sample.flat_sections <> []
  /\ dict_get "plugin_display" Sample.flat_sections = None
  /\ exists out l,
       settings_to_mel init_instance (VDict Sample.flat_sections) = Ok out
       /\ out = str_join nl l
       /\ In (gpu_flag_line "false") l.
Proof.
  assert (Sample.flat_sections <> []) as Hne by discriminate.
  split; [exact Hne|]. split; [reflexivity|].
  eexists.
  destruct (settings_to_mel_gpu_default init_instance Sample.flat_sections _
              Hne (or_introl eq_refl) eq_refl)
    as (l & E & I).
  exists l. split; [reflexivity|]. split; [exact E | exact I].
Defined.

Lemma capture_settings_survives_witness :
  py_bool Sample.panel4 = true
  /\ cmds_modelEditor_query (maya Sample.fresh_world) Sample.panel4 "camera"
     = Ok (VStr "persp")
  /\ exists d w',
       capture_settings Sample.panel4 Sample.fresh_world = (Ok (VDict d), w')
       /\ map fst d = captured_keys
       /\ status_only Sample.fresh_world w'.
Proof.
  split; [reflexivity|]. split; [reflexivity|].
  apply (capture_settings_survives Sample.fresh_world Sample.panel4
           (VStr "persp") eq_refl eq_refl).
  intros sc H. discriminate H.
Defined.

(** The sample capture, as a dict. *)
Lemma sample_capture :
  exists d w',
    capture_settings Sample.panel4 Sample.fresh_world = (Ok (VDict d), w').
Proof.
  destruct (capture_settings_returns Sample.fresh_world Sample.panel4
              (VStr "persp") eq_refl eq_refl)
    as (s & w' & C); [discriminate|].
  destruct (capture_settings_shape Sample.fresh_world w' Sample.panel4 s
              eq_refl C) as (d & -> & _).
  exists d, w'. exact C.
Defined.

Lemma captured_camera_sections_witness :
  exists d w' gate,
    capture_settings Sample.panel4 Sample.fresh_world = (Ok (VDict d), w')
    /\ cmds_modelEditor_query (maya Sample.fresh_world) Sample.panel4 "camera"
       = Ok (VStr "persp")
    /\ dict_get "camera_gate" d = Some (VDict gate)
    /\ map fst gate = ["displayFilmGate"; "displayResolution"; "overscan"].
Proof.
  destruct sample_capture as (d & w' & C).
  destruct (captured_camera_sections Sample.fresh_world w' Sample.panel4
              (VStr "persp") d C eq_refl) as (G & _).
  exists d, w'. eexists. split; [exact C|]. split; [reflexivity|].
  split; [exact G | reflexivity].
Defined.

Lemma captured_background_section_witness :
  exists d w' sc n,
    capture_settings Sample.panel4 Sample.fresh_world = (Ok (VDict d), w')
    /\ dict_get "background" d
       = Some (VDict (try_store (background_reads sc) []))
    /\ map fst (try_store (background_reads sc) [])
       = firstn n ["gradient"; "color"; "topColor"; "bottomColor"].
Proof.
  destruct sample_capture as (d & w' & C).
  destruct (captured_background_section Sample.fresh_world w' Sample.panel4 d C)
    as (sc & n & B & K).
  exists d, w', sc, n. split; [exact C|]. split; [exact B | exact K].
Defined.

Lemma sample_hw2_names : List.NoDup (map fst the_hw2_attrs).
Proof.
  apply NoDup_ListNoDup. apply (bool_decide_unpack _). vm_compute. exact I.
Qed.

Lemma captured_hardware_section_witness :
  exists d w' hw,
    capture_settings Sample.panel4 Sample.fresh_world = (Ok (VDict d), w')
    /\ List.NoDup (map fst (hw2_attrs (tool Sample.fresh_world)))
    /\ dict_get "hardware2" d = Some (VDict hw)
    /\ dict_get "multiSampleEnable" hw = Some (VBool true)
    /\ dict_get "hwFogColor" hw = Some Sample.grey_tuple
    /\ dict_get "panel" hw = None.
Proof.
  destruct sample_capture as (d & w' & C).
  destruct (captured_hardware_section Sample.fresh_world w' Sample.panel4 d C
              sample_hw2_names) as (hw & H & I & O).
  exists d, w', hw. split; [exact C|]. split; [exact sample_hw2_names|].
  split; [exact H|]. split; [|split].
  - apply (I "multiSampleEnable" TBool). simpl. tauto.
  - apply (I "hwFogColor" TFloat3). simpl. tauto.
  - apply O. simpl. intuition discriminate.
Defined.

Lemma captured_display_keys_witness :
  exists d w' display,
    capture_settings Sample.panel4 Sample.fresh_world = (Ok (VDict d), w')
    /\ dict_get "display" d = Some (VDict display)
    /\ incl (map fst display) (display_attrs (tool Sample.fresh_world)).
Proof.
  destruct sample_capture as (d & w' & C).
  destruct (captured_display_keys Sample.fresh_world w' Sample.panel4 d C)
    as (display & H & I).
  exists d, w', display. split; [exact C|]. split; [exact H | exact I].
Defined.

Lemma get_active_viewport_choice_witness :
  fst (get_active_viewport Sample.fresh_world) = Ok Sample.panel4.
Proof.
  exact (proj1 (get_active_viewport_choice Sample.fresh_world)
           eq_refl eq_refl).
Defined.

Lemma capture_viewport_outcome_witness :
  exists w',
    capture_viewport Sample.fresh_world = (Ok tt, w')
    /\ disk w' = disk Sample.fresh_world.
Proof.
  assert (fst (capture_viewport Sample.fresh_world) = Ok tt) as R
    by (vm_compute; reflexivity).
  destruct (capture_viewport Sample.fresh_world) as [r w'] eqn:E.
  simpl in R. subst r. exists w'. split; [reflexivity|].
  exact (proj1 (capture_viewport_outcome Sample.fresh_world w' E)).
Defined.


Lemma save_preset_keeps_snapshot_witness :
  os_path_exists (disk Sample.world0) (preset_dir_of Sample.world0) = true
  /\ exists w',
       save_preset "Save" "look" "Yes" Sample.world0 = (Ok tt, w')
       /\ last_captured_settings (tool w') = Sample.snapshot
       /\ gpu_checkbox (tool w') = VBool false.
Proof.
  assert (os_path_exists (disk Sample.world0) (preset_dir_of Sample.world0)
          = true) as H by (vm_compute; reflexivity).
  split; [exact H|].
  destruct (save_preset_keeps_snapshot "Save" "look" "Yes" Sample.world0 H)
    as (w' & E & S & _ & _ & _ & B & _).
  exists w'. split; [exact E|]. split; [exact S | exact B].
Defined.

Lemma load_preset_never_raises_witness :
  os_path_exists (disk Sample.world0) (preset_dir_of Sample.world0) = true
  /\ exists w',
       load_preset (Some ["notes"]) Sample.world0 = (Ok tt, w')
       /\ disk w' = disk Sample.world0.
Proof.
  assert (os_path_exists (disk Sample.world0) (preset_dir_of Sample.world0)
          = true) as H by (vm_compute; reflexivity).
  split; [exact H|].
  destruct (load_preset_never_raises (Some ["notes"]) Sample.world0 H)
    as (w' & E & D & _).
  exists w'. split; [exact E | exact D].
Defined.

Lemma load_preset_unreadable_witness :
  os_path_exists (disk Sample.world0) (preset_dir_of Sample.world0) = true
  /\ (forall j, disk Sample.world0 !! preset_path_of Sample.world0 "missing"
                <> Some (File (Some j)))
  /\ exists e,
       read_json (disk Sample.world0) (preset_path_of Sample.world0 "missing")
       = Raise e
       /\ load_preset (Some ["missing"]) Sample.world0
          = (Ok tt,
             with_tool Sample.world0
               (update_status (tool Sample.world0)
                  ("Error loading preset: " +:+ exn_str e))).
Proof.
  assert (os_path_exists (disk Sample.world0) (preset_dir_of Sample.world0)
          = true) as D by (vm_compute; reflexivity).
  assert (forall j, disk Sample.world0 !! preset_path_of Sample.world0 "missing"
                    <> Some (File (Some j))) as H
    by (intros j; vm_compute; discriminate).
  split; [exact D|]. split; [exact H|].
  exact (load_preset_unreadable Sample.world0 "missing" [] D H).
Defined.

Lemma load_preset_sets_gpu_flag_witness :
  disk_with_preset_dir Studio.cached_world
    !! preset_path_of Studio.cached_world "cached"
  = Some (File (Some (json_dump (VDict Studio.cached_sections))))
  /\ disk_with_preset_dir Studio.cached_world
       !! preset_path_of Studio.cached_world "odd"
     = Some (File (Some (json_dump (VDict Studio.odd_sections))))
  /\ gpu_cache_enabled (tool Studio.cached_world) = VBool false
  /\ gpu_checkbox (tool Studio.cached_world) = VBool false
  /\ (exists w',
        load_preset (Some ["cached"]) Studio.cached_world = (Ok tt, w')
        /\ gpu_cache_enabled (tool w') = VBool true
        /\ gpu_checkbox (tool w') = VBool true)
  /\ (exists w',
        load_preset (Some ["odd"]) Studio.cached_world = (Ok tt, w')
        /\ gpu_cache_enabled (tool w') = VNone
        /\ gpu_checkbox (tool w') = VBool false
        /\ status_label (tool w')
           = "Status: Error loading preset: " +:+ exn_str TypeError).
Proof.
  assert (disk_with_preset_dir Studio.cached_world
            !! preset_path_of Studio.cached_world "cached"
          = Some (File (Some (json_dump (VDict Studio.cached_sections))))) as H
    by (vm_compute; reflexivity).
  assert (disk_with_preset_dir Studio.cached_world
            !! preset_path_of Studio.cached_world "odd"
          = Some (File (Some (json_dump (VDict Studio.odd_sections))))) as K
    by (vm_compute; reflexivity).
  split; [exact H|]. split; [exact K|].
  split; [reflexivity|]. split; [reflexivity|]. split.
  - destruct (load_preset_sets_gpu_flag Studio.cached_world "cached" [] _ H)
      as (w' & E & _ & _ & G & _).
    exists w'. split; [exact E|]. apply G. vm_compute. reflexivity.
  - destruct (load_preset_sets_gpu_flag Studio.cached_world "odd" [] _ K)
      as (w' & E & _ & G & _).
    assert (stored_gpu_flag (json_load (json_dump (VDict Studio.odd_sections)))
            = Ok VNone) as F by (vm_compute; reflexivity).
    rewrite F in G. destruct G as (G1 & G2 & _ & _ & G3).
    exists w'. split; [exact E|]. split; [exact G1|].
    split; [exact G2 | exact G3].
Defined.

Lemma sample_flat_wf : wf_value Sample.flat_snapshot.
Proof.
  simpl. repeat split; repeat constructor; simpl;
    rewrite ?list_elem_of_In; simpl; intuition discriminate.
Qed.

Lemma load_then_save_copies_witness :
  wf_value Sample.flat_snapshot
  /\ py_bool Sample.flat_snapshot = true
  /\ exists w1 w2,
       load_preset (Some ["studio"]) Sample.world0 = (Ok tt, w1)
       /\ save_preset "Save" "copy" "No" w1 = (Ok tt, w2)
       /\ disk w2 !! preset_path_of w1 "copy"
          = Some (File (Some (json_dump Sample.flat_snapshot))).
Proof.
  split; [exact sample_flat_wf|]. split; [reflexivity|].
  assert (disk_with_preset_dir Sample.world0
            !! preset_path_of Sample.world0 "studio"
          = Some (File (Some (json_dump Sample.flat_snapshot)))) as Hf
    by (vm_compute; reflexivity).
  destruct (load_preset_reads Sample.world0 "studio" [] _ Hf)
    as (w1 & E1 & L1 & D1 & C1).
  assert (disk_with_preset_dir Sample.world0 = disk Sample.world0) as A.
  { apply disk_with_preset_dir_id. vm_compute. reflexivity. }
  assert (preset_dir_of w1 = preset_dir_of Sample.world0) as Hdir.
  { unfold preset_dir_of. rewrite C1, D1, A. reflexivity. }
  assert (preset_path_of w1 "copy" = preset_path_of Sample.world0 "copy") as Hp.
  { unfold preset_path_of. rewrite Hdir. reflexivity. }
  assert (disk_with_preset_dir w1 = disk Sample.world0) as Hd.
  { rewrite disk_with_preset_dir_id; rewrite ?Hdir, D1, A;
      [reflexivity | vm_compute; reflexivity]. }
  destruct (load_then_save_copies Sample.world0 w1 "studio" "copy" "No" []
              Sample.flat_snapshot sample_flat_wf eq_refl Hf E1)
    as (w2 & E2 & _ & F2).
  - discriminate.
  - rewrite Hp, Hd. vm_compute. reflexivity.
  - rewrite Hp, Hd. vm_compute. discriminate.
  - exists w1, w2. split; [exact E1|]. split; [exact E2 | exact F2].
Defined.

Lemma refresh_preset_list_listdir_raises_witness :
  os_listdir (disk_with_preset_dir Studio.blocked_world)
    (preset_dir_of Studio.blocked_world) = Raise OSError
  /\ fst (refresh_preset_list Studio.blocked_world) = Raise OSError
  /\ preset_list (tool (snd (refresh_preset_list Studio.blocked_world))) = [].
Proof.
  assert (os_listdir (disk_with_preset_dir Studio.blocked_world)
            (preset_dir_of Studio.blocked_world) = Raise OSError) as H
    by (vm_compute; reflexivity).
  split; [exact H|].
  rewrite (refresh_preset_list_listdir_raises Studio.blocked_world OSError H).
  split; reflexivity.
Defined.

Lemma delete_preset_removes_witness :
  disk_with_preset_dir Sample.world0 !! preset_path_of Sample.world0 "anim"
  = Some (File (Some (json_dump Sample.snapshot)))
  /\ preset_path_of Sample.world0 "anim" <> preset_dir_of Sample.world0
  /\ exists w',
       delete_preset (Some ["anim"]) "Yes" Sample.world0 = (Ok tt, w')
       /\ disk w' !! preset_path_of Sample.world0 "anim" = None.
Proof.
  assert (disk_with_preset_dir Sample.world0
            !! preset_path_of Sample.world0 "anim"
          = Some (File (Some (json_dump Sample.snapshot)))) as H
    by (vm_compute; reflexivity).
  assert (preset_path_of Sample.world0 "anim" <> preset_dir_of Sample.world0)
    as N by (vm_compute; discriminate).
  split; [exact H|]. split; [exact N|].
  destruct (delete_preset_removes Sample.world0 "anim" [] _ H N)
    as (w' & E & F & _).
  exists w'. split; [exact E | exact F].
Defined.

Lemma delete_preset_keeps_witness :
  os_path_exists (disk Sample.world0) (preset_dir_of Sample.world0) = true
  /\ exists w',
       delete_preset (Some ["anim"]) "Yes" Sample.world0 = (Ok tt, w')
       /\ last_captured_settings (tool w') = Sample.snapshot
       /\ disk w' !! preset_path_of Sample.world0 "studio"
          = disk Sample.world0 !! preset_path_of Sample.world0 "studio".
Proof.
  assert (os_path_exists (disk Sample.world0) (preset_dir_of Sample.world0)
          = true) as H by (vm_compute; reflexivity).
  split; [exact H|].
  destruct (delete_preset_keeps (Some ["anim"]) "Yes" Sample.world0 H)
    as (w' & E & S & _ & _ & _ & D & _).
  exists w'. split; [exact E|]. split; [exact S|].
  apply D. intros name rest Q. inversion Q; subst name rest.
  vm_compute. discriminate.
Defined.



Lemma apply_settings_closes_chunk_witness :
  py_bool (last_captured_settings (tool Studio.session_world)) = true
  /\ fst (get_active_viewport Studio.session_world) = Ok Sample.panel4
  /\ exists w2,
       keeps_store Studio.session_world w2
       /\ apply_settings Studio.session_world
          = match cmds_undoInfo_closeChunk (maya w2) with
            | Ok sc => (Ok tt, with_maya w2 sc)
            | Raise e => (Raise e, w2)
            end.
Proof.
  split; [reflexivity|]. split; [reflexivity|].
  assert (fst (ensure_viewport_20 Sample.panel4 Studio.session_world) = Ok tt)
    as R by (vm_compute; reflexivity).
  destruct (ensure_viewport_20 Sample.panel4 Studio.session_world)
    as [r w1] eqn:E.
  simpl in R. subst r.
  exact (apply_settings_closes_chunk Studio.session_world w1 Sample.panel4
           eq_refl eq_refl eq_refl E).
Defined.

Lemma apply_settings_missing_display_witness :
  last_captured_settings (tool Studio.bare_world) = VDict Studio.bare_sections
  /\ dict_get "display" Studio.bare_sections = None
  /\ status_label (tool (snd (apply_settings Studio.bare_world)))
     = "Status: Error applying settings: " +:+ exn_str (KeyError "display")
  /\ gpu_cache_enabled (tool (snd (apply_settings Studio.bare_world)))
     = gpu_cache_enabled (tool Studio.bare_world).
Proof.
  split; [reflexivity|]. split; [reflexivity|].
  assert (fst (ensure_viewport_20 Sample.panel4 Studio.bare_world) = Ok tt)
    as R by (vm_compute; reflexivity).
  destruct (ensure_viewport_20 Sample.panel4 Studio.bare_world)
    as [r w1] eqn:E.
  simpl in R. subst r.
  destruct (apply_settings_missing_display Studio.bare_world w1 Sample.panel4
              Studio.bare_sections eq_refl)
    as (S & G & _).
  - discriminate.
  - reflexivity.
  - reflexivity.
  - reflexivity.
  - exact E.
  - intros sc. reflexivity.
  - intros sc. reflexivity.
  - split; [exact S | exact G].
Defined.

Lemma check_box_shows_flag_witness :
  in_sync Sample.world0
  /\ in_sync (snd (capture_viewport Sample.world0))
  /\ in_sync (snd (load_preset (Some ["anim"]) Sample.world0))
  /\ in_sync (snd (apply_settings Sample.world0))
  /\ in_sync (snd (toggle_gpu_cache Sample.world0)).
Proof.
  assert (in_sync Sample.world0) as H by reflexivity.
  assert (forall s, stored_gpu_flag s = Ok (VBool false) -> boolean_flag s)
    as B.
  { intros s F g Hg. rewrite F in Hg. inversion Hg. exists false. reflexivity. }
  split; [exact H|].
  destruct (check_box_shows_flag Sample.world0 H)
    as (C & _ & _ & _ & T & L & A).
  split; [exact C|]. split; [|split; [|exact T]].
  - apply L. intros name rest j Q Hj. inversion Q; subst name rest.
    assert (disk_with_preset_dir Sample.world0
              !! preset_path_of Sample.world0 "anim"
            = Some (File (Some (json_dump Sample.snapshot)))) as K
      by (vm_compute; reflexivity).
    rewrite K in Hj. inversion Hj; subst j.
    apply B. vm_compute. reflexivity.
  - apply A. apply B. vm_compute. reflexivity.
Defined.
